(** * virter: VM lifecycle and provisioning orchestration (internal/virter/vm.go)

    A shallow embedding of the methods of [*Virter] in vm.go.  The methods
    drive a libvirt connection and a few collaborators through interface
    calls; here every such call is a _request_ answered by an environment
    of arbitrary behaviour, and every method is a function from the
    environment's state to the list of requests it issued, the state it left
    and the error it returned.

    What is not modelled: log output ([log.Print]); the interactive session
    ([VMSSHSession]); the inside of [dockerRun] and the DHCP helpers, each of
    which is one request to the environment; the unused [context.Context]
    arguments.  To its callers [runSSHCommand] is one request as well; what
    it does itself is embedded apart, in [SSHCommand].  The goroutines of an [errgroup.Group] are
    taken as bodies that complete one after the other in an order chosen by
    the scheduler; the [select] of [vmShutdown] receives what the environment
    delivers, in the order in which it delivers it.

    Part I holds the definitions: the embedding, the vocabulary of the
    properties, and a test double for the backend.  Part II holds the
    properties, Part III further properties of the same code. *)

From Stdlib Require Import ZArith NArith Ascii Permutation.
From stdpp Require Import base strings list gmap pretty.

Local Open Scope Z_scope.

(** * Part I: definitions *)

(** ** Backend data (github.com/digitalocean/go-libvirt) *)

(** [libvirt.UUID] is [[16]byte]; kept as one 128-bit number. *)
Definition UUID := N.

Record StoragePool := { sp_Name : string; sp_UUID : UUID }.
Record StorageVol := { vol_Pool : string; vol_Name : string; vol_Key : string }.
Record Domain := { dom_Name : string; dom_UUID : UUID; dom_ID : Z }.
Record DomainSnapshot := { snap_Name : string; snap_Dom : Domain }.
Record Network := { net_Name : string; net_UUID : UUID }.

(** [libvirt.DomainEventLifecycleMsg], the element type of the channel that
    [LifecycleEvents] returns. *)
Record DomainEventLifecycleMsg :=
  { ev_Dom : Domain; ev_Event : Z; ev_Detail : Z }.

(** [libvirt.DomainEventStopped] of the [DomainEventType] enumeration. *)
Definition DomainEventStopped : Z := 5.

(** ** Errors

    A Go [error] is nil or a value.  The values this file builds or sees:
    an error of the libvirt connection with its numeric code, a plain
    formatted message ([fmt.Errorf] without [%w]), and a message wrapping a
    cause ([fmt.Errorf("<context>: %w", err)]). *)
Definition errorNumber := N.

Inductive Err : Type :=
| LibvirtError (code : errorNumber) (message : string)
| Errorf (message : string)
| Wrapf (context : string) (cause : Err).

Definition error := option Err.

(** The text of an error, as [err.Error()] prints it. *)
Fixpoint Error (e : Err) : string :=
  match e with
  | LibvirtError _ m => m
  | Errorf m => m
  | Wrapf c e' => c +:+ ": " +:+ Error e'
  end.

(** Modelled from the spec: [hasErrorCode] is declared outside vm.go.
    Section 6 makes "not found" a distinguished condition of the backend's
    domain and volume lookups, distinct from other failures (and from no
    failure); the condition is a code carried by the backend's own error
    value. *)
Definition hasErrorCode (err : error) (code : errorNumber) : bool :=
  match err with
  | Some (LibvirtError c _) => N.eqb c code
  | _ => false
  end.

(** The answer of one call that returns [(T, error)]. *)
Inductive result (A : Type) : Type :=
| Ok (a : A)
| Fault (e : Err).
Arguments Ok {A} a.
Arguments Fault {A} e.

(** ** Data declared outside vm.go *)

(** [VMConfig]: the fields vm.go reads. *)
Record VMConfig := {
  ImageName : string;
  VMName : string;
  MemoryKiB : Z;
  VCPUs : Z;
  VMID : Z;
  SSHPublicKeys : list string
}.

(** [ProvisionShellStep] and [ProvisionRsyncStep]: the fields vm.go reads. *)
Record ProvisionShellStep := { Script : string; Env : gmap string string }.
Record ProvisionRsyncStep := { Source : string; Dest : string }.

(** [DockerContainerConfig] is passed through to [dockerRun] unread. *)
Record DockerContainerConfig := { ContainerImage : string }.

(** The values of a [map[string]interface{}] handed to the templates. *)
Inductive TemplateValue : Type :=
| TString (s : string)
| TStrings (l : list string)
| TUint (n : Z).

Definition TemplateData := gmap string TemplateValue.

(** [ssh.ClientConfig] as [getSSHClientConfig] fills it: the user and the one
    public-key signer; the host key callback ignores host keys. *)
Record Signer := { signer_key : string }.
Record ClientConfig := { User : string; Auth : list Signer }.

(** ** Requests

    One constructor per call that leaves vm.go: the methods of the
    [LibvirtConnection] interface, the methods of [*Virter] and the functions
    declared in other files of the package, the interface values passed in
    ([ISOGenerator], [PortWaiter], [AfterNotifier], [NetworkCopier]) and the
    library functions with an effect. *)
Inductive Call : Type :=
(* v.libvirt *)
| StoragePoolLookupByName (name : string)
| StorageVolLookupByName (sp : StoragePool) (name : string)
| StorageVolGetPath (vol : StorageVol)
| StorageVolCreateXML (sp : StoragePool) (xml : string) (flags : Z)
| StorageVolUpload (vol : StorageVol) (data : string) (offset length flags : Z)
| StorageVolDelete (vol : StorageVol) (flags : Z)
| DomainDefineXML (xml : string)
| DomainCreate (d : Domain)
| DomainLookupByName (name : string)
| DomainListAllSnapshots (d : Domain) (needResults : Z) (flags : Z)
| DomainSnapshotDelete (snap : DomainSnapshot) (flags : Z)
| DomainIsActive (d : Domain)
| DomainIsPersistent (d : Domain)
| DomainDestroy (d : Domain)
| DomainUndefine (d : Domain)
| DomainShutdown (d : Domain)
| LifecycleEvents
| NetworkLookupByName (name : string)
(* methods of *Virter declared in other files *)
| addDHCPEntry (mac : string) (vmID : Z)
| rmDHCPEntry (d : Domain)
| getMAC (d : Domain)
| findIPs (network : Network) (mac : string)
| renderTemplate (name : string) (data : TemplateData)
(* interface values passed in *)
| Generate (files : gmap string string)
| WaitPort (ip : string) (port : string)
| After (d : Z)
| Copy (host : string) (files : list string) (dest : string)
(* functions *)
| dockerRun (cfg : DockerContainerConfig) (ips : list string) (sshPrivateKey : string)
| ParsePrivateKey (pem : string)
| Glob (pattern : string)
| runSSHCommand (config : ClientConfig) (ipPort : string) (script : string) (env : list string).

(** The type of what each request returns next to its [error]. *)
Definition reply (c : Call) : Type :=
  match c with
  | StoragePoolLookupByName _ => StoragePool
  | StorageVolLookupByName _ _ => StorageVol
  | StorageVolGetPath _ => string
  | StorageVolCreateXML _ _ _ => StorageVol
  | DomainDefineXML _ => Domain
  | DomainLookupByName _ => Domain
  | DomainListAllSnapshots _ _ _ => (list DomainSnapshot * Z)%type
  | DomainIsActive _ => Z
  | DomainIsPersistent _ => Z
  | NetworkLookupByName _ => Network
  | addDHCPEntry _ _ => string
  | getMAC _ => string
  | findIPs _ _ => list string
  | renderTemplate _ _ => string
  | Generate _ => string
  | ParsePrivateKey _ => Signer
  | Glob _ => list string
  | _ => unit
  end.

(** What one [select] of [vmShutdown] receives: the next lifecycle event, or
    the tick of the timer that [After] armed. *)
Inductive Select : Type :=
| RecvEvent (event : DomainEventLifecycleMsg)
| RecvTimeout.

(** ** The monad of a method run *)

Section Runs.
Context {Σ : Type}.

(** The environment's state; what the two channels of [vmShutdown] will
    deliver, in the order the [select] statements receive it; and the
    scheduler's choices: which of the goroutines still running finishes
    next. *)
Record World := { backend : Σ; inbox : list Select; scheduler : list nat }.

(** How a run ends: it returns a value with a nil error, it returns a
    non-nil error, or it stays blocked in a [select] that nothing more is
    delivered to. *)
Inductive Outcome (A : Type) : Type :=
| Done (a : A)
| Failed (e : Err)
| Blocked.
Global Arguments Done {A} a.
Global Arguments Failed {A} e.
Global Arguments Blocked {A}.

Record Run (A : Type) := {
  final : World;
  trace : list Call;
  outcome : Outcome A
}.
Global Arguments final {A} r.
Global Arguments trace {A} r.
Global Arguments outcome {A} r.
Global Arguments Build_Run {A} final trace outcome.

Definition M (A : Type) : Type := World → Run A.

Definition ret {A} (a : A) : M A :=
  λ w, {| final := w; trace := []; outcome := Done a |}.

Definition fail {A} (e : Err) : M A :=
  λ w, {| final := w; trace := []; outcome := Failed e |}.

(** The run [r], started after the requests [t] had been issued. *)
Definition prefixed {A} (t : list Call) (r : Run A) : Run A :=
  {| final := final r; trace := t ++ trace r; outcome := outcome r |}.

Definition stopped {A B} (r : Run A) (o : Outcome B) : Run B :=
  {| final := final r; trace := trace r; outcome := o |}.

Definition bind {A B} (m : M A) (k : A → M B) : M B :=
  λ w,
    let r := m w in
    match outcome r with
    | Done a => prefixed (trace r) (k a (final r))
    | Failed e => stopped r (Failed e)
    | Blocked => stopped r Blocked
    end.

Global Instance M_ret : MRet M := @ret.
Global Instance M_bind : MBind M := λ A B k m, bind m k.

(** [x, err := f(); if err != nil { ... }] where the error is inspected
    instead of returned. *)
Definition attempt {A} (m : M A) : M (result A) :=
  λ w,
    let r := m w in
    stopped r match outcome r with
              | Done a => Done (Ok a)
              | Failed e => Done (Fault e)
              | Blocked => Blocked
              end.

(** [if err != nil { return fmt.Errorf("<context>: %w", err) }] *)
Definition wrap {A} (m : M A) (context : string) : M A :=
  λ w,
    let r := m w in
    stopped r match outcome r with
              | Failed e => Failed (Wrapf context e)
              | o => o
              end.

(** The environment: the answer to each request and the state it leaves. *)
Definition Handler : Type := ∀ c : Call, Σ → Σ * result (reply c).

Definition call (h : Handler) (c : Call) : M (reply c) :=
  λ w,
    let '(σ, r) := h c (backend w) in
    {| final := {| backend := σ; inbox := inbox w; scheduler := scheduler w |};
       trace := [c];
       outcome := match r with Ok a => Done a | Fault e => Failed e end |}.

(** A request whose Go signature has no [error] result: the environment
    reacts, nothing is returned to inspect. *)
Definition signal (h : Handler) (c : Call) : M unit :=
  λ w,
    {| final := {| backend := fst (h c (backend w)); inbox := inbox w;
                   scheduler := scheduler w |};
       trace := [c];
       outcome := Done () |}.
(** The world after the environment answered and left the state [σ]. *)
Definition answered (w : World) (σ : Σ) : World :=
  {| backend := σ; inbox := inbox w; scheduler := scheduler w |}.

(** [wp m w Q]: the run of [m] from [w] satisfies [Q]. *)
Definition wp {A} (m : M A) (w : World) (Q : Run A → Prop) : Prop := Q (m w).

End Runs.

Arguments World Σ : clear implicits.
Arguments Run Σ A : clear implicits.
Arguments M Σ A : clear implicits.
Arguments Handler Σ : clear implicits.
Global Arguments wp : simpl never.

Notation "m <!> ctx" := (wrap m ctx) (at level 65, right associativity).

(** ** Names and constants *)

Definition templateMetaData : string := "meta-data".
Definition templateUserData : string := "user-data".
Definition templateCIData : string := "volume-cidata.xml".
Definition templateVMVolume : string := "volume-vm.xml".
Definition templateScratchVolume : string := "volume-scratch.xml".
Definition templateVM : string := "vm.xml".

Definition ciDataVolumeName (vmName : string) : string := vmName +:+ "-cidata".

Definition scratchVolumeName (vmName : string) : string := vmName +:+ "-scratch".

(** [net.JoinHostPort]: a host that contains a colon is put in brackets. *)
Fixpoint hasColon (s : string) : bool :=
  match s with
  | EmptyString => false
  | String a rest => if Ascii.eqb a ":"%char then true else hasColon rest
  end.

Definition JoinHostPort (host port : string) : string :=
  if hasColon host then "[" +:+ host +:+ "]:" +:+ port
  else host +:+ ":" +:+ port.

(** ** Goroutines of an [errgroup.Group]

    [g.Go(f)] starts [f] in a goroutine; [g.Wait()] returns once every one of
    them has returned, with the first non-nil error that one of them
    returned.  A goroutine's body is one request here, so a run of the group
    is an order in which the bodies complete: the scheduler picks, step by
    step, one of those still running. *)
Fixpoint completionOrder {A} (n : nat) (choices : list nat) (running : list A) : list A :=
  match n with
  | O => []
  | S n' =>
      let i := (hd 0%nat choices `mod` length running)%nat in
      match running !! i with
      | Some t => t :: completionOrder n' (tl choices) (delete i running)
      | None => []
      end
  end.

(** ** The methods of vm.go *)

(** [Virter]: the fields vm.go reads next to the connection. *)
Record Virter := { storagePoolName : string; networkName : string }.

Section Methods.
Context {Σ : Type}.

(** The connection [v.libvirt] and every other collaborator. *)
Variable env : Handler Σ.

(** Declared in other files of the package: the two error codes that
    [hasErrorCode] is asked about, the MAC derived from a VM's ID, and the
    conversion of a step's environment map to [KEY=value] strings. *)
Variables errNoDomain errNoStorageVol : errorNumber.
Variable qemuMAC : Z → string.
Variable EnvmapToSlice : gmap string string → list string.

Variable v : Virter.

Local Abbreviation M := (M Σ).

Definition errOf {A} (r : result A) : error :=
  match r with Ok _ => None | Fault e => Some e end.

Definition valueOf {A} (r : result A) : M A :=
  match r with Ok a => ret a | Fault e => fail e end.

Definition metaData (vmName : string) : M string :=
  let templateData : TemplateData := {[ "VMName" := TString vmName ]} in
  call env (renderTemplate templateMetaData templateData).

Definition userData (vmName : string) (sshPublicKeys : list string) : M string :=
  let templateData : TemplateData :=
    <[ "VMName" := TString vmName ]> {[ "SSHPublicKeys" := TStrings sshPublicKeys ]} in
  call env (renderTemplate templateUserData templateData).

Definition ciDataVolumeXML (name : string) : M string :=
  let templateData : TemplateData := {[ "VolumeName" := TString name ]} in
  call env (renderTemplate templateCIData templateData).

Definition vmVolumeXML (name backingPath : string) : M string :=
  let templateData : TemplateData :=
    <[ "VolumeName" := TString name ]> {[ "BackingPath" := TString backingPath ]} in
  call env (renderTemplate templateVMVolume templateData).

Definition scratchVolumeXML (name : string) : M string :=
  let templateData : TemplateData := {[ "VolumeName" := TString name ]} in
  call env (renderTemplate templateScratchVolume templateData).

Definition vmXML (poolName vmName mac : string) (memKiB vcpus : Z) : M string :=
  let templateData : TemplateData :=
    <[ "PoolName" := TString poolName ]>
    (<[ "VMName" := TString vmName ]>
     (<[ "MAC" := TString mac ]>
      (<[ "MemoryKiB" := TUint memKiB ]> {[ "VCPUs" := TUint vcpus ]}))) in
  call env (renderTemplate templateVM templateData).

Definition createCIData (sp : StoragePool) (vmConfig : VMConfig) : M unit :=
  let vmName := VMName vmConfig in
  let sshPublicKeys := SSHPublicKeys vmConfig in
  metaData ← metaData vmName;
  userData ← userData vmName sshPublicKeys;
  let files : gmap string string :=
    <[ "meta-data" := metaData ]> {[ "user-data" := userData ]} in
  ciData ← call env (Generate files) <!> "failed to generate ISO";
  xml ← ciDataVolumeXML (ciDataVolumeName vmName);
  sv ← call env (StorageVolCreateXML sp xml 0) <!> "could not create cloud-init volume";
  call env (StorageVolUpload sv ciData 0 0 0)
    <!> "failed to transfer cloud-init data to libvirt".

Definition createVMVolume (sp : StoragePool) (vmConfig : VMConfig) : M unit :=
  let imageName := ImageName vmConfig in
  let vmName := VMName vmConfig in
  backingVolume ← call env (StorageVolLookupByName sp imageName)
    <!> "could not get backing image volume";
  backingPath ← call env (StorageVolGetPath backingVolume)
    <!> "could not get backing image path";
  xml ← vmVolumeXML vmName backingPath;
  _ ← call env (StorageVolCreateXML sp xml 0) <!> "could not create VM boot volume";
  ret ().

Definition createScratchVolume (sp : StoragePool) (vmConfig : VMConfig) : M unit :=
  let vmName := VMName vmConfig in
  xml ← scratchVolumeXML (scratchVolumeName vmName);
  _ ← call env (StorageVolCreateXML sp xml 0) <!> "could not create scratch volume";
  ret ().

Definition createVM (sp : StoragePool) (vmConfig : VMConfig) : M string :=
  let vmName := VMName vmConfig in
  let vmID := VMID vmConfig in
  let memKiB := MemoryKiB vmConfig in
  let vcpus := VCPUs vmConfig in
  let mac := qemuMAC vmID in
  xml ← vmXML (sp_Name sp) vmName mac memKiB vcpus;
  d ← call env (DomainDefineXML xml) <!> "could not define domain";
  (* Add DHCP entry after defining the VM to ensure that it can be removed
     when removing the VM, but before starting it to ensure that it gets the
     correct IP address *)
  ip ← call env (addDHCPEntry mac vmID);
  call env (DomainCreate d) <!> "could create create (start) domain";;
  ret ip.

(** VMRun starts a VM. *)
Definition VMRun (vmConfig : VMConfig) (waitSSH : bool) : M unit :=
  sp ← call env (StoragePoolLookupByName (storagePoolName v))
    <!> "could not get storage pool";
  createVMVolume sp vmConfig;;
  createCIData sp vmConfig;;
  createScratchVolume sp vmConfig;;
  ip ← createVM sp vmConfig;
  if waitSSH
  then call env (WaitPort ip "ssh") <!> "unable to connect to SSH port"
  else ret ().

Fixpoint rmSnapshotsEach (snapshots : list DomainSnapshot) : M unit :=
  match snapshots with
  | [] => ret ()
  | snapshot :: rest =>
      call env (DomainSnapshotDelete snapshot 0) <!> "could not delete snapshot";;
      rmSnapshotsEach rest
  end.

Definition rmSnapshots (domain : Domain) : M unit :=
  r ← call env (DomainListAllSnapshots domain (-1) 0) <!> "could not list snapshots";
  rmSnapshotsEach (fst r).

Definition rmVolume (sp : StoragePool) (volumeName debugName : string) : M unit :=
  r ← attempt (call env (StorageVolLookupByName sp volumeName));
  if negb (hasErrorCode (errOf r) errNoStorageVol) then
    volume ← valueOf r <!> "could not get " +:+ debugName +:+ " volume";
    call env (StorageVolDelete volume 0)
      <!> "could not delete " +:+ debugName +:+ " volume"
  else ret ().

Definition vmRmExceptBoot (sp : StoragePool) (vmName : string) : M unit :=
  r ← attempt (call env (DomainLookupByName vmName));
  (if negb (hasErrorCode (errOf r) errNoDomain) then
     domain ← valueOf r <!> "could not get domain";
     rmSnapshots domain;;
     active ← call env (DomainIsActive domain)
       <!> "could not check if domain is active";
     persistent ← call env (DomainIsPersistent domain)
       <!> "could not check if domain is persistent";
     call env (rmDHCPEntry domain);;
     (if negb (active =? 0)
      then call env (DomainDestroy domain) <!> "could not destroy domain"
      else ret ());;
     (if negb (persistent =? 0)
      then call env (DomainUndefine domain) <!> "could not undefine domain"
      else ret ())
   else ret ());;
  rmVolume sp (scratchVolumeName vmName) "scratch";;
  rmVolume sp (ciDataVolumeName vmName) "cloud-init".

(** VMRm removes a VM. *)
Definition VMRm (vmName : string) : M unit :=
  sp ← call env (StoragePoolLookupByName (storagePoolName v))
    <!> "could not get storage pool";
  vmRmExceptBoot sp vmName;;
  rmVolume sp vmName "boot".

(** The loop [for active != 0 { select { ... } }] of [vmShutdown], entered
    with [active != 0]: one [select] per delivery.  The event of this domain
    with the "stopped" kind sets [active = 0] and the loop ends; any other
    event goes round again; the timer's tick returns the error. *)
Fixpoint awaitStopped (domain : Domain) (pending : list Select)
  : list Select * Outcome unit :=
  match pending with
  | [] => ([], Blocked)
  | RecvEvent event :: rest =>
      if (dom_ID (ev_Dom event) =? dom_ID domain) && (ev_Event event =? DomainEventStopped)
      then (rest, Done ())
      else awaitStopped domain rest
  | RecvTimeout :: rest =>
      (rest, Failed (Errorf "timed out waiting for domain to stop"))
  end.

Definition selectUntilStopped (domain : Domain) : M unit :=
  λ w,
    let '(rest, o) := awaitStopped domain (inbox w) in
    {| final := {| backend := backend w; inbox := rest; scheduler := scheduler w |};
       trace := []; outcome := o |}.

Definition vmShutdown (shutdownTimeout : Z) (domain : Domain) : M unit :=
  events ← call env LifecycleEvents <!> "could not start waiting for events";
  (* Check whether domain is active after starting event stream to ensure
     that the shutdown event is not missed. *)
  active ← call env (DomainIsActive domain) <!> "could not check if domain is active";
  (if negb (active =? 0)
   then call env (DomainShutdown domain) <!> "could not shut down domain"
   else ret ());;
  timeout ← signal env (After shutdownTimeout);
  if negb (active =? 0) then selectUntilStopped domain else ret ().

(** VMCommit commits a VM to an image. *)
Definition VMCommit (vmName : string) (shutdown : bool) (shutdownTimeout : Z) : M unit :=
  domain ← call env (DomainLookupByName vmName) <!> "could not get domain";
  (if shutdown then vmShutdown shutdownTimeout domain
   else
     active ← call env (DomainIsActive domain)
       <!> "could not check if domain is active";
     if negb (active =? 0) then fail (Errorf "cannot commit a running VM")
     else ret ());;
  sp ← call env (StoragePoolLookupByName (storagePoolName v))
    <!> "could not get storage pool";
  vmRmExceptBoot sp vmName.

Definition findVMIP (network : Network) (domain : Domain) : M string :=
  mac ← call env (getMAC domain);
  ips ← call env (findIPs network mac);
  match ips with
  | [] => fail (Errorf "no IP found for domain")
  | ip :: _ => ret ip
  end.

(** The [for _, vmName := range vmNames] loop of [getIPs]; the addresses
    found so far are returned next to the error. *)
Fixpoint getIPsEach (network : Network) (vmNames : list string) (ips : list string)
  : M (list string * error) :=
  match vmNames with
  | [] => ret (ips, None)
  | vmName :: rest =>
      r ← attempt (call env (DomainLookupByName vmName));
      match r with
      | Fault e => ret (ips, Some (Wrapf ("could not get domain '" +:+ vmName +:+ "'") e))
      | Ok domain =>
          r ← attempt (call env (DomainIsActive domain));
          match r with
          | Fault e =>
              ret (ips, Some (Wrapf ("could not check if domain '" +:+ vmName
                                      +:+ "' is active") e))
          | Ok active =>
              if active =? 0 then
                ret (ips, Some (Errorf ("cannot exec against VM '" +:+ vmName
                                         +:+ "' that is not running")))
              else
                r ← attempt (findVMIP network domain);
                match r with
                | Fault e =>
                    ret (ips, Some (Wrapf ("could not find IP for VM '" +:+ vmName
                                            +:+ "'") e))
                | Ok ip => getIPsEach network rest (ips ++ [ip])
                end
          end
      end
  end.

Definition getIPs (vmNames : list string) : M (list string * error) :=
  r ← attempt (call env (NetworkLookupByName (networkName v)));
  match r with
  | Fault e => ret ([], Some (Wrapf "could not get network" e))
  | Ok network => getIPsEach network vmNames []
  end.

(** [if err != nil { return err }] on a returned pair. *)
Definition orReturn {A} (r : A * error) : M A :=
  match snd r with
  | Some e => fail e
  | None => ret (fst r)
  end.

(** VMExecDocker runs a docker container against some VMs. *)
Definition VMExecDocker (vmNames : list string)
    (dockerContainerConfig : DockerContainerConfig) (sshPrivateKey : string) : M unit :=
  ips ← getIPs vmNames ≫= orReturn;
  call env (dockerRun dockerContainerConfig ips sshPrivateKey).

Definition getSSHClientConfig (vmNames : list string) (sshPrivateKey : string)
  : M (ClientConfig * list string) :=
  ips ← getIPs vmNames ≫= orReturn;
  signer ← call env (ParsePrivateKey sshPrivateKey);
  let config := {| User := "root"; Auth := [signer] |} in
  ret (config, ips).

(** [var g errgroup.Group; for ... { g.Go(task) }; return g.Wait()]: every
    task is started; they complete in the order the scheduler picks; the
    first non-nil error in that order is the one [Wait] returns, after the
    last task has returned. *)
Fixpoint errgroupJoin (tasks : list (M unit)) (first : error) : M unit :=
  match tasks with
  | [] => match first with Some e => fail e | None => ret () end
  | task :: rest =>
      r ← attempt task;
      errgroupJoin rest (match first with Some e => Some e | None => errOf r end)
  end.

Definition errgroupGoWait (tasks : list (M unit)) : M unit :=
  λ w,
    let n := length tasks in
    errgroupJoin (completionOrder n (scheduler w) tasks) None
      {| backend := backend w; inbox := inbox w; scheduler := drop n (scheduler w) |}.

(** VMExecShell runs a simple shell command against some VMs. *)
Definition VMExecShell (vmNames : list string) (sshPrivateKey : string)
    (shellStep : ProvisionShellStep) : M unit :=
  c ← getSSHClientConfig vmNames sshPrivateKey;
  let sshConfig := fst c in
  let ips := snd c in
  errgroupGoWait
    ((λ ip, call env (runSSHCommand sshConfig (JoinHostPort ip "22")
                        (Script shellStep) (EnvmapToSlice (Env shellStep))) : M unit)
       <$> ips).

Definition VMExecRsync (vmNames : list string) (rsyncStep : ProvisionRsyncStep) : M unit :=
  files ← call env (Glob (Source rsyncStep)) <!> "failed to parse glob pattern";
  ips ← getIPs vmNames ≫= orReturn;
  errgroupGoWait ((λ ip, call env (Copy ip files (Dest rsyncStep)) : M unit) <$> ips).

End Methods.


(** * What the properties speak of *)

(** ** Kinds of requests *)

(** Requests that remove or stop something. *)
Definition destructive (c : Call) : bool :=
  match c with
  | StorageVolDelete _ _ | DomainSnapshotDelete _ _ | DomainDestroy _
  | DomainUndefine _ | DomainShutdown _ | rmDHCPEntry _ => true
  | _ => false
  end.

(** The event that ends the wait: this domain's ID, kind "stopped". *)
Definition stopsDomain (domain : Domain) (event : DomainEventLifecycleMsg) : Prop :=
  dom_ID (ev_Dom event) = dom_ID domain ∧ ev_Event event = DomainEventStopped.

(** A delivery the loop goes round on: an event that is not that one. *)
Definition passedOver (domain : Domain) (s : Select) : Prop :=
  ∃ event, s = RecvEvent event ∧ ¬ stopsDomain domain event.

(** The three requests that bring a domain up. *)
Definition bootStep (c : Call) : bool :=
  match c with
  | DomainDefineXML _ | addDHCPEntry _ _ | DomainCreate _ => true
  | _ => false
  end.

(** Requests on storage volumes. *)
Definition volumeCall (c : Call) : bool :=
  match c with
  | StorageVolLookupByName _ _ | StorageVolGetPath _ | StorageVolCreateXML _ _ _
  | StorageVolUpload _ _ _ _ _ | StorageVolDelete _ _ => true
  | _ => false
  end.

(** The requests that take a found domain away: its snapshots, its DHCP
    entry, the domain itself. *)
Definition domainRemoval (d : Domain) (snapshots : list DomainSnapshot)
    (active persistent : Z) : list Call :=
  DomainListAllSnapshots d (-1) 0
  :: map (λ s, DomainSnapshotDelete s 0) snapshots
  ++ [DomainIsActive d; DomainIsPersistent d; rmDHCPEntry d]
  ++ (if negb (active =? 0) then [DomainDestroy d] else [])
  ++ (if negb (persistent =? 0) then [DomainUndefine d] else []).

(** The requests that act on a target VM. *)
Definition remoteWork (c : Call) : bool :=
  match c with
  | dockerRun _ _ _ | runSSHCommand _ _ _ _ | Copy _ _ _ => true
  | _ => false
  end.

(** The first non-nil error of a list. *)
Fixpoint firstError (errs : list error) : error :=
  match errs with
  | [] => None
  | Some e :: _ => Some e
  | None :: rest => firstError rest
  end.

(** ** Shapes of runs *)

Section Shapes.
Context {Σ : Type}.
Variable env : Handler Σ.
Variables errNoDomain errNoStorageVol : errorNumber.
Variable qemuMAC : Z → string.

(** What [createVM] issues after rendering the descriptor: a prefix of
    define, bind, start. *)
Inductive bootSequence (vmConfig : VMConfig) : list Call → Prop :=
| boot_none : bootSequence vmConfig []
| boot_defined xml : bootSequence vmConfig [DomainDefineXML xml]
| boot_bound xml :
    bootSequence vmConfig
      [DomainDefineXML xml; addDHCPEntry (qemuMAC (VMID vmConfig)) (VMID vmConfig)]
| boot_started xml d :
    bootSequence vmConfig
      [DomainDefineXML xml; addDHCPEntry (qemuMAC (VMID vmConfig)) (VMID vmConfig);
       DomainCreate d].

(** A trace in which the boot steps, if any, are one block [define; bind;
    start] or a prefix of it. *)
Definition bootOrdered (vmConfig : VMConfig) (t : list Call) : Prop :=
  ∃ pre mid post,
    t = pre ++ mid ++ post
    ∧ Forall (λ c, bootStep c = false) pre
    ∧ bootSequence vmConfig mid
    ∧ Forall (λ c, bootStep c = false) post.

(** A request that leaves the boot volume alone: no volume request at all, a
    lookup of the scratch or the cloud-init name, or the deletion of a volume
    that the environment returned for one of these two names. *)
Inductive exceptBoot (vmName : string) : Call → Prop :=
| eb_other c : volumeCall c = false → exceptBoot vmName c
| eb_lookup sp name :
    name ∈ [scratchVolumeName vmName; ciDataVolumeName vmName] →
    exceptBoot vmName (StorageVolLookupByName sp name)
| eb_delete sp name vol σ σ' :
    name ∈ [scratchVolumeName vmName; ciDataVolumeName vmName] →
    env (StorageVolLookupByName sp name) σ = (σ', Ok vol) →
    exceptBoot vmName (StorageVolDelete vol 0).

(** The domain step of a teardown that succeeded: the lookup, and then
    either nothing (the domain was not there) or the removal of the domain
    that was found, its snapshots as listed, stopped if reported active,
    undefined if reported persistent. *)
Inductive domainStep (vmName : string) : list Call → Prop :=
| ds_absent σ σ' e :
    env (DomainLookupByName vmName) σ = (σ', Fault e) →
    hasErrorCode (Some e) errNoDomain = true →
    domainStep vmName [DomainLookupByName vmName]
| ds_removed σ0 σ0' d σ1 σ1' snapshots n σ2 σ2' active σ3 σ3' persistent :
    env (DomainLookupByName vmName) σ0 = (σ0', Ok d) →
    env (DomainListAllSnapshots d (-1) 0) σ1 = (σ1', Ok (snapshots, n)) →
    env (DomainIsActive d) σ2 = (σ2', Ok active) →
    env (DomainIsPersistent d) σ3 = (σ3', Ok persistent) →
    domainStep vmName
      (DomainLookupByName vmName :: domainRemoval d snapshots active persistent).

(** A volume step that succeeded: the lookup, and the deletion of the volume
    found, if one was. *)
Inductive volumeStep (sp : StoragePool) (name : string) : list Call → Prop :=
| vs_absent σ σ' e :
    env (StorageVolLookupByName sp name) σ = (σ', Fault e) →
    hasErrorCode (Some e) errNoStorageVol = true →
    volumeStep sp name [StorageVolLookupByName sp name]
| vs_deleted σ σ' vol :
    env (StorageVolLookupByName sp name) σ = (σ', Ok vol) →
    volumeStep sp name [StorageVolLookupByName sp name; StorageVolDelete vol 0].

(** The teardown that [VMRm] and [VMCommit] share, when it succeeds. *)
Definition teardownDone (sp : StoragePool) (vmName : string) (t : list Call) : Prop :=
  ∃ dom scratch cidata,
    t = dom ++ scratch ++ cidata
    ∧ domainStep vmName dom
    ∧ volumeStep sp (scratchVolumeName vmName) scratch
    ∧ volumeStep sp (ciDataVolumeName vmName) cidata.

(** The body of the loop of [getIPs] on one target, from the world [w]: the
    target is resolved to an address, leaving the world [w'] ... *)
Inductive resolved (network : Network) (vmName : string) (w : World Σ)
  : string → World Σ → Prop :=
| rs_address σ1 d σ2 active ip :
    env (DomainLookupByName vmName) (backend w) = (σ1, Ok d) →
    env (DomainIsActive d) σ1 = (σ2, Ok active) →
    active ≠ 0 →
    outcome (findVMIP env network d (answered w σ2)) = Done ip →
    resolved network vmName w ip (final (findVMIP env network d (answered w σ2))).

(** ... or it is refused with an error: the domain cannot be looked up, its
    activity cannot be checked, it is not running, or no address is found. *)
Inductive refused (network : Network) (vmName : string) (w : World Σ) : Err → Prop :=
| rf_lookup σ1 e :
    env (DomainLookupByName vmName) (backend w) = (σ1, Fault e) →
    refused network vmName w (Wrapf ("could not get domain '" +:+ vmName +:+ "'") e)
| rf_check σ1 d σ2 e :
    env (DomainLookupByName vmName) (backend w) = (σ1, Ok d) →
    env (DomainIsActive d) σ1 = (σ2, Fault e) →
    refused network vmName w
      (Wrapf ("could not check if domain '" +:+ vmName +:+ "' is active") e)
| rf_not_running σ1 d σ2 :
    env (DomainLookupByName vmName) (backend w) = (σ1, Ok d) →
    env (DomainIsActive d) σ1 = (σ2, Ok 0) →
    refused network vmName w
      (Errorf ("cannot exec against VM '" +:+ vmName +:+ "' that is not running"))
| rf_address σ1 d σ2 active e :
    env (DomainLookupByName vmName) (backend w) = (σ1, Ok d) →
    env (DomainIsActive d) σ1 = (σ2, Ok active) →
    active ≠ 0 →
    outcome (findVMIP env network d (answered w σ2)) = Failed e →
    refused network vmName w (Wrapf ("could not find IP for VM '" +:+ vmName +:+ "'") e).

(** The targets of a list resolved one after the other. *)
Inductive resolvedAll (network : Network) : list string → World Σ → list string → World Σ → Prop :=
| ra_nil w : resolvedAll network [] w [] w
| ra_cons vmName rest w ip w1 ips w' :
    resolved network vmName w ip w1 →
    resolvedAll network rest w1 ips w' →
    resolvedAll network (vmName :: rest) w (ip :: ips) w'.

(** The errors (nil or not) with which the requests [cs] are answered when
    they complete one after the other from the state [σ], and the state
    they leave. *)
Fixpoint answers (cs : list Call) (σ : Σ) : list error * Σ :=
  match cs with
  | [] => ([], σ)
  | c :: rest =>
      let a := env c σ in
      let r := answers rest a.1 in
      (errOf a.2 :: r.1, r.2)
  end.

(** A goroutine whose body is the one request [c]. *)
Definition taskOf (c : Call) (task : M Σ unit) : Prop :=
  ∀ w, task w
       = {| final := answered w (env c (backend w)).1;
            trace := [c];
            outcome := match (env c (backend w)).2 with
                       | Ok _ => Done ()
                       | Fault e => Failed e
                       end |}.

End Shapes.

(** * A test double for the backend

    An in-memory environment in the manner of the package's tests: one
    storage pool's volumes by name, the domains by name, the DHCP host
    entries by MAC.  Requests fail only for what is missing or not in the
    state the request needs. *)

Module Double.

(** The two codes of libvirt's [virErrorNumber] that vm.go asks about, and
    the ones the double answers with otherwise. *)
Definition errNoDomain : errorNumber := 42%N.
Definition errNoStorageVol : errorNumber := 50%N.
Definition errNoNetwork : errorNumber := 43%N.
Definition errNoStoragePool : errorNumber := 49%N.
Definition errOperationInvalid : errorNumber := 55%N.
Definition errXML : errorNumber := 27%N.

Record Guest := {
  g_id : Z;
  g_active : bool;
  g_persistent : bool;
  g_snapshots : list string;
  g_mac : string
}.

Record State := {
  pools : list string;
  networks : list string;
  volumes : gset string;
  guests : gmap string Guest;
  hosts : gmap string string;
  rendered : gmap string TemplateData;
  nextID : Z;
  unreachable : list string;
  reached : list string
}.

Definition withVolumes (s : State) (vs : gset string) : State :=
  {| pools := pools s; networks := networks s; volumes := vs; guests := guests s;
     hosts := hosts s; rendered := rendered s; nextID := nextID s;
     unreachable := unreachable s; reached := reached s |}.

Definition withGuests (s : State) (gs : gmap string Guest) : State :=
  {| pools := pools s; networks := networks s; volumes := volumes s; guests := gs;
     hosts := hosts s; rendered := rendered s; nextID := nextID s;
     unreachable := unreachable s; reached := reached s |}.

Definition withHosts (s : State) (hs : gmap string string) : State :=
  {| pools := pools s; networks := networks s; volumes := volumes s; guests := guests s;
     hosts := hs; rendered := rendered s; nextID := nextID s;
     unreachable := unreachable s; reached := reached s |}.

Definition withRendered (s : State) (rs : gmap string TemplateData) : State :=
  {| pools := pools s; networks := networks s; volumes := volumes s; guests := guests s;
     hosts := hosts s; rendered := rs; nextID := nextID s;
     unreachable := unreachable s; reached := reached s |}.

Definition withReached (s : State) (l : list string) : State :=
  {| pools := pools s; networks := networks s; volumes := volumes s; guests := guests s;
     hosts := hosts s; rendered := rendered s; nextID := nextID s;
     unreachable := unreachable s; reached := l |}.

Definition started (s : State) (name : string) (g : Guest) : State :=
  {| pools := pools s; networks := networks s; volumes := volumes s;
     guests := <[name := {| g_id := nextID s; g_active := true; g_persistent := g_persistent g;
                            g_snapshots := g_snapshots g; g_mac := g_mac g |}]> (guests s);
     hosts := hosts s; rendered := rendered s; nextID := nextID s + 1;
     unreachable := unreachable s; reached := reached s |}.

Definition notFound {A} (code : errorNumber) (what : string) (s : State)
  : State * result A :=
  (s, Fault (LibvirtError code (what +:+ " not found"))).

Definition invalid {A} (why : string) (s : State) : State * result A :=
  (s, Fault (LibvirtError errOperationInvalid why)).

Definition volumeOf (pool name : string) : StorageVol :=
  {| vol_Pool := pool; vol_Name := name; vol_Key := "/" +:+ pool +:+ "/" +:+ name |}.

Definition domainOf (name : string) (g : Guest) : Domain :=
  {| dom_Name := name; dom_UUID := 0%N; dom_ID := g_id g |}.

(** A domain that stops: a persistent one stays defined, a transient one is
    gone. *)
Definition halted (s : State) (name : string) (g : Guest) : State :=
  withGuests s
    (if g_persistent g
     then <[name := {| g_id := -1; g_active := false; g_persistent := true;
                       g_snapshots := g_snapshots g; g_mac := g_mac g |}]> (guests s)
     else delete name (guests s)).

Definition stringOf (data : TemplateData) (key : string) : string :=
  match data !! key with
  | Some (TString x) => x
  | _ => ""
  end.

Definition handle : Handler State :=
  λ c, match c as c0 return State → State * result (reply c0) with
  | StoragePoolLookupByName name => λ s,
      if bool_decide (name ∈ pools s)
      then (s, Ok {| sp_Name := name; sp_UUID := 0%N |})
      else notFound errNoStoragePool "Storage pool" s
  | StorageVolLookupByName sp name => λ s,
      if bool_decide (name ∈ volumes s)
      then (s, Ok (volumeOf (sp_Name sp) name))
      else notFound errNoStorageVol "Storage volume" s
  | StorageVolGetPath vol => λ s,
      if bool_decide (vol_Name vol ∈ volumes s)
      then (s, Ok (vol_Key vol))
      else notFound errNoStorageVol "Storage volume" s
  | StorageVolCreateXML sp xml _ => λ s,
      match rendered s !! xml with
      | Some data =>
          let name := stringOf data "VolumeName" in
          if bool_decide (name ∈ volumes s)
          then invalid "storage volume exists already" s
          else (withVolumes s ({[name]} ∪ volumes s), Ok (volumeOf (sp_Name sp) name))
      | None => (s, Fault (LibvirtError errXML "XML error"))
      end
  | StorageVolUpload vol _ _ _ _ => λ s,
      if bool_decide (vol_Name vol ∈ volumes s)
      then (s, Ok ())
      else notFound errNoStorageVol "Storage volume" s
  | StorageVolDelete vol _ => λ s,
      if bool_decide (vol_Name vol ∈ volumes s)
      then (withVolumes s (volumes s ∖ {[vol_Name vol]}), Ok ())
      else notFound errNoStorageVol "Storage volume" s
  | DomainDefineXML xml => λ s,
      match rendered s !! xml with
      | Some data =>
          let name := stringOf data "VMName" in
          let g := {| g_id := -1; g_active := false; g_persistent := true; g_snapshots := [];
                      g_mac := stringOf data "MAC" |} in
          (withGuests s (<[name := g]> (guests s)), Ok (domainOf name g))
      | None => (s, Fault (LibvirtError errXML "XML error"))
      end
  | DomainCreate d => λ s,
      match guests s !! dom_Name d with
      | Some g =>
          if g_active g then invalid "domain is already running" s
          else (started s (dom_Name d) g, Ok ())
      | None => notFound errNoDomain "Domain" s
      end
  | DomainLookupByName name => λ s,
      match guests s !! name with
      | Some g => (s, Ok (domainOf name g))
      | None => notFound errNoDomain "Domain" s
      end
  | DomainListAllSnapshots d _ _ => λ s,
      match guests s !! dom_Name d with
      | Some g =>
          (s, Ok ((λ n, {| snap_Name := n; snap_Dom := d |}) <$> g_snapshots g,
                  Z.of_nat (length (g_snapshots g))))
      | None => notFound errNoDomain "Domain" s
      end
  | DomainSnapshotDelete snap _ => λ s,
      match guests s !! dom_Name (snap_Dom snap) with
      | Some g =>
          (withGuests s
             (<[dom_Name (snap_Dom snap) :=
                  {| g_id := g_id g; g_active := g_active g; g_persistent := g_persistent g;
                     g_snapshots := filter (λ n, n ≠ snap_Name snap) (g_snapshots g);
                     g_mac := g_mac g |}]> (guests s)),
           Ok ())
      | None => notFound errNoDomain "Domain" s
      end
  | DomainIsActive d => λ s,
      match guests s !! dom_Name d with
      | Some g => (s, Ok (if g_active g then 1 else 0))
      | None => notFound errNoDomain "Domain" s
      end
  | DomainIsPersistent d => λ s,
      match guests s !! dom_Name d with
      | Some g => (s, Ok (if g_persistent g then 1 else 0))
      | None => notFound errNoDomain "Domain" s
      end
  | DomainDestroy d => λ s,
      match guests s !! dom_Name d with
      | Some g =>
          if g_active g then (halted s (dom_Name d) g, Ok ())
          else invalid "domain is not running" s
      | None => notFound errNoDomain "Domain" s
      end
  | DomainUndefine d => λ s,
      match guests s !! dom_Name d with
      | Some g =>
          match g_snapshots g with
          | _ :: _ => invalid "cannot delete inactive domain with snapshots" s
          | [] =>
              (withGuests s
                 (if g_active g
                  then <[dom_Name d := {| g_id := g_id g; g_active := true; g_persistent := false;
                                          g_snapshots := []; g_mac := g_mac g |}]> (guests s)
                  else delete (dom_Name d) (guests s)),
               Ok ())
          end
      | None => notFound errNoDomain "Domain" s
      end
  | DomainShutdown d => λ s,
      match guests s !! dom_Name d with
      | Some g =>
          if g_active g then (halted s (dom_Name d) g, Ok ())
          else invalid "domain is not running" s
      | None => notFound errNoDomain "Domain" s
      end
  | LifecycleEvents => λ s, (s, Ok ())
  | NetworkLookupByName name => λ s,
      if bool_decide (name ∈ networks s)
      then (s, Ok {| net_Name := name; net_UUID := 0%N |})
      else notFound errNoNetwork "Network" s
  | addDHCPEntry m vmID => λ s,
      let ip := "192.168.122." +:+ pretty vmID in
      (withHosts s (<[m := ip]> (hosts s)), Ok ip)
  | rmDHCPEntry d => λ s,
      match guests s !! dom_Name d with
      | Some g => (withHosts s (delete (g_mac g) (hosts s)), Ok ())
      | None => notFound errNoDomain "Domain" s
      end
  | getMAC d => λ s,
      match guests s !! dom_Name d with
      | Some g => (s, Ok (g_mac g))
      | None => notFound errNoDomain "Domain" s
      end
  | findIPs _ m => λ s,
      (s, Ok match hosts s !! m with Some ip => [ip] | None => [] end)
  | renderTemplate name data => λ s,
      let text := name +:+ ":" +:+ stringOf data "VMName" +:+ stringOf data "VolumeName" in
      (withRendered s (<[text := data]> (rendered s)), Ok text)
  | Generate _ => λ s, (s, Ok "iso9660")
  | WaitPort _ _ => λ s, (s, Ok ())
  | After _ => λ s, (s, Ok ())
  | Copy host _ _ => λ s,
      if bool_decide (host ∈ unreachable s)
      then (s, Fault (Errorf "rsync: connection refused"))
      else (withReached s (reached s ++ [host]), Ok ())
  | dockerRun _ ips _ => λ s, (withReached s (reached s ++ ips), Ok ())
  | ParsePrivateKey pem => λ s,
      if bool_decide (pem = "")
      then (s, Fault (Errorf "ssh: no key found"))
      else (s, Ok {| signer_key := pem |})
  | Glob pattern => λ s, (s, Ok [pattern])
  | runSSHCommand _ ipPort _ _ => λ s,
      if bool_decide (ipPort ∈ unreachable s)
      then (s, Fault (Errorf "Process exited with status 1"))
      else (withReached s (reached s ++ [ipPort]), Ok ())
  end.

Definition qemuMAC (vmID : Z) : string := "52:54:00:" +:+ pretty vmID.

Definition EnvmapToSlice (m : gmap string string) : list string :=
  (λ kv, kv.1 +:+ "=" +:+ kv.2) <$> map_to_list m.

Definition virter : Virter := {| storagePoolName := "images"; networkName := "default" |}.

Definition initial : State :=
  {| pools := ["images"]; networks := ["default"]; volumes := {["centos-8"]};
     guests := ∅; hosts := ∅; rendered := ∅; nextID := 1;
     unreachable := []; reached := [] |}.

Definition world (s : State) (deliveries : list Select) (choices : list nat) : World State :=
  {| backend := s; inbox := deliveries; scheduler := choices |}.

Definition config (name : string) (vmID : Z) : VMConfig :=
  {| ImageName := "centos-8"; VMName := name; MemoryKiB := 1048576; VCPUs := 1;
     VMID := vmID; SSHPublicKeys := ["ssh-ed25519 AAAA"] |}.

Definition run := VMRun handle qemuMAC virter.
Definition rm := VMRm handle errNoDomain errNoStorageVol virter.
Definition commit := VMCommit handle errNoDomain errNoStorageVol virter.
Definition execShell := VMExecShell handle EnvmapToSlice virter.
Definition execRsync := VMExecRsync handle virter.
Definition execDocker := VMExecDocker handle virter.

(** Sample states: one VM run; that VM stopped; three VMs run, the second
    of which refuses remote commands. *)
Definition booted : State :=
  backend (final (run (config "vm1" 7) false (world initial [] []))).

Definition vm1 : Domain := {| dom_Name := "vm1"; dom_UUID := 0%N; dom_ID := 1 |}.

Definition halt (s : State) (d : Domain) : State := (handle (DomainDestroy d) s).1.

Definition three : State :=
  let s1 := booted in
  let s2 := backend (final (run (config "vm2" 8) false (world s1 [] []))) in
  let s3 := backend (final (run (config "vm3" 9) false (world s2 [] []))) in
  {| pools := pools s3; networks := networks s3; volumes := volumes s3;
     guests := guests s3; hosts := hosts s3; rendered := rendered s3;
     nextID := nextID s3; unreachable := ["192.168.122.8:22"; "192.168.122.8"];
     reached := [] |}.

Definition vm2Stopped : Domain := {| dom_Name := "vm2"; dom_UUID := 0%N; dom_ID := -1 |}.

Definition strangerStopped : DomainEventLifecycleMsg :=
  {| ev_Dom := {| dom_Name := "other"; dom_UUID := 0%N; dom_ID := 9 |};
     ev_Event := DomainEventStopped; ev_Detail := 0 |}.

Definition vm1Stopped : DomainEventLifecycleMsg :=
  {| ev_Dom := vm1; ev_Event := DomainEventStopped; ev_Detail := 0 |}.

Definition uname : ProvisionShellStep := {| Script := "uname -a"; Env := ∅ |}.

(** A domain as libvirt keeps them: running, or defined, or both. *)
Definition sensible (s : State) (name : string) : Prop :=
  match guests s !! name with
  | Some g => g_active g || g_persistent g = true
  | None => True
  end.


End Double.

(** * Further vocabulary *)

(** An answer that the environment gives to a request, in some state. *)
Definition answersWith {Σ} (env : Handler Σ) (c : Call) (a : reply c) : Prop :=
  ∃ σ σ', env c σ = (σ', Ok a).

(** The wait for a port to open. *)
Definition portWait (c : Call) : bool :=
  match c with WaitPort _ _ => true | _ => false end.

(** The requests after which a domain is no longer there. *)
Definition domainGone (c : Call) : bool :=
  match c with DomainDestroy _ | DomainUndefine _ => true | _ => false end.

(** The requests of the shutdown monitor. *)
Definition monitoring (c : Call) : bool :=
  match c with LifecycleEvents | DomainShutdown _ | After _ => true | _ => false end.

(** A run that leaves the two channels alone and returns. *)
Definition unmonitored {Σ A} (w : World Σ) (r : Run Σ A) : Prop :=
  Forall (λ c, monitoring c = false) (trace r)
  ∧ inbox (final r) = inbox w
  ∧ outcome r ≠ Blocked.

(** The double with a [filepath.Glob] that meets a malformed pattern. *)
Definition badPattern : Handler Double.State :=
  λ c, match c as c0 return Double.State → Double.State * result (reply c0) with
       | Glob _ => λ s, (s, Fault (Errorf "syntax error in pattern"))
       | c0 => Double.handle c0
       end.

(** * The command that [runSSHCommand] runs

    [runSSHCommand] dials the target, opens a session, starts a shell and
    writes to its standard input the environment, as assignments that are
    exported, and the script; two goroutines log what the shell writes.  The
    client, the session and its pipes are those of this one call, so the
    requests do not name them. *)

Module SSHCommand.

Inductive Stream : Type := Stdout | Stderr.

Inductive Op : Type :=
| Dial (network addr : string) (config : ClientConfig)
| ClientClose
| NewSession
| StdinPipe
| StdoutPipe
| StderrPipe
| GoLogLines (prefix : string) (stream : Stream)
| Shell
| Fprintln (text : string)
| StdinClose
| SessionWait
| WaitGroupWait.

(** A line feed. *)
Definition newline : string := String "010"%char "".

(** [strings.SplitN(s, sep, 2)] for a separator of one character: the text
    before the first separator and the text after it, or [s] alone when it
    holds no separator. *)
Fixpoint SplitN2 (s : string) (sep : ascii) : list string :=
  match s with
  | EmptyString => [EmptyString]
  | String a rest =>
      if Ascii.eqb a sep then [EmptyString; rest]
      else match SplitN2 rest sep with
           | before :: after => String a before :: after
           | [] => []
           end
  end.

(** [fmt.Sprintln(a, b, c)]: the operands with a space between them and a
    line feed at the end. *)
Definition Sprintln3 (a b c : string) : string := a +:+ " " +:+ b +:+ " " +:+ c +:+ newline.

Definition Sprintln2 (a b : string) : string := a +:+ " " +:+ b +:+ newline.

(** The loop [for _, kv := range env] that builds [envBlob]; [None] is the
    panic of [kvs[0]] on an empty slice. *)
Fixpoint envBlobFrom (envBlob : string) (env : list string) : option string :=
  match env with
  | [] => Some envBlob
  | kv :: rest =>
      let kvs := SplitN2 kv "="%char in
      match kvs !! 0%nat with
      | Some name => envBlobFrom (envBlob +:+ Sprintln3 kv "; export " name) rest
      | None => None
      end
  end.

Section Steps.
Context {Σ : Type}.

(** The other end: the answer to each request, an error or nil, and the state
    it leaves. *)
Variable remote : Op → Σ → Σ * error.

(** A piece of the function: the state it leaves, the requests it issued, and
    the value or the error it returns. *)
Definition Steps (A : Type) : Type := Σ → Σ * list Op * result A.

Definition done {A} (a : A) : Steps A := λ σ, (σ, [], Ok a).

Definition failing {A} (e : Err) : Steps A := λ σ, (σ, [], Fault e).

Definition andThen {A B} (m : Steps A) (k : A → Steps B) : Steps B :=
  λ σ,
    let '(σ1, t1, r) := m σ in
    match r with
    | Ok a => let '(σ2, t2, r2) := k a σ1 in (σ2, t1 ++ t2, r2)
    | Fault e => (σ1, t1, Fault e)
    end.

#[local] Instance Steps_ret : MRet Steps := @done.
#[local] Instance Steps_bind : MBind Steps := λ A B k m, andThen m k.

(** [if err := f(); err != nil { return err }] *)
Definition ask (op : Op) : Steps unit :=
  λ σ,
    let '(σ', err) := remote op σ in
    (σ', [op], match err with None => Ok () | Some e => Fault e end).

(** A call whose result is not looked at, or that has none. *)
Definition tell (op : Op) : Steps unit := λ σ, ((remote op σ).1, [op], Ok ()).

(** [err = f()], kept for later. *)
Definition errorOf (op : Op) : Steps error :=
  λ σ, let '(σ', err) := remote op σ in (σ', [op], Ok err).

(** [defer cleanup()] before [body]: [cleanup] runs when [body] returns,
    however it returns. *)
Definition deferring {A} (cleanup : Steps unit) (body : Steps A) : Steps A :=
  λ σ,
    let '(σ1, t1, r) := body σ in
    let '(σ2, t2, _) := cleanup σ1 in
    (σ2, t1 ++ t2, r).

Definition runSSHCommand (config : ClientConfig) (ipPort script : string)
    (env : list string) : Steps unit :=
  ask (Dial "tcp" ipPort config);;
  deferring (tell ClientClose)
    (ask NewSession;;
     match envBlobFrom "" env with
     | None => failing (Errorf "panic: runtime error: index out of range")
     | Some envBlob =>
         ask StdinPipe;;
         ask StdoutPipe;;
         ask StderrPipe;;
         tell (GoLogLines "SSH stdout: " Stdout);;
         tell (GoLogLines "SSH stderr: " Stderr);;
         ask Shell;;
         ask (Fprintln (Sprintln2 envBlob script));;
         tell StdinClose;;
         err ← errorOf SessionWait;
         tell WaitGroupWait;;
         match err with Some e => failing e | None => done () end
     end).

Definition requests {A} (r : Σ * list Op * result A) : list Op := r.1.2.
Definition returned {A} (r : Σ * list Op * result A) : result A := r.2.

End Steps.

(** The name that an entry of the environment is exported under: the text
    before its first "=", all of it when it has none. *)
Fixpoint exported (kv : string) : string :=
  match kv with
  | EmptyString => EmptyString
  | String a rest => if Ascii.eqb a "="%char then EmptyString else String a (exported rest)
  end.

(** The line written for an entry. *)
Definition exportLine (kv : string) : string :=
  kv +:+ " ; export  " +:+ exported kv +:+ newline.

Fixpoint lines (l : list string) : string :=
  match l with
  | [] => EmptyString
  | x :: rest => x +:+ lines rest
  end.

(** Whether a text holds an "=". *)
Fixpoint hasEquals (s : string) : bool :=
  match s with
  | EmptyString => false
  | String a rest => if Ascii.eqb a "="%char then true else hasEquals rest
  end.

(** A remote end for trying things out: it refuses the requests that
    [refused] picks and keeps the list of what it was asked. *)
Definition recording (refused : Op → bool) : Op → list Op → list Op * error :=
  λ op seen, (seen ++ [op], if refused op then Some (Errorf "refused") else None).

End SSHCommand.

(** * Part II: properties *)

(** * Reasoning about runs

    [wp m w Q]: the run of [m] from [w] satisfies [Q].  One rule per
    combinator; a request splits on the environment's answer. *)

Section Rules.
Context {Σ : Type}.
Variable env : Handler Σ.

Lemma answered_answered (w : World Σ) σ σ' :
  answered (answered w σ) σ' = answered w σ'.
Proof. reflexivity. Qed.

Lemma wp_run {A} (m : M Σ A) w (Q : Run Σ A → Prop) : wp m w Q → Q (m w).
Proof. exact id. Qed.

Lemma wp_ret {A} (a : A) w (Q : Run Σ A → Prop) :
  Q {| final := w; trace := []; outcome := Done a |} → wp (mret a) w Q.
Proof. exact id. Qed.

Lemma wp_fail {A} (e : Err) w (Q : Run Σ A → Prop) :
  Q {| final := w; trace := []; outcome := Failed e |} → wp (fail e) w Q.
Proof. exact id. Qed.

Lemma wp_bind {A B} (m : M Σ A) (k : A → M Σ B) w (Q : Run Σ B → Prop) :
  wp m w (λ r, match outcome r with
               | Done a => wp (k a) (final r) (λ r', Q (prefixed (trace r) r'))
               | Failed e => Q (stopped r (Failed e))
               | Blocked => Q (stopped r Blocked)
               end) →
  wp (m ≫= k) w Q.
Proof.
  unfold wp, mbind, M_bind, bind. destruct (outcome (m w)); auto.
Qed.

Lemma wp_wrap {A} (m : M Σ A) ctx w (Q : Run Σ A → Prop) :
  wp m w (λ r, Q (stopped r match outcome r with
                            | Failed e => Failed (Wrapf ctx e)
                            | o => o
                            end)) →
  wp (m <!> ctx) w Q.
Proof. exact id. Qed.

Lemma wp_attempt {A} (m : M Σ A) w (Q : Run Σ (result A) → Prop) :
  wp m w (λ r, Q (stopped r match outcome r with
                            | Done a => Done (Ok a)
                            | Failed e => Done (Fault e)
                            | Blocked => Blocked
                            end)) →
  wp (attempt m) w Q.
Proof. exact id. Qed.

Lemma wp_call (c : Call) w (Q : Run Σ (reply c) → Prop) :
  (∀ σ a, env c (backend w) = (σ, Ok a) →
          Q {| final := answered w σ; trace := [c]; outcome := Done a |}) →
  (∀ σ e, env c (backend w) = (σ, Fault e) →
          Q {| final := answered w σ; trace := [c]; outcome := Failed e |}) →
  wp (call env c) w Q.
Proof.
  intros HOk HFault. unfold wp, call.
  destruct (env c (backend w)) as [σ [a|e]] eqn:E; [apply (HOk σ a) | apply (HFault σ e)];
    reflexivity.
Qed.

Lemma wp_signal (c : Call) w (Q : Run Σ unit → Prop) :
  Q {| final := answered w (fst (env c (backend w))); trace := [c]; outcome := Done () |} →
  wp (signal env c) w Q.
Proof. exact id. Qed.

Lemma wp_mono {A} (m : M Σ A) w (P Q : Run Σ A → Prop) :
  wp m w P → (∀ r, P r → Q r) → wp m w Q.
Proof. unfold wp. auto. Qed.

End Rules.

Lemma hasErrorCode_nil code : hasErrorCode None code = false.
Proof. reflexivity. Qed.

Ltac run_simpl :=
  cbn [outcome final trace backend inbox scheduler prefixed stopped answered app
       fst snd errOf valueOf orReturn] in *;
  rewrite ?hasErrorCode_nil, ?answered_answered in *;
  cbn [negb] in *.

(** One step of a run; [env] is the handler in scope. *)
Ltac run_step env :=
  lazymatch goal with
  | |- wp (mbind _ _) _ _ => apply wp_bind
  | |- wp (wrap _ _) _ _ => apply wp_wrap
  | |- wp (attempt _) _ _ => apply wp_attempt
  | |- wp (call _ ?c) _ _ =>
      apply (wp_call env c); intros ? ? ?
  | |- wp (signal _ ?c) _ _ => apply (wp_signal env c)
  | |- wp (mret _) _ _ => apply wp_ret
  | |- wp (ret _) _ _ => apply wp_ret
  | |- wp (fail _) _ _ => apply wp_fail
  | |- wp (if ?b then _ else _) _ _ => destruct b eqn:?
  | |- wp (match ?r with Ok _ => _ | Fault _ => _ end) _ _ => destruct r
  end; run_simpl.

(** Two answers recorded for the same request in the same state agree. *)
Ltac same_answer :=
  repeat match goal with
         | H1 : ?env ?c ?s = _, H2 : ?env ?c ?s = _ |- _ =>
             rewrite H1 in H2; simplify_eq
         end.

(** A branch on [active != 0] taken against what is known of [active]. *)
Ltac wrong_branch :=
  match goal with
  | H : negb (?a =? 0) = false, H' : ?a ≠ 0 |- _ =>
      exfalso; apply negb_false_iff, Z.eqb_eq in H; exact (H' H)
  | H : negb (?a =? 0) = true, H' : ?a = 0 |- _ =>
      exfalso; rewrite H' in H; discriminate H
  | H : negb (0 =? 0) = true |- _ => discriminate H
  end.

Ltac run_steps env := repeat (run_step env; same_answer; try wrong_branch).

Ltac run_start :=
  match goal with
  | |- context [ ?m ?w ] =>
      lazymatch type of (m w) with Run _ _ => pattern (m w); apply wp_run end
  end.

(** * Properties *)

Section Properties.
Context {Σ : Type}.
Variable env : Handler Σ.
Variables errNoDomain errNoStorageVol : errorNumber.
Variable qemuMAC : Z → string.
Variable EnvmapToSlice : gmap string string → list string.
Variable v : Virter.

Local Abbreviation bootSequence := (bootSequence qemuMAC).
Local Abbreviation bootOrdered := (bootOrdered qemuMAC).
Local Abbreviation exceptBoot := (exceptBoot env).
Local Abbreviation domainStep := (domainStep env errNoDomain).
Local Abbreviation volumeStep := (volumeStep env errNoStorageVol).
Local Abbreviation teardownDone := (teardownDone env errNoDomain errNoStorageVol).
Local Abbreviation resolved := (resolved env).
Local Abbreviation refused := (refused env).
Local Abbreviation resolvedAll := (resolvedAll env).
Local Abbreviation answers := (answers env).
Local Abbreviation taskOf := (taskOf env).

(** ** Commit of a VM that is not there, or is running *)

(** C9: when the lookup of the domain fails, with whatever error (the "no
    domain" code included), [VMCommit] returns that error wrapped in "could
    not get domain", whether or not a shutdown was asked for, and the lookup
    is the only request it issued: no step of the teardown runs. *)
Theorem VMCommit_missing_domain (vmName : string) (shutdown : bool)
    (shutdownTimeout : Z) (w : World Σ) (σ' : Σ) (e : Err) :
  env (DomainLookupByName vmName) (backend w) = (σ', Fault e) →
  VMCommit env errNoDomain errNoStorageVol v vmName shutdown shutdownTimeout w
  = {| final := answered w σ';
       trace := [DomainLookupByName vmName];
       outcome := Failed (Wrapf "could not get domain" e) |}.
Proof.
  intros H. run_start. unfold VMCommit.
  run_steps env. reflexivity.
Qed.

(** C3: when the domain is found and the activity check answers a value
    other than 0, [VMCommit] without shutdown returns the error "cannot commit
    a running VM" after exactly these two queries; no request that removes or
    stops anything was issued. *)
Theorem VMCommit_running_refused (vmName : string) (shutdownTimeout : Z)
    (w : World Σ) (σ1 σ2 : Σ) (d : Domain) (active : Z) :
  env (DomainLookupByName vmName) (backend w) = (σ1, Ok d) →
  env (DomainIsActive d) σ1 = (σ2, Ok active) →
  active ≠ 0 →
  let r := VMCommit env errNoDomain errNoStorageVol v vmName false shutdownTimeout w in
  outcome r = Failed (Errorf "cannot commit a running VM")
  ∧ Error (Errorf "cannot commit a running VM") = "cannot commit a running VM"
  ∧ trace r = [DomainLookupByName vmName; DomainIsActive d]
  ∧ Forall (λ c, destructive c = false) (trace r)
  ∧ final r = answered w σ2.
Proof.
  intros H1 H2 Hact r. subst r. run_start. unfold VMCommit.
  run_steps env. repeat split; repeat constructor.
Qed.

(** ** The shutdown monitor *)

Lemma stopsDomain_test domain event :
  (dom_ID (ev_Dom event) =? dom_ID domain) && (ev_Event event =? DomainEventStopped) = true
  ↔ stopsDomain domain event.
Proof.
  unfold stopsDomain. rewrite andb_true_iff, !Z.eqb_eq. reflexivity.
Qed.

Lemma awaitStopped_passes domain skipped rest :
  Forall (passedOver domain) skipped →
  awaitStopped domain (skipped ++ rest) = awaitStopped domain rest.
Proof.
  induction 1 as [|s skipped [event [-> Hno]] _ IH]; [reflexivity|].
  cbn [app awaitStopped].
  destruct (_ && _) eqn:E; [|exact IH].
  apply stopsDomain_test in E. contradiction.
Qed.

Lemma awaitStopped_stop domain event rest :
  stopsDomain domain event →
  awaitStopped domain (RecvEvent event :: rest) = (rest, Done ()).
Proof.
  intros H. apply stopsDomain_test in H. cbn [awaitStopped]. rewrite H. reflexivity.
Qed.

(** Whatever the wait returns, the deliveries it consumed are a run of
    passed-over events followed by what decided it. *)
Lemma awaitStopped_inv domain pending rest o :
  awaitStopped domain pending = (rest, o) →
  ∃ skipped, Forall (passedOver domain) skipped ∧
    match o with
    | Done _ => ∃ event, stopsDomain domain event ∧ pending = skipped ++ RecvEvent event :: rest
    | Failed e => e = Errorf "timed out waiting for domain to stop"
                  ∧ pending = skipped ++ RecvTimeout :: rest
    | Blocked => pending = skipped ∧ rest = []
    end.
Proof.
  revert rest o. induction pending as [|s pending IH]; intros rest o H.
  - cbn in H. simplify_eq. exists []. auto.
  - destruct s as [event|]; cbn [awaitStopped] in H.
    + destruct (_ && _) eqn:E.
      * simplify_eq. apply stopsDomain_test in E. exists []. split; [constructor|].
        exists event. auto.
      * destruct (IH _ _ H) as (skipped & Hsk & Ho).
        assert (passedOver domain (RecvEvent event)) as Hp.
        { exists event. split; [reflexivity|]. intros Hs. apply stopsDomain_test in Hs.
          congruence. }
        exists (RecvEvent event :: skipped). split; [constructor; assumption|].
        destruct o as [[]|e|].
        -- destruct Ho as (ev & Hev & ->). exists ev. auto.
        -- destruct Ho as (-> & ->). auto.
        -- destruct Ho as (-> & ->). auto.
    + simplify_eq. exists []. auto.
Qed.

(** C10: a domain that the activity check, made after the subscription,
    reports inactive: [vmShutdown] returns nil whatever the timeout is, after
    the subscription, the check and the arming of the timer; it asks for no
    shutdown and receives nothing from either channel. *)
Theorem vmShutdown_inactive (shutdownTimeout : Z) (domain : Domain)
    (w : World Σ) (σ1 σ2 : Σ) :
  env LifecycleEvents (backend w) = (σ1, Ok ()) →
  env (DomainIsActive domain) σ1 = (σ2, Ok 0) →
  let r := vmShutdown env shutdownTimeout domain w in
  outcome r = Done ()
  ∧ trace r = [LifecycleEvents; DomainIsActive domain; After shutdownTimeout]
  ∧ (DomainShutdown domain ∉ trace r)
  ∧ inbox (final r) = inbox w
  ∧ backend (final r) = fst (env (After shutdownTimeout) σ2).
Proof.
  intros H1 H2 r. subst r. run_start. unfold vmShutdown.
  run_steps env. repeat split.
  rewrite !elem_of_cons, elem_of_nil. intros [?|[?|[?|[]]]]; discriminate.
Qed.

(** C4: the steps of [vmShutdown], in order.  The subscription is the first
    request and the activity check, when reached, the second; after them come
    at most a shutdown request and the arming of the timer.  For an active
    domain whose shutdown request is accepted the requests are exactly these
    four, and the result is that of the wait on what the two channels
    deliver: events that are not this domain's "stopped" event are passed
    over, that event ends the wait with nil, the timer's tick ends it with the
    timeout error, and nothing else ends it. *)
Theorem vmShutdown_protocol (shutdownTimeout : Z) (domain : Domain) (w : World Σ) :
  let r := vmShutdown env shutdownTimeout domain w in
  (∃ rest, trace r = LifecycleEvents :: rest
     ∧ (rest = []
        ∨ ∃ rest', rest = DomainIsActive domain :: rest'
            ∧ rest' ∈ [ []; [After shutdownTimeout]; [DomainShutdown domain];
                        [DomainShutdown domain; After shutdownTimeout] ]))
  ∧ (∀ σ1 σ2 σ3 active,
       env LifecycleEvents (backend w) = (σ1, Ok ()) →
       env (DomainIsActive domain) σ1 = (σ2, Ok active) →
       active ≠ 0 →
       env (DomainShutdown domain) σ2 = (σ3, Ok ()) →
       trace r = [LifecycleEvents; DomainIsActive domain; DomainShutdown domain;
                  After shutdownTimeout]
       ∧ (inbox (final r), outcome r) = awaitStopped domain (inbox w)
       ∧ (∀ skipped event rest,
            inbox w = skipped ++ RecvEvent event :: rest →
            Forall (passedOver domain) skipped → stopsDomain domain event →
            outcome r = Done () ∧ inbox (final r) = rest)
       ∧ (∀ skipped rest,
            inbox w = skipped ++ RecvTimeout :: rest →
            Forall (passedOver domain) skipped →
            outcome r = Failed (Errorf "timed out waiting for domain to stop")
            ∧ inbox (final r) = rest)
       ∧ (outcome r = Done () →
          ∃ skipped event,
            inbox w = skipped ++ RecvEvent event :: inbox (final r)
            ∧ Forall (passedOver domain) skipped ∧ stopsDomain domain event)).
Proof.
  intros r. split.
  - subst r. run_start. unfold vmShutdown.
    run_steps env;
      try (unfold wp, selectUntilStopped; destruct (awaitStopped _ _); run_simpl);
      eexists; (split; [reflexivity|]);
      first [ left; reflexivity
            | right; eexists; split; [reflexivity|];
              rewrite !elem_of_cons; auto 10 ].
  - intros σ1 σ2 σ3 active H1 H2 Hact H3.
    assert (trace r = [LifecycleEvents; DomainIsActive domain; DomainShutdown domain;
                       After shutdownTimeout]
            ∧ (inbox (final r), outcome r) = awaitStopped domain (inbox w)) as [Ht Hw].
    { subst r. run_start. unfold vmShutdown. run_steps env.
      unfold wp, selectUntilStopped. run_simpl.
      destruct (awaitStopped _ _). run_simpl. auto. }
    split; [exact Ht|]. split; [exact Hw|]. repeat split.
    + rewrite H, awaitStopped_passes, awaitStopped_stop in Hw by assumption.
      congruence.
    + rewrite H, awaitStopped_passes, awaitStopped_stop in Hw by assumption.
      congruence.
    + rewrite H, awaitStopped_passes in Hw by assumption. cbn in Hw. congruence.
    + rewrite H, awaitStopped_passes in Hw by assumption. cbn in Hw. congruence.
    + intros Hd. symmetry in Hw. rewrite Hd in Hw.
      destruct (awaitStopped_inv _ _ _ _ Hw) as (skipped & Hsk & event & Hev & Hin).
      eauto.
Qed.

(** ** Run: define, bind, start *)

Ltac no_boot_steps :=
  repeat first [ assumption
               | apply Forall_nil_2
               | apply Forall_cons_2; [first [reflexivity|assumption]|]
               | apply Forall_app_2 ].

Lemma createVMVolume_trace sp vmConfig (w : World Σ) :
  Forall (λ c, bootStep c = false) (trace (createVMVolume env sp vmConfig w)).
Proof.
  run_start. unfold createVMVolume, vmVolumeXML. run_steps env; no_boot_steps.
Qed.

Lemma createCIData_trace sp vmConfig (w : World Σ) :
  Forall (λ c, bootStep c = false) (trace (createCIData env sp vmConfig w)).
Proof.
  run_start. unfold createCIData, metaData, userData, ciDataVolumeXML.
  run_steps env; no_boot_steps.
Qed.

Lemma createScratchVolume_trace sp vmConfig (w : World Σ) :
  Forall (λ c, bootStep c = false) (trace (createScratchVolume env sp vmConfig w)).
Proof.
  run_start. unfold createScratchVolume, scratchVolumeXML.
  run_steps env; no_boot_steps.
Qed.

Lemma createVM_shape sp vmConfig (w : World Σ) :
  ∃ rendering mid,
    trace (createVM env qemuMAC sp vmConfig w) = rendering :: mid
    ∧ bootStep rendering = false ∧ bootSequence vmConfig mid.
Proof.
  run_start. unfold createVM, vmXML.
  run_steps env; do 2 eexists; (split; [reflexivity|]); (split; [reflexivity|]);
    econstructor.
Qed.

Lemma bootOrdered_quiet vmConfig t :
  Forall (λ c, bootStep c = false) t → bootOrdered vmConfig t.
Proof.
  intros H. exists t, [], []. rewrite !app_nil_r. repeat split; [assumption|constructor..].
Qed.

Lemma bootOrdered_app vmConfig p t :
  Forall (λ c, bootStep c = false) p → bootOrdered vmConfig t →
  bootOrdered vmConfig (p ++ t).
Proof.
  intros Hp (pre & mid & post & -> & Hpre & Hmid & Hpost).
  exists (p ++ pre), mid, post. rewrite <- app_assoc.
  repeat split; [apply Forall_app_2|..]; assumption.
Qed.

Lemma bootOrdered_cons vmConfig c t :
  bootStep c = false → bootOrdered vmConfig t → bootOrdered vmConfig (c :: t).
Proof.
  intros Hc. apply (bootOrdered_app vmConfig [c]). no_boot_steps.
Qed.

(** A sub-run about which [lem] is known: name its pieces. *)
Ltac sub_run lem :=
  lazymatch goal with
  | |- wp ?m ?w _ =>
      let H := fresh "Ht" in
      pose proof (lem w) as H; unfold wp at 1;
      destruct (m w) as [? ? [?|?|]]; run_simpl
  end.

Lemma VMRun_shape vmConfig waitSSH (w : World Σ) :
  bootOrdered vmConfig (trace (VMRun env qemuMAC v vmConfig waitSSH w)).
Proof.
  run_start. unfold VMRun.
  do 3 run_step env; [|apply bootOrdered_quiet; no_boot_steps].
  apply (wp_mono _ _ (λ r, bootOrdered vmConfig (trace r)));
    [|intros r Hr; apply bootOrdered_cons; [reflexivity|exact Hr]].
  run_step env. sub_run (createVMVolume_trace a vmConfig);
    [|apply bootOrdered_quiet; assumption..].
  apply (wp_mono _ _ (λ r, bootOrdered vmConfig (trace r)));
    [|intros r Hr; apply bootOrdered_app; assumption].
  run_step env. sub_run (createCIData_trace a vmConfig);
    [|apply bootOrdered_quiet; assumption..].
  apply (wp_mono _ _ (λ r, bootOrdered vmConfig (trace r)));
    [|intros r Hr; apply bootOrdered_app; assumption].
  run_step env. sub_run (createScratchVolume_trace a vmConfig);
    [|apply bootOrdered_quiet; assumption..].
  apply (wp_mono _ _ (λ r, bootOrdered vmConfig (trace r)));
    [|intros r Hr; apply bootOrdered_app; assumption].
  run_step env.
  lazymatch goal with
  | |- wp ?m ?w _ =>
      destruct (createVM_shape a vmConfig w) as (rendering & mid & Hm & Hr & Hb);
      unfold wp at 1; destruct (m w) as [? ? [?|?|]]; run_simpl; subst
  end.
  2,3: exists [rendering], mid, []; rewrite app_nil_r;
       repeat split; [no_boot_steps|assumption|constructor].
  run_steps env; exists [rendering], mid; eexists;
    (split; [reflexivity|]); repeat split; first [assumption|no_boot_steps].
Qed.

Lemma bootStep_absent d t :
  Forall (λ c, bootStep c = false) t → DomainCreate d ∉ t.
Proof.
  intros H Hin. rewrite Forall_forall in H. specialize (H _ Hin). discriminate.
Qed.

(** C1: in a run of [VMRun] that issues the start of a domain, the requests
    are: some that are none of define, bind, start; then the definition of
    the domain, the DHCP entry for the MAC derived from the VM's ID, and the
    start, one right after the other; then some that again are none of the
    three.  So the entry is added after the define and before the start, and
    at no other point. *)
Theorem VMRun_define_bind_start (vmConfig : VMConfig) (waitSSH : bool)
    (w : World Σ) (d : Domain) :
  DomainCreate d ∈ trace (VMRun env qemuMAC v vmConfig waitSSH w) →
  ∃ pre xml post,
    trace (VMRun env qemuMAC v vmConfig waitSSH w)
    = pre ++ [DomainDefineXML xml;
              addDHCPEntry (qemuMAC (VMID vmConfig)) (VMID vmConfig);
              DomainCreate d] ++ post
    ∧ Forall (λ c, bootStep c = false) pre
    ∧ Forall (λ c, bootStep c = false) post.
Proof.
  intros Hin.
  destruct (VMRun_shape vmConfig waitSSH w) as (pre & mid & post & Ht & Hpre & Hmid & Hpost).
  rewrite Ht in Hin |- *. rewrite !elem_of_app in Hin.
  destruct Hin as [Hin|[Hin|Hin]].
  - exfalso. exact (bootStep_absent _ _ Hpre Hin).
  - destruct Hmid as [|xml|xml|xml d'].
    + apply elem_of_nil in Hin. contradiction.
    + apply list_elem_of_singleton in Hin. discriminate.
    + rewrite !elem_of_cons, elem_of_nil in Hin. destruct Hin as [?|[?|[]]]; discriminate.
    + rewrite !elem_of_cons, elem_of_nil in Hin.
      destruct Hin as [?|[?|[Hd|[]]]]; try discriminate.
      injection Hd as ->. exists pre, xml, post. auto.
  - exfalso. exact (bootStep_absent _ _ Hpost Hin).
Qed.

(** ** Teardown *)

Lemma append_neq (s suffix : string) : suffix ≠ "" → s +:+ suffix ≠ s.
Proof.
  intros Hne Heq. apply Hne. clear Hne.
  induction s as [|a s IH]; cbn in Heq; [assumption|].
  injection Heq as Heq. exact (IH Heq).
Qed.

Lemma scratchVolumeName_neq vmName : scratchVolumeName vmName ≠ vmName.
Proof. apply append_neq. discriminate. Qed.

Lemma ciDataVolumeName_neq vmName : ciDataVolumeName vmName ≠ vmName.
Proof. apply append_neq. discriminate. Qed.

Lemma derived_name_neq vmName name :
  name ∈ [scratchVolumeName vmName; ciDataVolumeName vmName] → name ≠ vmName.
Proof.
  rewrite !elem_of_cons, elem_of_nil. intros [->|[->|[]]].
  - apply scratchVolumeName_neq.
  - apply ciDataVolumeName_neq.
Qed.

Ltac quiet_steps :=
  repeat first [ assumption
               | apply Forall_nil_2
               | apply Forall_cons_2; [first [reflexivity|assumption]|]
               | apply Forall_app_2 ].

Lemma rmSnapshotsEach_quiet snapshots (w : World Σ) :
  Forall (λ c, volumeCall c = false) (trace (rmSnapshotsEach env snapshots w)).
Proof.
  revert w. induction snapshots as [|snapshot rest IH]; intros w.
  - constructor.
  - run_start. cbn [rmSnapshotsEach]. run_steps env; [|quiet_steps].
    sub_run (IH); quiet_steps.
Qed.

Lemma rmSnapshots_quiet domain (w : World Σ) :
  Forall (λ c, volumeCall c = false) (trace (rmSnapshots env domain w)).
Proof.
  run_start. unfold rmSnapshots. run_steps env; [|quiet_steps].
  sub_run (rmSnapshotsEach_quiet a.1); quiet_steps.
Qed.

Lemma vmShutdown_quiet shutdownTimeout domain (w : World Σ) :
  Forall (λ c, volumeCall c = false) (trace (vmShutdown env shutdownTimeout domain w)).
Proof.
  run_start. unfold vmShutdown.
  run_steps env;
    try (unfold wp, selectUntilStopped; destruct (awaitStopped _ _); run_simpl);
    quiet_steps.
Qed.

Lemma exceptBoot_quiet vmName t :
  Forall (λ c, volumeCall c = false) t → Forall (exceptBoot vmName) t.
Proof.
  intros H. eapply Forall_impl; [exact H|]. intros c. apply eb_other.
Qed.

Lemma rmVolume_exceptBoot vmName sp name debugName (w : World Σ) :
  name ∈ [scratchVolumeName vmName; ciDataVolumeName vmName] →
  Forall (exceptBoot vmName) (trace (rmVolume env errNoStorageVol sp name debugName w)).
Proof.
  intros Hname. run_start. unfold rmVolume.
  run_steps env;
    repeat first [ apply Forall_nil_2
                 | apply Forall_cons_2;
                   [first [ apply eb_lookup; assumption
                          | eapply eb_delete; eassumption ]|] ].
Qed.

Ltac frame_steps :=
  repeat first [ assumption
               | apply Forall_nil_2
               | apply Forall_app_2
               | apply exceptBoot_quiet; assumption
               | apply Forall_cons_2; [apply eb_other; reflexivity|] ].

Lemma derived_scratch vmName :
  scratchVolumeName vmName ∈ [scratchVolumeName vmName; ciDataVolumeName vmName].
Proof. rewrite !elem_of_cons. auto. Qed.

Lemma derived_ciData vmName :
  ciDataVolumeName vmName ∈ [scratchVolumeName vmName; ciDataVolumeName vmName].
Proof. rewrite !elem_of_cons. auto. Qed.

(** The steps of the teardown, its sub-runs taken whole. *)
Ltac teardown_step env vmName :=
  first
    [ run_step env; same_answer; try wrong_branch
    | lazymatch goal with
      | |- wp (rmSnapshots _ ?d) _ _ => sub_run (rmSnapshots_quiet d)
      | |- wp (rmVolume _ _ ?sp (scratchVolumeName vmName) ?dbg) _ _ =>
          sub_run (λ w, rmVolume_exceptBoot vmName sp _ dbg w (derived_scratch vmName))
      | |- wp (rmVolume _ _ ?sp (ciDataVolumeName vmName) ?dbg) _ _ =>
          sub_run (λ w, rmVolume_exceptBoot vmName sp _ dbg w (derived_ciData vmName))
      end ].

Lemma vmRmExceptBoot_exceptBoot sp vmName (w : World Σ) :
  Forall (exceptBoot vmName) (trace (vmRmExceptBoot env errNoDomain errNoStorageVol sp vmName w)).
Proof.
  run_start. unfold vmRmExceptBoot.
  repeat teardown_step env vmName; frame_steps.
Qed.

(** No run of [VMCommit] touches the boot volume. *)
Lemma VMCommit_exceptBoot vmName shutdown shutdownTimeout (w : World Σ) :
  Forall (exceptBoot vmName) (trace (VMCommit env errNoDomain errNoStorageVol v vmName shutdown shutdownTimeout w)).
Proof.
  run_start. unfold VMCommit.
  do 3 run_step env; [|frame_steps]. run_step env.
  destruct shutdown.
  - sub_run (vmShutdown_quiet shutdownTimeout a); [|frame_steps..].
    do 3 run_step env; [|frame_steps].
    sub_run (vmRmExceptBoot_exceptBoot a1 vmName); frame_steps.
  - run_steps env; try solve [frame_steps].
    sub_run (vmRmExceptBoot_exceptBoot a1 vmName); frame_steps.
Qed.

Lemma rmSnapshotsEach_done snapshots (w : World Σ) :
  outcome (rmSnapshotsEach env snapshots w) = Done () →
  trace (rmSnapshotsEach env snapshots w) = map (λ s, DomainSnapshotDelete s 0) snapshots.
Proof.
  revert w. induction snapshots as [|snapshot rest IH]; intros w.
  - reflexivity.
  - run_start. cbn [rmSnapshotsEach]. run_steps env; [|discriminate].
    sub_run IH; intros Hd; [|discriminate..].
    cbn [map]. f_equal. auto.
Qed.

Lemma rmSnapshots_done domain (w : World Σ) :
  outcome (rmSnapshots env domain w) = Done () →
  ∃ σ' snapshots n,
    env (DomainListAllSnapshots domain (-1) 0) (backend w) = (σ', Ok (snapshots, n))
    ∧ trace (rmSnapshots env domain w)
      = DomainListAllSnapshots domain (-1) 0
        :: map (λ s, DomainSnapshotDelete s 0) snapshots.
Proof.
  run_start. unfold rmSnapshots. run_steps env; [|discriminate].
  sub_run (rmSnapshotsEach_done a.1); intros Hd; [|discriminate..].
  destruct a as [snapshots n]. exists σ, snapshots, n. split; [assumption|].
  f_equal. auto.
Qed.

Lemma rmVolume_done sp name debugName (w : World Σ) :
  outcome (rmVolume env errNoStorageVol sp name debugName w) = Done () →
  volumeStep sp name (trace (rmVolume env errNoStorageVol sp name debugName w)).
Proof.
  run_start. unfold rmVolume.
  run_steps env; intros Hd; try discriminate.
  - eapply vs_deleted; eassumption.
  - eapply vs_absent; [eassumption|]. apply negb_false_iff. assumption.
Qed.

Lemma vmRmExceptBoot_done sp vmName (w : World Σ) :
  outcome (vmRmExceptBoot env errNoDomain errNoStorageVol sp vmName w) = Done () →
  teardownDone sp vmName (trace (vmRmExceptBoot env errNoDomain errNoStorageVol sp vmName w)).
Proof.
  run_start. unfold vmRmExceptBoot.
  repeat first
    [ run_step env; same_answer; try wrong_branch
    | lazymatch goal with
      | |- wp (rmSnapshots _ ?d) _ _ => sub_run (rmSnapshots_done d)
      | |- wp (rmVolume _ _ ?sp ?n ?dbg) _ _ => sub_run (rmVolume_done sp n dbg)
      end ];
    intros Hd; try discriminate;
    repeat match goal with u : () |- _ => destruct u end;
    repeat match goal with
           | Hs : Done () = Done () → _ |- _ => specialize (Hs eq_refl)
           end.
  1-4: destruct Ht as (σ' & snapshots & n & Hl & ->);
       exists (DomainLookupByName vmName :: domainRemoval a snapshots a1 a2), trace1, trace2;
       (split; [unfold domainRemoval; rewrite Heqb, Heqb0; cbn [app];
                rewrite <- !app_assoc; reflexivity|]);
       (split; [eapply ds_removed; eassumption|]); split; assumption.
  exists [DomainLookupByName vmName], trace0, trace1.
  split; [reflexivity|].
  split; [eapply ds_absent; [eassumption|apply negb_false_iff; assumption]|].
  split; assumption.
Qed.

(** A successful [VMCommit]: requests that touch no volume, then the pool
    lookup and the shared teardown. *)
Lemma VMCommit_done vmName shutdown shutdownTimeout (w : World Σ) :
  outcome (VMCommit env errNoDomain errNoStorageVol v vmName shutdown shutdownTimeout w) = Done () →
  ∃ pre sp td,
    trace (VMCommit env errNoDomain errNoStorageVol v vmName shutdown shutdownTimeout w)
    = pre ++ StoragePoolLookupByName (storagePoolName v) :: td
    ∧ Forall (λ c, volumeCall c = false) pre
    ∧ teardownDone sp vmName td.
Proof.
  run_start. unfold VMCommit.
  do 3 run_step env; [|discriminate]. run_step env.
  destruct shutdown.
  - sub_run (vmShutdown_quiet shutdownTimeout a); [|discriminate..].
    do 3 run_step env; [|discriminate].
    sub_run (vmRmExceptBoot_done a1 vmName); intros Hd; try discriminate.
    destruct a2. exists (DomainLookupByName vmName :: trace0), a1, trace1.
    split; [reflexivity|]. split; [quiet_steps|auto].
  - run_steps env; try discriminate.
    sub_run (vmRmExceptBoot_done a1 vmName); intros Hd; try discriminate.
    destruct a2. exists [DomainLookupByName vmName; DomainIsActive a], a1, trace0.
    split; [reflexivity|]. split; [quiet_steps|auto].
Qed.

(** What [VMCommit] asks of the backend about volumes: in every run, each
    request on a volume is a lookup of the scratch or the cloud-init name or
    the deletion of a volume returned for one of these names; no request
    names the volume called like the VM; and a run that returns nil ends with
    the teardown. *)
Lemma VMCommit_requests_spare_boot_volume (vmName : string) (shutdown : bool)
    (shutdownTimeout : Z) (w : World Σ) :
  let r := VMCommit env errNoDomain errNoStorageVol v vmName shutdown shutdownTimeout w in
  Forall (exceptBoot vmName) (trace r)
  ∧ (∀ sp, StorageVolLookupByName sp vmName ∉ trace r)
  ∧ ((∀ σ sp name σ' vol,
        env (StorageVolLookupByName sp name) σ = (σ', Ok vol) → vol_Name vol = name) →
     ∀ vol flags, StorageVolDelete vol flags ∈ trace r → vol_Name vol ≠ vmName)
  ∧ (outcome r = Done () →
     ∃ pre sp td,
       trace r = pre ++ StoragePoolLookupByName (storagePoolName v) :: td
       ∧ Forall (λ c, volumeCall c = false) pre
       ∧ teardownDone sp vmName td).
Proof.
  intros r. pose proof (VMCommit_exceptBoot vmName shutdown shutdownTimeout w) as Hf.
  fold r in Hf. rewrite Forall_forall in Hf.
  split; [rewrite Forall_forall; exact Hf|]. split; [|split].
  - intros sp Hin. specialize (Hf _ Hin).
    inversion Hf as [c Hq|sp' name Hname|]; subst; [discriminate|].
    exact (derived_name_neq _ _ Hname eq_refl).
  - intros Hfaithful vol flags Hin. specialize (Hf _ Hin).
    inversion Hf as [c Hq| |sp' name vol' σ σ' Hname Hans]; subst; [discriminate|].
    rewrite (Hfaithful _ _ _ _ _ Hans). exact (derived_name_neq _ _ Hname).
  - apply VMCommit_done.
Qed.

(** ** "Not found" in a removal *)

Lemma rmVolume_not_found sp name debugName (w : World Σ) σ' e :
  env (StorageVolLookupByName sp name) (backend w) = (σ', Fault e) →
  hasErrorCode (Some e) errNoStorageVol = true →
  rmVolume env errNoStorageVol sp name debugName w
  = {| final := answered w σ';
       trace := [StorageVolLookupByName sp name];
       outcome := Done () |}.
Proof.
  intros H Hcode. run_start. unfold rmVolume.
  run_steps env.
  - rewrite Hcode in Heqb. discriminate.
  - reflexivity.
Qed.

Lemma rmVolume_found sp name debugName (w : World Σ) σ' vol :
  env (StorageVolLookupByName sp name) (backend w) = (σ', Ok vol) →
  rmVolume env errNoStorageVol sp name debugName w
  = {| final := answered w (fst (env (StorageVolDelete vol 0) σ'));
       trace := [StorageVolLookupByName sp name; StorageVolDelete vol 0];
       outcome := match snd (env (StorageVolDelete vol 0) σ') with
                  | Ok _ => Done ()
                  | Fault e' =>
                      Failed (Wrapf ("could not delete " +:+ debugName +:+ " volume") e')
                  end |}.
Proof.
  intros H. run_start. unfold rmVolume.
  run_steps env; rewrite H0; cbn [fst snd];
    try match goal with u : reply (StorageVolDelete _ _) |- _ => destruct u end;
    reflexivity.
Qed.

Lemma vmRmExceptBoot_no_domain sp vmName (w : World Σ) σ' e :
  env (DomainLookupByName vmName) (backend w) = (σ', Fault e) →
  hasErrorCode (Some e) errNoDomain = true →
  vmRmExceptBoot env errNoDomain errNoStorageVol sp vmName w
  = prefixed [DomainLookupByName vmName]
      ((rmVolume env errNoStorageVol sp (scratchVolumeName vmName) "scratch"
        ≫= λ _, rmVolume env errNoStorageVol sp (ciDataVolumeName vmName) "cloud-init") (answered w σ')).
Proof.
  intros H Hcode. run_start. unfold vmRmExceptBoot.
  do 4 run_step env; same_answer. rewrite Hcode. run_simpl.
  run_step env. unfold wp. reflexivity.
Qed.

(** [VMRm] is the shared teardown followed by the removal of the volume
    named like the VM. *)
Lemma VMRm_boot_last vmName (w : World Σ) σ sp :
  env (StoragePoolLookupByName (storagePoolName v)) (backend w) = (σ, Ok sp) →
  outcome (vmRmExceptBoot env errNoDomain errNoStorageVol sp vmName (answered w σ)) = Done () →
  VMRm env errNoDomain errNoStorageVol v vmName w
  = prefixed
      (StoragePoolLookupByName (storagePoolName v)
       :: trace (vmRmExceptBoot env errNoDomain errNoStorageVol sp vmName (answered w σ)))
      (rmVolume env errNoStorageVol sp vmName "boot" (final (vmRmExceptBoot env errNoDomain errNoStorageVol sp vmName (answered w σ)))).
Proof.
  intros H Hd. run_start. unfold VMRm.
  do 3 run_step env; same_answer. run_step env.
  unfold wp at 1. rewrite Hd. unfold wp. reflexivity.
Qed.

(** C6, as amended: the routine that [VMRm] shares with [VMCommit],
    [vmRmExceptBoot], stops short of the boot volume: it issues no request
    that names the volume called like the VM.  [VMRm] itself removes that
    volume: once the shared routine has returned nil, it looks up the volume
    called like the VM and, when the lookup returns one, deletes it. *)
Theorem vmRmExceptBoot_spares_boot_volume_VMRm_removes_it (vmName : string) (w : World Σ) :
  (∀ sp,
     Forall (exceptBoot vmName) (trace (vmRmExceptBoot env errNoDomain errNoStorageVol sp vmName w))
     ∧ ∀ sp', StorageVolLookupByName sp' vmName
              ∉ trace (vmRmExceptBoot env errNoDomain errNoStorageVol sp vmName w))
  ∧ (∀ σ sp,
       env (StoragePoolLookupByName (storagePoolName v)) (backend w) = (σ, Ok sp) →
       let td := vmRmExceptBoot env errNoDomain errNoStorageVol sp vmName (answered w σ) in
       outcome td = Done () →
       (∃ rest,
          trace (VMRm env errNoDomain errNoStorageVol v vmName w)
          = StoragePoolLookupByName (storagePoolName v) :: trace td
            ++ StorageVolLookupByName sp vmName :: rest)
       ∧ (∀ σ' vol,
            env (StorageVolLookupByName sp vmName) (backend (final td)) = (σ', Ok vol) →
            trace (VMRm env errNoDomain errNoStorageVol v vmName w)
            = StoragePoolLookupByName (storagePoolName v) :: trace td
              ++ [StorageVolLookupByName sp vmName; StorageVolDelete vol 0])).
Proof.
  split.
  - intros sp. pose proof (vmRmExceptBoot_exceptBoot sp vmName w) as Hf.
    split; [exact Hf|]. intros sp' Hin. rewrite Forall_forall in Hf. specialize (Hf _ Hin).
    inversion Hf as [c Hq|sp'' name Hname|]; subst; [discriminate|].
    exact (derived_name_neq _ _ Hname eq_refl).
  - intros σ sp Hpool td Hd. rewrite (VMRm_boot_last _ _ _ _ Hpool Hd). fold td.
    cbn [trace prefixed app]. split.
    + destruct (env (StorageVolLookupByName sp vmName) (backend (final td)))
        as [σ' [vol|e]] eqn:Hl.
      * rewrite (rmVolume_found _ _ _ _ _ _ Hl). eexists. reflexivity.
      * eexists. f_equal. f_equal. revert Hl. run_start. unfold rmVolume.
        run_steps env; intros Hl; same_answer; reflexivity.
    + intros σ' vol Hl. rewrite (rmVolume_found _ _ _ _ _ _ Hl). reflexivity.
Qed.

(** ** Provisioning: the resolve phase *)

Lemma findVMIP_quiet network domain (w : World Σ) :
  Forall (λ c, remoteWork c = false) (trace (findVMIP env network domain w))
  ∧ outcome (findVMIP env network domain w) ≠ Blocked.
Proof.
  run_start. unfold findVMIP. run_steps env; try (split; [quiet_steps|discriminate]).
  destruct a0; run_steps env; split; try discriminate; quiet_steps.
Qed.

Lemma getIPsEach_quiet network vmNames ips (w : World Σ) :
  Forall (λ c, remoteWork c = false) (trace (getIPsEach env network vmNames ips w))
  ∧ ∃ ips' err, outcome (getIPsEach env network vmNames ips w) = Done (ips', err).
Proof.
  revert ips w. induction vmNames as [|vmName rest IH]; intros ips w.
  - split; [constructor|]. eauto.
  - run_start. cbn [getIPsEach]. run_steps env; try (split; [quiet_steps|eauto]).
    lazymatch goal with
    | |- wp (findVMIP _ ?n ?d) ?w' _ =>
        destruct (findVMIP_quiet n d w') as [Hq Hb]; unfold wp at 1;
        destruct (findVMIP env n d w') as [? ? [ip|e|]]; run_simpl
    end; [| |contradiction].
    + lazymatch goal with
      | |- wp (getIPsEach _ _ _ ?ips') ?w' _ =>
          destruct (IH ips' w') as [Hq' (ips'' & err & Ho)]; unfold wp;
          destruct (getIPsEach env network rest ips' w') as [? ? ?]; run_simpl
      end.
      split; [quiet_steps|eauto].
    + run_steps env. split; [quiet_steps|eauto].
Qed.

Lemma getIPs_quiet vmNames (w : World Σ) :
  Forall (λ c, remoteWork c = false) (trace (getIPs env v vmNames w))
  ∧ ∃ ips err, outcome (getIPs env v vmNames w) = Done (ips, err).
Proof.
  run_start. unfold getIPs. run_steps env.
  - lazymatch goal with
    | |- wp (getIPsEach _ ?n ?l ?i) ?w' _ =>
        destruct (getIPsEach_quiet n l i w') as [Hq (ips' & err & Ho)]; unfold wp;
        destruct (getIPsEach env n l i w') as [? ? ?]; run_simpl
    end.
    split; [quiet_steps|eauto].
  - split; [quiet_steps|eauto].
Qed.

Lemma getIPsEach_refused network vmName rest ips (w : World Σ) e :
  refused network vmName w e →
  outcome (getIPsEach env network (vmName :: rest) ips w) = Done (ips, Some e).
Proof.
  intros Hr. run_start. cbn [getIPsEach].
  destruct Hr as [σ1 e H1|σ1 d σ2 e H1 H2|σ1 d σ2 H1 H2|σ1 d σ2 active e H1 H2 Hact Hf];
    run_steps env; try reflexivity.
  - discriminate.
  - apply Z.eqb_eq in Heqb. contradiction.
  - unfold wp at 1. rewrite Hf. run_simpl. run_steps env. reflexivity.
Qed.

Lemma getIPsEach_resolved network vmName rest ips (w : World Σ) ip w' :
  resolved network vmName w ip w' →
  outcome (getIPsEach env network (vmName :: rest) ips w)
  = outcome (getIPsEach env network rest (ips ++ [ip]) w').
Proof.
  intros [σ1 d σ2 active ip' H1 H2 Hact Hf]. run_start. cbn [getIPsEach].
  run_steps env.
  - apply Z.eqb_eq in Heqb. contradiction.
  - unfold wp at 1. rewrite Hf. run_simpl. unfold wp. reflexivity.
Qed.

(** The first target that is refused decides the result: the addresses found
    before it and its error. *)
Lemma getIPsEach_first_refusal network pre vmName post found ips (w w1 : World Σ) e :
  resolvedAll network pre w found w1 →
  refused network vmName w1 e →
  outcome (getIPsEach env network (pre ++ vmName :: post) ips w)
  = Done (ips ++ found, Some e).
Proof.
  intros Hpre. revert ips.
  induction Hpre as [w|n rest w ip w1 found w' Hn _ IH]; intros ips Hr.
  - rewrite app_nil_r. apply getIPsEach_refused. assumption.
  - cbn [app]. rewrite (getIPsEach_resolved _ _ _ _ _ _ _ Hn), (IH _ Hr).
    rewrite <- app_assoc. reflexivity.
Qed.

(** A nil error means that every target was resolved, in order. *)
Lemma getIPsEach_nil_error network vmNames ips (w : World Σ) ips' :
  outcome (getIPsEach env network vmNames ips w) = Done (ips', None) →
  ∃ found, ips' = ips ++ found
    ∧ resolvedAll network vmNames w found (final (getIPsEach env network vmNames ips w)).
Proof.
  revert ips w. induction vmNames as [|vmName rest IH]; intros ips w.
  - cbn. intros [= <-]. exists []. rewrite app_nil_r. split; [reflexivity|constructor].
  - run_start. cbn [getIPsEach]. run_steps env; try discriminate.
    lazymatch goal with
    | |- wp (findVMIP _ ?n ?d) ?w' _ =>
        unfold wp at 1; destruct (findVMIP env n d w') as [wf tf [ip|e|]] eqn:Ef; run_simpl
    end; [|run_steps env; discriminate|discriminate].
    unfold wp. run_simpl. intros Hd. destruct (IH _ _ Hd) as (found & -> & Hall).
    exists (ip :: found). rewrite <- app_assoc. split; [reflexivity|].
    econstructor; [|exact Hall].
    change wf with (final {| final := wf; trace := tf; outcome := Done ip |}).
    rewrite <- Ef. eapply rs_address; try eassumption.
    + apply Z.eqb_neq. assumption.
    + rewrite Ef. reflexivity.
Qed.

(** An error of the resolve phase is the result of each operation, and the
    requests of the resolve phase are all that was issued. *)
Lemma VMExecDocker_fail_fast vmNames cfg key (w : World Σ) ips e :
  outcome (getIPs env v vmNames w) = Done (ips, Some e) →
  VMExecDocker env v vmNames cfg key w = stopped (getIPs env v vmNames w) (Failed e).
Proof.
  intros H. run_start. unfold VMExecDocker.
  do 2 run_step env. unfold wp at 1. rewrite H. run_simpl.
  run_steps env. unfold stopped, prefixed. cbn [final trace outcome].
  rewrite app_nil_r. reflexivity.
Qed.

Lemma VMExecShell_fail_fast vmNames key step (w : World Σ) ips e :
  outcome (getIPs env v vmNames w) = Done (ips, Some e) →
  VMExecShell env EnvmapToSlice v vmNames key step w
  = stopped (getIPs env v vmNames w) (Failed e).
Proof.
  intros H. run_start. unfold VMExecShell, getSSHClientConfig.
  do 3 run_step env. unfold wp at 1. rewrite H. run_simpl.
  run_steps env. unfold stopped, prefixed. cbn [final trace outcome].
  rewrite app_nil_r. reflexivity.
Qed.

Lemma VMExecRsync_fail_fast vmNames step (w : World Σ) σ files ips e :
  env (Glob (Source step)) (backend w) = (σ, Ok files) →
  outcome (getIPs env v vmNames (answered w σ)) = Done (ips, Some e) →
  VMExecRsync env v vmNames step w
  = prefixed [Glob (Source step)] (stopped (getIPs env v vmNames (answered w σ)) (Failed e)).
Proof.
  intros Hg H. run_start. unfold VMExecRsync.
  do 3 run_step env; same_answer. do 2 run_step env.
  unfold wp at 1. rewrite H. run_simpl.
  run_steps env. unfold stopped, prefixed. cbn [final trace outcome app].
  rewrite app_nil_r. reflexivity.
Qed.

Lemma getIPs_first_refusal vmNames pre vmName post (w : World Σ) σ network found w1 e :
  vmNames = pre ++ vmName :: post →
  env (NetworkLookupByName (networkName v)) (backend w) = (σ, Ok network) →
  resolvedAll network pre (answered w σ) found w1 →
  refused network vmName w1 e →
  outcome (getIPs env v vmNames w) = Done (found, Some e).
Proof.
  intros -> Hn Hpre Hr. run_start. unfold getIPs. run_steps env.
  unfold wp. run_simpl.
  apply (getIPsEach_first_refusal _ _ _ post _ [] _ _ _ Hpre Hr).
Qed.

Lemma getIPs_nil_error vmNames (w : World Σ) ips :
  outcome (getIPs env v vmNames w) = Done (ips, None) →
  ∃ σ network w',
    env (NetworkLookupByName (networkName v)) (backend w) = (σ, Ok network)
    ∧ resolvedAll network vmNames (answered w σ) ips w'.
Proof.
  run_start. unfold getIPs. run_steps env; [|discriminate].
  unfold wp. run_simpl. intros Hd.
  destruct (getIPsEach_nil_error _ _ _ _ _ Hd) as (found & -> & Hall).
  eauto.
Qed.

(** Work on a target is only begun after the resolve phase returned a nil
    error. *)
Lemma VMExecDocker_resolves_first vmNames cfg key (w : World Σ) c :
  c ∈ trace (VMExecDocker env v vmNames cfg key w) → remoteWork c = true →
  ∃ ips, outcome (getIPs env v vmNames w) = Done (ips, None).
Proof.
  intros Hin Hc. destruct (getIPs_quiet vmNames w) as [Hq (ips & [e|] & Ho)]; [|eauto].
  rewrite (VMExecDocker_fail_fast _ _ _ _ _ _ Ho) in Hin. cbn [trace stopped] in Hin.
  rewrite Forall_forall in Hq. rewrite (Hq _ Hin) in Hc. discriminate.
Qed.

Lemma VMExecShell_resolves_first vmNames key step (w : World Σ) c :
  c ∈ trace (VMExecShell env EnvmapToSlice v vmNames key step w) →
  remoteWork c = true →
  ∃ ips, outcome (getIPs env v vmNames w) = Done (ips, None).
Proof.
  intros Hin Hc. destruct (getIPs_quiet vmNames w) as [Hq (ips & [e|] & Ho)]; [|eauto].
  rewrite (VMExecShell_fail_fast _ _ _ _ _ _ Ho) in Hin. cbn [trace stopped] in Hin.
  rewrite Forall_forall in Hq. rewrite (Hq _ Hin) in Hc. discriminate.
Qed.

Lemma VMExecRsync_resolves_first vmNames step (w : World Σ) c :
  c ∈ trace (VMExecRsync env v vmNames step w) → remoteWork c = true →
  ∃ σ files ips,
    env (Glob (Source step)) (backend w) = (σ, Ok files)
    ∧ outcome (getIPs env v vmNames (answered w σ)) = Done (ips, None).
Proof.
  intros Hin Hc. destruct (env (Glob (Source step)) (backend w)) as [σ [files|e]] eqn:Hg.
  - destruct (getIPs_quiet vmNames (answered w σ)) as [Hq (ips & [e|] & Ho)]; [|eauto].
    rewrite (VMExecRsync_fail_fast _ _ _ _ _ _ _ Hg Ho) in Hin.
    cbn [trace stopped prefixed app] in Hin.
    apply elem_of_cons in Hin as [->|Hin]; [discriminate|].
    rewrite Forall_forall in Hq. rewrite (Hq _ Hin) in Hc. discriminate.
  - exfalso. revert Hin. run_start. unfold VMExecRsync. run_steps env.
    intros Hin. apply list_elem_of_singleton in Hin as ->. discriminate.
Qed.

(** C7: the resolve phase of the three provisioning operations.  When the
    targets before one target are resolved one after the other and that
    target is refused (its domain cannot be looked up or checked, it is not
    running, or no address is found), each operation returns the error of
    the refusal, for a target that is not running the error "cannot exec
    against VM '<name>' that is not running", and its run has issued no
    request that works on any target.  And a run that does issue such a
    request has resolved every target first: each was looked up, reported
    active, and given an address. *)
Theorem provisioning_resolves_before_remote_work (vmNames : list string) (w : World Σ) :
  (∀ pre vmName post σ network found w1 e,
     vmNames = pre ++ vmName :: post →
     env (NetworkLookupByName (networkName v)) (backend w) = (σ, Ok network) →
     resolvedAll network pre (answered w σ) found w1 →
     refused network vmName w1 e →
     (∀ key step,
        let r := VMExecShell env EnvmapToSlice v vmNames key step w in
        outcome r = Failed e ∧ Forall (λ c, remoteWork c = false) (trace r))
     ∧ (∀ cfg key,
          let r := VMExecDocker env v vmNames cfg key w in
          outcome r = Failed e ∧ Forall (λ c, remoteWork c = false) (trace r))
     ∧ (∀ step w0 files,
          env (Glob (Source step)) (backend w0) = (backend w, Ok files) →
          answered w0 (backend w) = w →
          let r := VMExecRsync env v vmNames step w0 in
          outcome r = Failed e ∧ Forall (λ c, remoteWork c = false) (trace r))
     ∧ (∀ σ1 d σ2,
          env (DomainLookupByName vmName) (backend w1) = (σ1, Ok d) →
          env (DomainIsActive d) σ1 = (σ2, Ok 0) →
          e = Errorf ("cannot exec against VM '" +:+ vmName
                      +:+ "' that is not running")))
  ∧ (∀ c, remoteWork c = true →
       (∀ key step,
          c ∈ trace (VMExecShell env EnvmapToSlice v vmNames key step w) →
          ∃ σ network ips w',
            env (NetworkLookupByName (networkName v)) (backend w) = (σ, Ok network)
            ∧ resolvedAll network vmNames (answered w σ) ips w')
       ∧ (∀ cfg key,
            c ∈ trace (VMExecDocker env v vmNames cfg key w) →
            ∃ σ network ips w',
              env (NetworkLookupByName (networkName v)) (backend w) = (σ, Ok network)
              ∧ resolvedAll network vmNames (answered w σ) ips w')
       ∧ (∀ step,
            c ∈ trace (VMExecRsync env v vmNames step w) →
            ∃ σg files σ network ips w',
              env (Glob (Source step)) (backend w) = (σg, Ok files)
              ∧ env (NetworkLookupByName (networkName v)) σg = (σ, Ok network)
              ∧ resolvedAll network vmNames (answered w σ) ips w')).
Proof.
  split.
  - intros pre vmName post σ network found w1 e Hnames Hnet Hpre Href.
    pose proof (getIPs_first_refusal _ _ _ _ _ _ _ _ _ _ Hnames Hnet Hpre Href) as Hips.
    pose proof (getIPs_quiet vmNames w) as [Hq _].
    split; [|split; [|split]].
    + intros key step r. subst r.
      rewrite (VMExecShell_fail_fast _ _ _ _ _ _ Hips). split; [reflexivity|exact Hq].
    + intros cfg key r. subst r.
      rewrite (VMExecDocker_fail_fast _ _ _ _ _ _ Hips). split; [reflexivity|exact Hq].
    + intros step w0 files Hg Hw r. subst r. rewrite <- Hw in Hips, Hq.
      rewrite (VMExecRsync_fail_fast _ _ _ _ _ _ _ Hg Hips). split; [reflexivity|].
      cbn [trace prefixed stopped]. apply Forall_cons_2; [reflexivity|exact Hq].
    + intros σ1 d σ2 H1 H2. destruct Href; same_answer; try reflexivity; try contradiction.
  - intros c Hc. split; [|split].
    + intros key step Hin.
      destruct (VMExecShell_resolves_first _ _ _ _ _ Hin Hc) as (ips & Ho).
      destruct (getIPs_nil_error _ _ _ Ho) as (σ & network & w' & Hn & Hall). eauto 6.
    + intros cfg key Hin.
      destruct (VMExecDocker_resolves_first _ _ _ _ _ Hin Hc) as (ips & Ho).
      destruct (getIPs_nil_error _ _ _ Ho) as (σ & network & w' & Hn & Hall). eauto 6.
    + intros step Hin.
      destruct (VMExecRsync_resolves_first _ _ _ _ Hin Hc) as (σg & files & ips & Hg & Ho).
      destruct (getIPs_nil_error _ _ _ Ho) as (σ & network & w' & Hn & Hall).
      exists σg, files, σ, network, ips, w'. auto.
Qed.

(** ** Provisioning: the join phase *)

Lemma completionOrder_Permutation {A} choices (l : list A) :
  completionOrder (length l) choices l ≡ₚ l.
Proof.
  remember (length l) as n eqn:Hn. revert choices l Hn.
  induction n as [|n IH]; intros choices l Hn.
  - destruct l; [reflexivity|discriminate].
  - cbn [completionOrder]. rewrite <- Hn.
    assert (hd 0%nat choices `mod` S n < S n)%nat as Hlt by (apply Nat.mod_upper_bound; lia).
    rewrite Hn in Hlt at 2. destruct (lookup_lt_is_Some_2 _ _ Hlt) as [t Ht].
    rewrite Ht. rewrite (delete_Permutation _ _ _ Ht) at 2.
    constructor. apply IH. rewrite length_delete by eauto. lia.
Qed.

Lemma completionOrder_fmap {A B} (f : A → B) n choices (l : list A) :
  completionOrder n choices (f <$> l) = f <$> completionOrder n choices l.
Proof.
  revert choices l. induction n as [|n IH]; intros choices l; [reflexivity|].
  cbn [completionOrder]. rewrite length_fmap, list_lookup_fmap.
  destruct (l !! _) as [t|]; [|reflexivity].
  cbn [fmap option_fmap option_map]. rewrite <- list_fmap_delete, IH. reflexivity.
Qed.

Lemma firstError_first before e after :
  Forall (λ err, err = None) before →
  firstError (before ++ Some e :: after) = Some e.
Proof. induction 1 as [|? ? -> _ IH]; [reflexivity|exact IH]. Qed.

Lemma firstError_None errs :
  firstError errs = None ↔ Forall (λ err, err = None) errs.
Proof.
  induction errs as [|[e|] errs IH]; cbn.
  - split; [constructor|reflexivity].
  - split; [discriminate|]. intros H. inversion H. discriminate.
  - rewrite IH. split; [constructor; auto|]. intros H. inversion H. assumption.
Qed.

Lemma answers_length cs σ : length (answers cs σ).1 = length cs.
Proof.
  revert σ. induction cs as [|c cs IH]; intros σ; [reflexivity|].
  cbn. rewrite IH. reflexivity.
Qed.

Lemma errgroupJoin_runs tasks cs first (w : World Σ) :
  Forall2 (λ task c, taskOf c task) tasks cs →
  errgroupJoin tasks first w
  = {| final := answered w (answers cs (backend w)).2;
       trace := cs;
       outcome := match firstError (first :: (answers cs (backend w)).1) with
                  | Some e => Failed e
                  | None => Done ()
                  end |}.
Proof.
  intros H. revert first w. induction H as [|task c tasks cs Ht _ IH]; intros first w.
  - cbn. destruct w, first; reflexivity.
  - run_start. cbn [errgroupJoin]. do 2 run_step env. unfold wp at 1. rewrite Ht.
    run_simpl. unfold wp. cbn [answers].
    destruct (env c (backend w)) as [σ [a|e]]; cbn [fst snd]; rewrite IH;
      cbn [answers fst snd backend answered prefixed final trace outcome app
           firstError errOf];
      destruct first; reflexivity.
Qed.

Lemma errgroupGoWait_runs {X} (task : X → M Σ unit) (request : X → Call) xs (w : World Σ) :
  (∀ x, taskOf (request x) (task x)) →
  let order := completionOrder (length xs) (scheduler w) xs in
  errgroupGoWait (task <$> xs) w
  = {| final := {| backend := (answers (request <$> order) (backend w)).2;
                   inbox := inbox w;
                   scheduler := drop (length xs) (scheduler w) |};
       trace := request <$> order;
       outcome := match firstError (answers (request <$> order) (backend w)).1 with
                  | Some e => Failed e
                  | None => Done ()
                  end |}.
Proof.
  intros Htask order. unfold errgroupGoWait. rewrite length_fmap, completionOrder_fmap.
  fold order. rewrite (errgroupJoin_runs _ (request <$> order)).
  - reflexivity.
  - apply Forall2_fmap, Forall_Forall2_diag, Forall_forall. intros x _. apply Htask.
Qed.

Lemma taskOf_runSSHCommand config ipPort script environ :
  taskOf (runSSHCommand config ipPort script environ)
         (call env (runSSHCommand config ipPort script environ)).
Proof.
  intros w. unfold call. destruct (env _ (backend w)) as [σ [[]|e]]; reflexivity.
Qed.

Lemma taskOf_Copy host files dest :
  taskOf (Copy host files dest) (call env (Copy host files dest)).
Proof.
  intros w. unfold call. destruct (env _ (backend w)) as [σ [[]|e]]; reflexivity.
Qed.

(** C8: the join phase.  Once the resolve phase has produced the addresses,
    [VMExecShell] and [VMExecRsync] issue one request per address, in the
    order in which the scheduler lets the tasks complete (a permutation of
    the addresses); every one of them is issued and answered whatever the
    answers to the others were; and the result is the first non-nil error
    among the answers in that order, nil if there is none. *)
Theorem join_waits_for_every_task (vmNames : list string) (w : World Σ) :
  (∀ key step config ips,
     outcome (getSSHClientConfig env v vmNames key w) = Done (config, ips) →
     let w1 := final (getSSHClientConfig env v vmNames key w) in
     let request ip :=
       runSSHCommand config (JoinHostPort ip "22") (Script step)
                     (EnvmapToSlice (Env step)) in
     let order := completionOrder (length ips) (scheduler w1) ips in
     let errs := (answers (request <$> order) (backend w1)).1 in
     let r := VMExecShell env EnvmapToSlice v vmNames key step w in
     trace r = trace (getSSHClientConfig env v vmNames key w) ++ (request <$> order)
     ∧ order ≡ₚ ips
     ∧ length errs = length ips
     ∧ outcome r = match firstError errs with
                   | Some e => Failed e
                   | None => Done ()
                   end)
  ∧ (∀ step σ files ips,
       env (Glob (Source step)) (backend w) = (σ, Ok files) →
       outcome (getIPs env v vmNames (answered w σ)) = Done (ips, None) →
       let w1 := final (getIPs env v vmNames (answered w σ)) in
       let request ip := Copy ip files (Dest step) in
       let order := completionOrder (length ips) (scheduler w1) ips in
       let errs := (answers (request <$> order) (backend w1)).1 in
       let r := VMExecRsync env v vmNames step w in
       trace r = Glob (Source step) :: trace (getIPs env v vmNames (answered w σ))
                 ++ (request <$> order)
       ∧ order ≡ₚ ips
       ∧ length errs = length ips
       ∧ outcome r = match firstError errs with
                     | Some e => Failed e
                     | None => Done ()
                     end).
Proof.
  split.
  - intros key step config ips Hc w1 request order errs r.
    assert (r = prefixed (trace (getSSHClientConfig env v vmNames key w))
                  (errgroupGoWait
                     ((λ ip, call env (request ip) : M Σ unit) <$> ips) w1)) as ->.
    { subst r w1. run_start. unfold VMExecShell. run_step env.
      unfold wp at 1. rewrite Hc. run_simpl. unfold wp. reflexivity. }
    rewrite (errgroupGoWait_runs _ request) by (intros ip; apply taskOf_runSSHCommand).
    cbn [trace outcome prefixed]. fold order. fold errs.
    split; [reflexivity|]. split; [apply completionOrder_Permutation|].
    split; [|reflexivity].
    subst errs. rewrite answers_length, length_fmap.
    apply Permutation_length, completionOrder_Permutation.
  - intros step σ files ips Hg Hi w1 request order errs r.
    assert (r = prefixed (Glob (Source step) :: trace (getIPs env v vmNames (answered w σ)))
                  (errgroupGoWait
                     ((λ ip, call env (request ip) : M Σ unit) <$> ips) w1)) as ->.
    { subst r w1. run_start. unfold VMExecRsync. do 3 run_step env; same_answer.
      do 2 run_step env. unfold wp at 1. rewrite Hi. run_simpl.
      run_step env. unfold wp. unfold prefixed. cbn [final trace outcome app].
      rewrite app_nil_r. reflexivity. }
    rewrite (errgroupGoWait_runs _ request) by (intros ip; apply taskOf_Copy).
    cbn [trace outcome prefixed app]. fold order. fold errs.
    split; [reflexivity|]. split; [apply completionOrder_Permutation|].
    split; [|reflexivity].
    subst errs. rewrite answers_length, length_fmap.
    apply Permutation_length, completionOrder_Permutation.
Qed.

End Properties.

(** * The teardown on the test double *)

Ltac double_simpl :=
  cbn [Double.handle Double.guests Double.volumes Double.pools Double.hosts
       Double.withGuests Double.withVolumes Double.withHosts Double.halted
       Double.started Double.domainOf Double.volumeOf
       dom_Name snap_Dom snap_Name vol_Name backend answered fst snd
       Double.g_id Double.g_active Double.g_persistent Double.g_snapshots Double.g_mac
       hasErrorCode Double.errNoDomain Double.errNoStorageVol
       N.eqb Pos.eqb negb Z.eqb] in *.

(** Settle the answers of the double by what is known of its state. *)
Ltac double_answer :=
  unfold Double.notFound, Double.invalid in *; double_simpl;
  repeat match goal with
         | H : context [ Double.guests ?s !! ?n ], Hg : Double.guests ?s !! ?n = _ |- _ =>
             rewrite Hg in H; double_simpl
         | H : context [ <[?n := _]> _ !! ?n ] |- _ =>
             rewrite lookup_insert_eq in H; double_simpl
         | H : context [ delete ?n _ !! ?n ] |- _ =>
             rewrite lookup_delete_eq in H; double_simpl
         | H : context [ bool_decide ?P ], Hb : bool_decide ?P = _ |- _ =>
             rewrite Hb in H; double_simpl
         | H : (if bool_decide ?P then _ else _) = (_, _) |- _ =>
             destruct (bool_decide P) eqn:?; double_simpl
         | H : match Double.guests ?s !! ?n with Some _ => _ | None => _ end = (_, _) |- _ =>
             destruct (Double.guests s !! n) eqn:?; double_simpl
         | H : (if ?b then _ else _) = (_, _) |- _ =>
             destruct b eqn:?; double_simpl
         | H : match ?l with [] => _ | _ :: _ => _ end = (_, _) |- _ =>
             destruct l eqn:?; double_simpl
         | H : Double.notFound _ _ _ = _ |- _ => unfold Double.notFound in H
         | H : Double.invalid _ _ = _ |- _ => unfold Double.invalid in H
         | H : (_, _) = (_, _) |- _ => simplify_eq; double_simpl
         end.

Ltac double_steps :=
  repeat (run_step Double.handle; double_answer; try wrong_branch; try discriminate).

Module DoubleFacts.
Import Double.

Lemma rmSnapshotsEach_double d l (w : World State) g :
  guests (backend w) !! dom_Name d = Some g →
  let r := rmSnapshotsEach handle ((λ n, {| snap_Name := n; snap_Dom := d |}) <$> l) w in
  outcome r = Done ()
  ∧ pools (backend (final r)) = pools (backend w)
  ∧ volumes (backend (final r)) = volumes (backend w)
  ∧ ∃ g', guests (backend (final r)) !! dom_Name d = Some g'
          ∧ g_active g' = g_active g ∧ g_persistent g' = g_persistent g
          ∧ ∀ x, x ∈ g_snapshots g' → x ∈ g_snapshots g ∧ x ∉ l.
Proof.
  revert w g. induction l as [|n l IH]; intros w g Hg r; subst r.
  - cbn. do 3 (split; [reflexivity|]). exists g. repeat split; try assumption.
    apply not_elem_of_nil.
  - run_start. cbn [fmap list_fmap rmSnapshotsEach]. do 3 run_step handle; double_answer.
    unfold wp.
    match goal with |- context [ answered w ?s' ] => set (w' := answered w s') end.
    destruct (IH w' {| g_id := g_id g; g_active := g_active g;
                       g_persistent := g_persistent g;
                       g_snapshots := filter (λ n0 : string, n0 ≠ n) (g_snapshots g);
                       g_mac := g_mac g |}) as (Ho & Hp & Hv & g' & Hg' & Ha & Hpe & Hs).
    { subst w'. double_simpl. apply lookup_insert_eq. }
    split; [exact Ho|]. split; [exact Hp|]. split; [exact Hv|]. exists g'.
    repeat split; try assumption; destruct (Hs _ H) as [Hin Hnot]; double_simpl;
      apply list_elem_of_filter in Hin as [Hne Hin]; [assumption|].
    rewrite elem_of_cons. intros [->|?]; [apply Hne; reflexivity|contradiction].
Qed.

Lemma rmVolume_double sp name debugName (w : World State) :
  let r := rmVolume handle errNoStorageVol sp name debugName w in
  outcome r = Done ()
  ∧ pools (backend (final r)) = pools (backend w)
  ∧ guests (backend (final r)) = guests (backend w)
  ∧ volumes (backend (final r)) = volumes (backend w) ∖ {[name]}.
Proof.
  intros r. subst r. run_start. unfold rmVolume.
  double_steps; repeat split.
  apply bool_decide_eq_false in Heqb. symmetry. apply difference_disjoint_L.
  apply disjoint_singleton_r. exact Heqb.
Qed.

Ltac volume_step :=
  lazymatch goal with
  | |- wp (rmVolume _ _ ?sp ?n ?dbg) ?w' _ =>
      let Ho := fresh "Ho" in let Hp := fresh "Hp" in
      let Hg := fresh "Hg" in let Hv := fresh "Hv" in
      destruct (rmVolume_double sp n dbg w') as (Ho & Hp & Hg & Hv); unfold wp at 1;
      destruct (rmVolume handle errNoStorageVol sp n dbg w') as [? ? ?];
      run_simpl; subst; run_simpl
  end.

Lemma vmRmExceptBoot_double sp vmName (w : World State) :
  let r := vmRmExceptBoot handle errNoDomain errNoStorageVol sp vmName w in
  outcome r = Done ()
  ∧ pools (backend (final r)) = pools (backend w)
  ∧ volumes (backend (final r))
    = volumes (backend w) ∖ {[scratchVolumeName vmName]} ∖ {[ciDataVolumeName vmName]}
  ∧ (sensible (backend w) vmName → guests (backend (final r)) !! vmName = None).
Proof.
  intros r. subst r. run_start. unfold vmRmExceptBoot, rmSnapshots, sensible.
  double_steps.
  - destruct (rmSnapshotsEach_double (domainOf vmName g) (g_snapshots g)
                (answered w (backend w)) g Heqo)
      as (Ho & Hp & Hv & [id' act' pers' snaps' mac'] & Hg' & Hact & Hpers & Hs).
    cbn [g_active g_persistent g_snapshots] in Hact, Hpers, Hs. subst act' pers'.
    assert (snaps' = []) as ->.
    { destruct snaps' as [|x ?]; [reflexivity|].
      destruct (Hs x) as [? ?]; [left|contradiction]. }
    unfold wp at 1.
    destruct (rmSnapshotsEach _ _ _) as [w1 t1 o1]. run_simpl. subst o1.
    destruct (g_active g) eqn:Ea, (g_persistent g) eqn:Ep;
      repeat first [ run_step handle; double_answer; try wrong_branch | volume_step ].
    all: double_simpl; split; [reflexivity|]; split; [congruence|]; split; [congruence|].
    all: try (intros _; rewrite Hg0, Hg; double_simpl;
              rewrite ?lookup_delete_eq; reflexivity).
    discriminate.
  - repeat first [ run_step handle; double_answer; try wrong_branch | volume_step ].
    double_simpl. split; [reflexivity|]. split; [congruence|]. split; [congruence|].
    intros _. congruence.
Qed.

Ltac teardown_on_double :=
  lazymatch goal with
  | |- wp (vmRmExceptBoot _ _ _ ?sp ?n) ?w' _ =>
      let Ho := fresh "Ho" in let Hp := fresh "Hp" in
      let Hg := fresh "Hg" in let Hv := fresh "Hv" in
      destruct (vmRmExceptBoot_double sp n w') as (Ho & Hp & Hv & Hg); unfold wp at 1;
      destruct (vmRmExceptBoot handle errNoDomain errNoStorageVol sp n w') as [? ? ?];
      run_simpl; subst; run_simpl
  end.

(** On the double [VMRm] fails only for want of the storage pool; it leaves
    none of the VM's three volumes and, of a sensible domain, nothing. *)
Lemma VMRm_double vmName (w : World State) :
  storagePoolName virter ∈ pools (backend w) →
  let r := rm vmName w in
  outcome r = Done ()
  ∧ pools (backend (final r)) = pools (backend w)
  ∧ volumes (backend (final r))
    = volumes (backend w) ∖ {[scratchVolumeName vmName]} ∖ {[ciDataVolumeName vmName]}
        ∖ {[vmName]}
  ∧ (sensible (backend w) vmName → guests (backend (final r)) !! vmName = None).
Proof.
  intros Hpool r. subst r. run_start. unfold rm, VMRm.
  do 3 run_step handle; double_answer;
    try (apply bool_decide_eq_false in Heqb; contradiction).
  run_step handle. teardown_on_double. volume_step. double_simpl.
  split; [reflexivity|]. split; [congruence|]. split; [congruence|].
  intros Hs. rewrite Hg0. auto.
Qed.

Lemma VMRm_needs_pool vmName (w : World State) :
  outcome (rm vmName w) = Done () → storagePoolName virter ∈ pools (backend w).
Proof.
  run_start. unfold rm, VMRm.
  do 3 run_step handle; double_answer; try discriminate.
  intros _. apply bool_decide_eq_true in Heqb. exact Heqb.
Qed.

(** On the double, a second [VMRm] after one that returned nil returns nil
    too. *)
Lemma VMRm_twice vmName (w : World State) :
  outcome (rm vmName w) = Done () →
  outcome (rm vmName (final (rm vmName w))) = Done ().
Proof.
  intros Hfirst. pose proof (VMRm_needs_pool _ _ Hfirst) as Hpool.
  destruct (VMRm_double vmName w Hpool) as (_ & Hp & _).
  apply VMRm_double. rewrite Hp. exact Hpool.
Qed.

Lemma vmShutdown_double shutdownTimeout name g (w : World State) :
  let r := vmShutdown handle shutdownTimeout (domainOf name g) w in
  pools (backend (final r)) = pools (backend w)
  ∧ volumes (backend (final r)) = volumes (backend w)
  ∧ (sensible (backend w) name → sensible (backend (final r)) name).
Proof.
  intros r. subst r. run_start. unfold vmShutdown, sensible.
  double_steps; try (repeat split; try reflexivity; rewrite ?Heqo; auto; fail).
  unfold wp, selectUntilStopped. destruct (awaitStopped _ _) as [rest o]. double_simpl.
  run_simpl. double_simpl. repeat split. intros _.
  destruct (g_persistent g0); [rewrite lookup_insert_eq; reflexivity|].
  rewrite lookup_delete_eq. exact I.
Qed.

(** On the double a [VMCommit] that returns nil leaves every volume in
    place but the scratch and the cloud-init volume of the VM, and nothing of
    a sensible domain. *)
Lemma VMCommit_double vmName shutdown shutdownTimeout (w : World State) :
  let r := commit vmName shutdown shutdownTimeout w in
  outcome r = Done () →
  volumes (backend (final r))
  = volumes (backend w) ∖ {[scratchVolumeName vmName]} ∖ {[ciDataVolumeName vmName]}
  ∧ (sensible (backend w) vmName → guests (backend (final r)) !! vmName = None).
Proof.
  intros r. subst r. run_start. unfold commit, VMCommit.
  do 3 run_step handle; double_answer; try discriminate. run_step handle.
  destruct shutdown.
  - destruct (vmShutdown_double shutdownTimeout vmName g (answered w (backend w)))
      as (Hp & Hv & Hs).
    unfold wp at 1. destruct (vmShutdown _ _ _ _) as [w1 t1 [[]|e|]];
      run_simpl; try discriminate.
    do 3 run_step handle; double_answer; try discriminate.
    teardown_on_double; intros Hd; try discriminate. double_simpl.
    split; [congruence|]. auto.
  - double_steps. teardown_on_double; intros Hd; try discriminate. double_simpl.
    split; [congruence|]. auto.
Qed.

End DoubleFacts.

(** * Teardown: the claims that need the double *)

(** C2: "not found" in [VMRm].  A domain lookup answered with the "no
    domain" code is no error: the teardown goes on with the two volume
    steps.  A volume lookup answered with the "no storage volume" code is no
    error either: the step returns nil after the lookup alone.  So on the
    double, where what was removed is not found again, a second [VMRm] after
    one that returned nil returns nil; and for a domain that was running or
    defined the second run only looks things up. *)
Theorem Rm_idempotent :
  (∀ Σ (env : Handler Σ) errNoDomain errNoStorageVol sp vmName (w : World Σ) σ' e,
     env (DomainLookupByName vmName) (backend w) = (σ', Fault e) →
     hasErrorCode (Some e) errNoDomain = true →
     vmRmExceptBoot env errNoDomain errNoStorageVol sp vmName w
     = prefixed [DomainLookupByName vmName]
         ((rmVolume env errNoStorageVol sp (scratchVolumeName vmName) "scratch"
           ≫= λ _, rmVolume env errNoStorageVol sp (ciDataVolumeName vmName) "cloud-init")
            (answered w σ')))
  ∧ (∀ Σ (env : Handler Σ) errNoStorageVol sp name debugName (w : World Σ) σ' e,
       env (StorageVolLookupByName sp name) (backend w) = (σ', Fault e) →
       hasErrorCode (Some e) errNoStorageVol = true →
       rmVolume env errNoStorageVol sp name debugName w
       = {| final := answered w σ';
            trace := [StorageVolLookupByName sp name];
            outcome := Done () |})
  ∧ (∀ vmName (w : World Double.State),
       outcome (Double.rm vmName w) = Done () →
       let again := Double.rm vmName (final (Double.rm vmName w)) in
       outcome again = Done ()
       ∧ (Double.sensible (backend w) vmName →
          Forall (λ c, destructive c = false) (trace again))).
Proof.
  split; [|split].
  - intros. eapply vmRmExceptBoot_no_domain; eassumption.
  - intros. eapply rmVolume_not_found; eassumption.
  - intros vmName w Hfirst again. split; [apply DoubleFacts.VMRm_twice; exact Hfirst|].
    intros Hs. pose proof (DoubleFacts.VMRm_needs_pool _ _ Hfirst) as Hpool.
    destruct (DoubleFacts.VMRm_double vmName w Hpool) as (_ & Hp & Hv & Hg).
    specialize (Hg Hs). subst again.
    set (w1 := final (Double.rm vmName w)) in *.
    assert (bool_decide (scratchVolumeName vmName ∈ Double.volumes (backend w1)) = false)
      as Hs1 by (apply bool_decide_eq_false; rewrite Hv; set_solver).
    assert (bool_decide (ciDataVolumeName vmName ∈ Double.volumes (backend w1)) = false)
      as Hs2 by (apply bool_decide_eq_false; rewrite Hv; set_solver).
    assert (bool_decide (vmName ∈ Double.volumes (backend w1)) = false)
      as Hs3 by (apply bool_decide_eq_false; rewrite Hv; set_solver).
    assert (bool_decide ("images" ∈ Double.pools (backend w1)) = true) as Hpool1
      by (apply bool_decide_eq_true; rewrite Hp; exact Hpool).
    clearbody w1. clear Hfirst Hs Hpool Hp Hv.
    run_start. unfold Double.rm, VMRm, vmRmExceptBoot, rmVolume.
    double_steps; repeat constructor.
Qed.

(** C5: [VMCommit] removes the domain, the scratch volume and the
    cloud-init volume, and spares the boot volume.  Whatever the backend: in
    every run each request on a volume is a lookup of the scratch or the
    cloud-init name or the deletion of a volume returned for one of these
    names, both names differ from the VM's name, so no request names the
    volume called like the VM and, where lookups return the volume asked for,
    no deleted volume bears that name; and a run that returns nil ends with
    the teardown (the domain step with snapshots, DHCP entry, destroy and
    undefine, then the scratch and the cloud-init volume).  On the double: after
    a run that returned nil the volume called like the VM is there if and only
    if it was there before, the scratch and the cloud-init volume are not, and
    of a domain that was running or defined nothing is left. *)
Theorem VMCommit_preserves_boot_volume :
  (∀ Σ (env : Handler Σ) errNoDomain errNoStorageVol v vmName shutdown shutdownTimeout
     (w : World Σ),
     let r := VMCommit env errNoDomain errNoStorageVol v vmName shutdown shutdownTimeout w in
     Forall (exceptBoot env vmName) (trace r)
     ∧ (∀ sp, StorageVolLookupByName sp vmName ∉ trace r)
     ∧ ((∀ σ sp name σ' vol,
           env (StorageVolLookupByName sp name) σ = (σ', Ok vol) → vol_Name vol = name) →
        ∀ vol flags, StorageVolDelete vol flags ∈ trace r → vol_Name vol ≠ vmName)
     ∧ (outcome r = Done () →
        ∃ pre sp td,
          trace r = pre ++ StoragePoolLookupByName (storagePoolName v) :: td
          ∧ Forall (λ c, volumeCall c = false) pre
          ∧ teardownDone env errNoDomain errNoStorageVol sp vmName td))
  ∧ (∀ vmName shutdown shutdownTimeout (w : World Double.State),
       let r := Double.commit vmName shutdown shutdownTimeout w in
       outcome r = Done () →
       (vmName ∈ Double.volumes (backend (final r)) ↔ vmName ∈ Double.volumes (backend w))
       ∧ (scratchVolumeName vmName ∉ Double.volumes (backend (final r)))
       ∧ (ciDataVolumeName vmName ∉ Double.volumes (backend (final r)))
       ∧ (Double.sensible (backend w) vmName →
          Double.guests (backend (final r)) !! vmName = None)).
Proof.
  split.
  - intros. apply VMCommit_requests_spare_boot_volume.
  - intros vmName shutdown shutdownTimeout w r Hd.
    destruct (DoubleFacts.VMCommit_double vmName shutdown shutdownTimeout w Hd) as [Hv Hg].
    fold r in Hv, Hg. rewrite Hv.
    pose proof (scratchVolumeName_neq vmName). pose proof (ciDataVolumeName_neq vmName).
    repeat split; try assumption; set_solver.
Qed.

(** * The claims at work on the double *)

Ltac by_computation := vm_compute; reflexivity.

(** Membership in a list that computes. *)
Ltac found_in_list :=
  apply list_elem_of_In; vm_compute; repeat first [left; reflexivity | right].

Lemma VMRun_define_bind_start_witness :
  let w := Double.world Double.initial [] [] in
  let vmConfig := Double.config "vm1" 7 in
  let d := {| dom_Name := "vm1"; dom_UUID := 0%N; dom_ID := -1 |} in
  DomainCreate d ∈ trace (VMRun Double.handle Double.qemuMAC Double.virter vmConfig true w)
  ∧ ∃ pre xml post,
      trace (VMRun Double.handle Double.qemuMAC Double.virter vmConfig true w)
      = pre ++ [DomainDefineXML xml; addDHCPEntry (Double.qemuMAC 7) 7; DomainCreate d]
            ++ post
      ∧ Forall (λ c, bootStep c = false) pre
      ∧ Forall (λ c, bootStep c = false) post.
Proof.
  intros w vmConfig d.
  assert (DomainCreate d
          ∈ trace (VMRun Double.handle Double.qemuMAC Double.virter vmConfig true w)) as Hin
    by found_in_list.
  split; [exact Hin|].
  exact (VMRun_define_bind_start Double.handle Double.qemuMAC Double.virter vmConfig true w d Hin).
Defined.

Lemma VMCommit_missing_domain_witness :
  let w := Double.world Double.initial [] [] in
  let e := LibvirtError Double.errNoDomain "Domain not found" in
  Double.handle (DomainLookupByName "ghost") (backend w) = (Double.initial, Fault e)
  ∧ Double.commit "ghost" true 30 w
    = {| final := answered w Double.initial;
         trace := [DomainLookupByName "ghost"];
         outcome := Failed (Wrapf "could not get domain" e) |}.
Proof.
  intros w e.
  assert (Double.handle (DomainLookupByName "ghost") (backend w) = (Double.initial, Fault e))
    as H by by_computation.
  split; [exact H|].
  exact (VMCommit_missing_domain Double.handle Double.errNoDomain Double.errNoStorageVol
           Double.virter "ghost" true 30 w Double.initial e H).
Defined.

Lemma VMCommit_running_refused_witness :
  let w := Double.world Double.booted [] [] in
  let r := Double.commit "vm1" false 0 w in
  Double.handle (DomainLookupByName "vm1") (backend w) = (Double.booted, Ok Double.vm1)
  ∧ Double.handle (DomainIsActive Double.vm1) Double.booted = (Double.booted, Ok 1)
  ∧ outcome r = Failed (Errorf "cannot commit a running VM")
  ∧ trace r = [DomainLookupByName "vm1"; DomainIsActive Double.vm1]
  ∧ final r = answered w Double.booted.
Proof.
  intros w r.
  assert (Double.handle (DomainLookupByName "vm1") (backend w) = (Double.booted, Ok Double.vm1))
    as H1 by by_computation.
  assert (Double.handle (DomainIsActive Double.vm1) Double.booted = (Double.booted, Ok 1))
    as H2 by by_computation.
  destruct (VMCommit_running_refused Double.handle Double.errNoDomain Double.errNoStorageVol
              Double.virter "vm1" 0 w Double.booted Double.booted Double.vm1 1 H1 H2
              ltac:(discriminate)) as (Ho & _ & Ht & _ & Hf).
  exact (conj H1 (conj H2 (conj Ho (conj Ht Hf)))).
Defined.

Lemma vmShutdown_inactive_witness :
  let s := Double.halt Double.booted Double.vm1 in
  let w := Double.world s [RecvTimeout] [] in
  let r := vmShutdown Double.handle 0 Double.vm1 w in
  Double.handle LifecycleEvents (backend w) = (s, Ok ())
  ∧ Double.handle (DomainIsActive Double.vm1) s = (s, Ok 0)
  ∧ outcome r = Done ()
  ∧ trace r = [LifecycleEvents; DomainIsActive Double.vm1; After 0]
  ∧ inbox (final r) = [RecvTimeout].
Proof.
  intros s w r.
  assert (Double.handle LifecycleEvents (backend w) = (s, Ok ())) as H1 by by_computation.
  assert (Double.handle (DomainIsActive Double.vm1) s = (s, Ok 0)) as H2 by by_computation.
  destruct (vmShutdown_inactive Double.handle 0 Double.vm1 w s s H1 H2)
    as (Ho & Ht & _ & Hi & _).
  exact (conj H1 (conj H2 (conj Ho (conj Ht Hi)))).
Defined.

Lemma vmShutdown_protocol_witness :
  let w := Double.world Double.booted
             [RecvEvent Double.strangerStopped; RecvEvent Double.vm1Stopped; RecvTimeout] [] in
  let r := vmShutdown Double.handle 30 Double.vm1 w in
  trace r = [LifecycleEvents; DomainIsActive Double.vm1; DomainShutdown Double.vm1; After 30]
  ∧ outcome r = Done ()
  ∧ inbox (final r) = [RecvTimeout].
Proof.
  intros w r.
  destruct (vmShutdown_protocol Double.handle 30 Double.vm1 w) as [_ Hactive].
  destruct (Hactive Double.booted Double.booted (Double.halt Double.booted Double.vm1) 1
              ltac:(by_computation) ltac:(by_computation) ltac:(discriminate)
              ltac:(by_computation))
    as (Ht & _ & Hstop & _ & _).
  destruct (Hstop [RecvEvent Double.strangerStopped] Double.vm1Stopped [RecvTimeout] eq_refl) as [Ho Hi].
  - constructor; [|constructor]. exists Double.strangerStopped. split; [reflexivity|].
    intros [Hid _]. discriminate Hid.
  - split; reflexivity.
  - exact (conj Ht (conj Ho Hi)).
Defined.

(** The claim C6 as it stands fails: [VMRm] deletes the boot volume. *)
Lemma VMRm_deletes_boot_volume :
  let w := Double.world Double.booted [] [] in
  Double.volumeOf "images" "vm1" = {| vol_Pool := "images"; vol_Name := "vm1";
                                      vol_Key := "/images/vm1" |}
  ∧ StorageVolDelete (Double.volumeOf "images" "vm1") 0
    ∈ trace (VMRm Double.handle Double.errNoDomain Double.errNoStorageVol Double.virter
               "vm1" w)
  ∧ ¬ (∀ vol flags,
         StorageVolDelete vol flags
         ∈ trace (VMRm Double.handle Double.errNoDomain Double.errNoStorageVol
                    Double.virter "vm1" w) →
         vol_Name vol ≠ "vm1").
Proof.
  intros w.
  assert (StorageVolDelete (Double.volumeOf "images" "vm1") 0
          ∈ trace (VMRm Double.handle Double.errNoDomain Double.errNoStorageVol
                     Double.virter "vm1" w)) as Hin by found_in_list.
  split; [reflexivity|]. split; [exact Hin|].
  intros Hclaim. exact (Hclaim _ _ Hin eq_refl).
Qed.

Lemma vmRmExceptBoot_spares_boot_volume_VMRm_removes_it_witness :
  let w := Double.world Double.booted [] [] in
  let sp := {| sp_Name := "images"; sp_UUID := 0%N |} in
  let td := vmRmExceptBoot Double.handle Double.errNoDomain Double.errNoStorageVol sp "vm1" w in
  Double.handle (StoragePoolLookupByName "images") (backend w) = (Double.booted, Ok sp)
  ∧ outcome td = Done ()
  ∧ (∀ sp', StorageVolLookupByName sp' "vm1" ∉ trace td)
  ∧ trace (Double.rm "vm1" w)
    = StoragePoolLookupByName "images" :: trace td
      ++ [StorageVolLookupByName sp "vm1"; StorageVolDelete (Double.volumeOf "images" "vm1") 0].
Proof.
  intros w sp td.
  assert (Double.handle (StoragePoolLookupByName "images") (backend w) = (Double.booted, Ok sp))
    as Hpool by by_computation.
  assert (outcome td = Done ()) as Hd by by_computation.
  destruct (vmRmExceptBoot_spares_boot_volume_VMRm_removes_it Double.handle
              Double.errNoDomain Double.errNoStorageVol Double.virter "vm1" w)
    as [Hspare Hrm].
  destruct (Hspare sp) as [_ Hno].
  destruct (Hrm Double.booted sp Hpool Hd) as [_ Hdel].
  exact (conj Hpool (conj Hd (conj Hno
           (Hdel _ (Double.volumeOf "images" "vm1") ltac:(by_computation))))).
Defined.

Lemma Rm_idempotent_witness :
  let w := Double.world Double.booted [] [] in
  let again := Double.rm "vm1" (final (Double.rm "vm1" w)) in
  outcome (Double.rm "vm1" w) = Done ()
  ∧ outcome again = Done ()
  ∧ Forall (λ c, destructive c = false) (trace again).
Proof.
  intros w again.
  assert (outcome (Double.rm "vm1" w) = Done ()) as H1 by by_computation.
  destruct (proj2 (proj2 Rm_idempotent) "vm1" w H1) as [Ho Hq].
  exact (conj H1 (conj Ho (Hq ltac:(by_computation)))).
Defined.

Lemma VMCommit_preserves_boot_volume_witness :
  let w := Double.world Double.booted [RecvEvent Double.vm1Stopped] [] in
  let r := Double.commit "vm1" true 30 w in
  outcome r = Done ()
  ∧ "vm1" ∈ Double.volumes (backend (final r))
  ∧ ("vm1-scratch" ∉ Double.volumes (backend (final r)))
  ∧ ("vm1-cidata" ∉ Double.volumes (backend (final r)))
  ∧ Double.guests (backend (final r)) !! "vm1" = None.
Proof.
  intros w r.
  assert (outcome r = Done ()) as Hd by by_computation.
  destruct (proj2 VMCommit_preserves_boot_volume "vm1" true 30 w Hd) as (Hb & Hs & Hc & Hg).
  assert ("vm1" ∈ Double.volumes (backend w)) as Hin
    by by_computation.
  assert (Double.sensible (backend w) "vm1") as Hsens by by_computation.
  exact (conj Hd (conj (proj2 Hb Hin) (conj Hs (conj Hc (Hg Hsens))))).
Defined.

Lemma provisioning_resolves_before_remote_work_witness :
  let s := Double.halt Double.three {| dom_Name := "vm2"; dom_UUID := 0%N; dom_ID := 2 |} in
  let w := Double.world s [] [] in
  let e := Errorf "cannot exec against VM 'vm2' that is not running" in
  let shell := Double.execShell ["vm1"; "vm2"] "KEY" Double.uname w in
  let docker := Double.execDocker ["vm1"; "vm2"] {| ContainerImage := "busybox" |} "KEY" w in
  Double.handle (DomainIsActive Double.vm2Stopped) s = (s, Ok 0)
  ∧ (outcome shell = Failed e ∧ Forall (λ c, remoteWork c = false) (trace shell))
  ∧ (outcome docker = Failed e ∧ Forall (λ c, remoteWork c = false) (trace docker)).
Proof.
  intros s w e shell docker.
  set (network := {| net_Name := "default"; net_UUID := 0%N |}).
  assert (Double.handle (NetworkLookupByName (networkName Double.virter)) (backend w)
          = (s, Ok network)) as Hnet by by_computation.
  assert (Double.handle (DomainIsActive Double.vm2Stopped) s = (s, Ok 0)) as Hoff by by_computation.
  assert (resolvedAll Double.handle network ["vm1"] (answered w s) ["192.168.122.7"]
            (final (findVMIP Double.handle network Double.vm1 (answered (answered w s) s))))
    as Hpre.
  { eapply ra_cons; [|apply ra_nil].
    apply (rs_address Double.handle network "vm1" (answered w s) s Double.vm1 s 1);
      [by_computation|by_computation|discriminate|by_computation]. }
  assert (refused Double.handle network "vm2"
            (final (findVMIP Double.handle network Double.vm1 (answered (answered w s) s))) e)
    as Href.
  { apply (rf_not_running Double.handle network "vm2" _ s Double.vm2Stopped s); by_computation. }
  destruct (proj1 (provisioning_resolves_before_remote_work Double.handle
                     Double.EnvmapToSlice Double.virter ["vm1"; "vm2"] w)
              ["vm1"] "vm2" [] s network ["192.168.122.7"] _ e eq_refl Hnet Hpre Href)
    as (Hshell & Hdocker & _).
  exact (conj Hoff (conj (Hshell "KEY" Double.uname) (Hdocker {| ContainerImage := "busybox" |} "KEY"))).
Defined.

Lemma join_waits_for_every_task_witness :
  let w := Double.world Double.three [] [2%nat; 0%nat; 0%nat] in
  let config := {| User := "root"; Auth := [{| signer_key := "KEY" |}] |} in
  let ips := ["192.168.122.7"; "192.168.122.8"; "192.168.122.9"] in
  let request ip := runSSHCommand config (JoinHostPort ip "22") "uname -a" [] in
  let r := Double.execShell ["vm1"; "vm2"; "vm3"] "KEY" Double.uname w in
  outcome (getSSHClientConfig Double.handle Double.virter ["vm1"; "vm2"; "vm3"] "KEY" w)
  = Done (config, ips)
  ∧ trace r
    = trace (getSSHClientConfig Double.handle Double.virter ["vm1"; "vm2"; "vm3"] "KEY" w)
      ++ [request "192.168.122.9"; request "192.168.122.7"; request "192.168.122.8"]
  ∧ outcome r = Failed (Errorf "Process exited with status 1")
  ∧ Double.reached (backend (final r)) = ["192.168.122.9:22"; "192.168.122.7:22"].
Proof.
  intros w config ips request r.
  assert (outcome (getSSHClientConfig Double.handle Double.virter ["vm1"; "vm2"; "vm3"] "KEY" w)
          = Done (config, ips)) as Hc by by_computation.
  destruct (proj1 (join_waits_for_every_task Double.handle Double.EnvmapToSlice
                     Double.virter ["vm1"; "vm2"; "vm3"] w) "KEY" Double.uname config ips Hc)
    as (Ht & _ & _ & Ho).
  subst r. unfold Double.execShell.
  split; [exact Hc|]. split; [|split].
  - rewrite Ht. by_computation.
  - rewrite Ho. by_computation.
  - by_computation.
Defined.

(** * Part III: further properties *)

(** Every request of a list is outside a kind of requests. *)
Ltac none_of_kind :=
  repeat first [ assumption
               | apply Forall_nil_2
               | apply Forall_cons_2; [first [reflexivity|assumption]|]
               | apply Forall_app_2 ].

(** A sub-run of which [lem] is known: its run is named and split. *)
Ltac known_run lem :=
  lazymatch goal with
  | |- wp ?m ?w _ =>
      let H := fresh "Hk" in
      pose proof (lem w) as H; unfold wp at 1;
      destruct (m w) as [? ? [?|?|]]; run_simpl;
      repeat match goal with u : () |- _ => destruct u end
  end.

(** The steps of the teardown; of the removal of the snapshots and of the
    two volumes only [snaps] and [vol] are known. *)
Ltac teardown_with env snaps vol :=
  repeat first
    [ run_step env; same_answer; try wrong_branch
    | lazymatch goal with
      | |- wp (rmSnapshots _ ?d) _ _ => known_run (snaps d)
      | |- wp (rmVolume _ _ ?sp ?n ?dbg) _ _ => known_run (vol sp n dbg)
      end ].

(** Where a request that is known to be in a trace can be. *)
Ltac where_in Hin :=
  repeat (rewrite ?elem_of_cons, ?elem_of_app, ?elem_of_nil in Hin);
  destruct_or?; subst.

(** The same for every membership at hand, to the end. *)
Ltac where_all :=
  repeat first
    [ match goal with
      | H : _ ∈ _ :: _ |- _ => rewrite elem_of_cons in H
      | H : _ ∈ _ ++ _ |- _ => rewrite elem_of_app in H
      | H : _ ∈ [] |- _ => apply elem_of_nil in H; destruct H
      | H : _ ∨ _ |- _ => destruct H
      | H : ∃ _, _ |- _ => destruct H
      | H : _ ∧ _ |- _ => destruct H
      end
    | progress subst ].

Lemma append_assoc (a b c : string) : (a +:+ b) +:+ c = a +:+ (b +:+ c).
Proof.
  induction a as [|x a IH]; [reflexivity|].
  change (String x ((a +:+ b) +:+ c) = String x (a +:+ (b +:+ c))).
  rewrite IH. reflexivity.
Qed.

Section More.
Context {Σ : Type}.
Variable env : Handler Σ.
Variables errNoDomain errNoStorageVol : errorNumber.
Variable qemuMAC : Z → string.
Variable EnvmapToSlice : gmap string string → list string.
Variable v : Virter.
Local Abbreviation answersWith := (answersWith env).

(** ** Run *)

Lemma createVMVolume_keeps sp vmConfig (w : World Σ) :
  Forall (λ c, destructive c = false) (trace (createVMVolume env sp vmConfig w)).
Proof.
  run_start. unfold createVMVolume, vmVolumeXML. run_steps env; none_of_kind.
Qed.

Lemma createCIData_keeps sp vmConfig (w : World Σ) :
  Forall (λ c, destructive c = false) (trace (createCIData env sp vmConfig w)).
Proof.
  run_start. unfold createCIData, metaData, userData, ciDataVolumeXML.
  run_steps env; none_of_kind.
Qed.

Lemma createScratchVolume_keeps sp vmConfig (w : World Σ) :
  Forall (λ c, destructive c = false) (trace (createScratchVolume env sp vmConfig w)).
Proof.
  run_start. unfold createScratchVolume, scratchVolumeXML.
  run_steps env; none_of_kind.
Qed.

Lemma createVM_keeps sp vmConfig (w : World Σ) :
  Forall (λ c, destructive c = false) (trace (createVM env qemuMAC sp vmConfig w)).
Proof.
  run_start. unfold createVM, vmXML.
  run_steps env; none_of_kind.
Qed.

(** X1: [VMRun] takes nothing back.  No run of it, with whatever answers and
    however far it gets, asks to delete a volume or a snapshot, to remove a
    DHCP entry, or to shut down, destroy or undefine a domain: when a step
    fails, what the steps before it created is left as it is. *)
Theorem VMRun_removes_nothing (vmConfig : VMConfig) (waitSSH : bool) (w : World Σ) :
  Forall (λ c, destructive c = false) (trace (VMRun env qemuMAC v vmConfig waitSSH w)).
Proof.
  run_start. unfold VMRun.
  do 3 run_step env; [|none_of_kind].
  run_step env. known_run (createVMVolume_keeps a vmConfig); [|none_of_kind..].
  run_step env. known_run (createCIData_keeps a vmConfig); [|none_of_kind..].
  run_step env. known_run (createScratchVolume_keeps a vmConfig); [|none_of_kind..].
  run_step env. known_run (createVM_keeps a vmConfig); [|none_of_kind..].
  run_steps env; none_of_kind.
Qed.

Ltac answered_so :=
  repeat first [ split; [reflexivity|]
               | split; [eexists _, _; eassumption|]
               | eexists _, _; eassumption
               | reflexivity ].

Lemma createVMVolume_done sp vmConfig (w : World Σ) :
  outcome (createVMVolume env sp vmConfig w) = Done () →
  ∃ backing path xml boot,
    trace (createVMVolume env sp vmConfig w)
    = [ StorageVolLookupByName sp (ImageName vmConfig);
        StorageVolGetPath backing;
        renderTemplate templateVMVolume
          (<[ "VolumeName" := TString (VMName vmConfig) ]>
             {[ "BackingPath" := TString path ]});
        StorageVolCreateXML sp xml 0 ]
    ∧ answersWith (StorageVolLookupByName sp (ImageName vmConfig)) backing
    ∧ answersWith (StorageVolGetPath backing) path
    ∧ answersWith (renderTemplate templateVMVolume
                     (<[ "VolumeName" := TString (VMName vmConfig) ]>
                        {[ "BackingPath" := TString path ]})) xml
    ∧ answersWith (StorageVolCreateXML sp xml 0) boot.
Proof.
  run_start. unfold createVMVolume, vmVolumeXML.
  run_steps env; intros Hd; try discriminate.
  eexists _, _, _, _. answered_so.
Qed.

Lemma createCIData_done sp vmConfig (w : World Σ) :
  outcome (createCIData env sp vmConfig w) = Done () →
  ∃ meta user iso xml ci,
    trace (createCIData env sp vmConfig w)
    = [ renderTemplate templateMetaData {[ "VMName" := TString (VMName vmConfig) ]};
        renderTemplate templateUserData
          (<[ "VMName" := TString (VMName vmConfig) ]>
             {[ "SSHPublicKeys" := TStrings (SSHPublicKeys vmConfig) ]});
        Generate (<[ "meta-data" := meta ]> {[ "user-data" := user ]});
        renderTemplate templateCIData
          {[ "VolumeName" := TString (ciDataVolumeName (VMName vmConfig)) ]};
        StorageVolCreateXML sp xml 0;
        StorageVolUpload ci iso 0 0 0 ]
    ∧ answersWith (renderTemplate templateMetaData
                     {[ "VMName" := TString (VMName vmConfig) ]}) meta
    ∧ answersWith (renderTemplate templateUserData
                     (<[ "VMName" := TString (VMName vmConfig) ]>
                        {[ "SSHPublicKeys" := TStrings (SSHPublicKeys vmConfig) ]})) user
    ∧ answersWith (Generate (<[ "meta-data" := meta ]> {[ "user-data" := user ]})) iso
    ∧ answersWith (renderTemplate templateCIData
                     {[ "VolumeName" := TString (ciDataVolumeName (VMName vmConfig)) ]}) xml
    ∧ answersWith (StorageVolCreateXML sp xml 0) ci.
Proof.
  run_start. unfold createCIData, metaData, userData, ciDataVolumeXML.
  run_steps env; intros Hd; try discriminate.
  eexists _, _, _, _, _. answered_so.
Qed.

Lemma createScratchVolume_done sp vmConfig (w : World Σ) :
  outcome (createScratchVolume env sp vmConfig w) = Done () →
  ∃ xml scratch,
    trace (createScratchVolume env sp vmConfig w)
    = [ renderTemplate templateScratchVolume
          {[ "VolumeName" := TString (scratchVolumeName (VMName vmConfig)) ]};
        StorageVolCreateXML sp xml 0 ]
    ∧ answersWith (renderTemplate templateScratchVolume
                     {[ "VolumeName" := TString (scratchVolumeName (VMName vmConfig)) ]}) xml
    ∧ answersWith (StorageVolCreateXML sp xml 0) scratch.
Proof.
  run_start. unfold createScratchVolume, scratchVolumeXML.
  run_steps env; intros Hd; try discriminate.
  eexists _, _. answered_so.
Qed.

Lemma createVM_done sp vmConfig (w : World Σ) ip :
  outcome (createVM env qemuMAC sp vmConfig w) = Done ip →
  let mac := qemuMAC (VMID vmConfig) in
  let data : TemplateData :=
    <[ "PoolName" := TString (sp_Name sp) ]>
      (<[ "VMName" := TString (VMName vmConfig) ]>
         (<[ "MAC" := TString mac ]>
            (<[ "MemoryKiB" := TUint (MemoryKiB vmConfig) ]>
               {[ "VCPUs" := TUint (VCPUs vmConfig) ]}))) in
  ∃ xml d,
    trace (createVM env qemuMAC sp vmConfig w)
    = [ renderTemplate templateVM data; DomainDefineXML xml;
        addDHCPEntry mac (VMID vmConfig); DomainCreate d ]
    ∧ answersWith (renderTemplate templateVM data) xml
    ∧ answersWith (DomainDefineXML xml) d
    ∧ answersWith (addDHCPEntry mac (VMID vmConfig)) ip.
Proof.
  run_start. unfold createVM, vmXML.
  run_steps env; intros Hd; try discriminate. simplify_eq.
  eexists _, _. answered_so.
Qed.

(** X2: the requests of a [VMRun] that returns nil, in order: the storage
    pool; the backing image and its path, and the boot volume created from
    the template rendered with the VM's name and that path; the meta-data and
    the user-data rendered, the ISO image generated from exactly these two
    files, the cloud-init volume created from its template and the image
    uploaded to the volume that was created; the scratch volume created from
    its template; the domain defined from the template rendered with the
    pool's name, the VM's name, the MAC of its ID, its memory and its CPUs,
    the DHCP entry added, the domain started; and, when asked for, the wait
    for the SSH port at the address that the DHCP entry gave.  Each value
    passed on is an answer of the environment to the request named. *)
Theorem VMRun_success_requests (vmConfig : VMConfig) (waitSSH : bool) (w : World Σ) :
  let r := VMRun env qemuMAC v vmConfig waitSSH w in
  let vmName := VMName vmConfig in
  let mac := qemuMAC (VMID vmConfig) in
  outcome r = Done () →
  ∃ sp backing path bootXML boot meta user iso ciXML ci scratchXML scratch domXML d ip,
    let bootData : TemplateData :=
      <[ "VolumeName" := TString vmName ]> {[ "BackingPath" := TString path ]} in
    let metaData : TemplateData := {[ "VMName" := TString vmName ]} in
    let userData : TemplateData :=
      <[ "VMName" := TString vmName ]>
        {[ "SSHPublicKeys" := TStrings (SSHPublicKeys vmConfig) ]} in
    let files : gmap string string := <[ "meta-data" := meta ]> {[ "user-data" := user ]} in
    let ciData : TemplateData := {[ "VolumeName" := TString (ciDataVolumeName vmName) ]} in
    let scratchData : TemplateData :=
      {[ "VolumeName" := TString (scratchVolumeName vmName) ]} in
    let domData : TemplateData :=
      <[ "PoolName" := TString (sp_Name sp) ]>
        (<[ "VMName" := TString vmName ]>
           (<[ "MAC" := TString mac ]>
              (<[ "MemoryKiB" := TUint (MemoryKiB vmConfig) ]>
                 {[ "VCPUs" := TUint (VCPUs vmConfig) ]}))) in
    trace r
    = [ StoragePoolLookupByName (storagePoolName v);
        StorageVolLookupByName sp (ImageName vmConfig);
        StorageVolGetPath backing;
        renderTemplate templateVMVolume bootData;
        StorageVolCreateXML sp bootXML 0;
        renderTemplate templateMetaData metaData;
        renderTemplate templateUserData userData;
        Generate files;
        renderTemplate templateCIData ciData;
        StorageVolCreateXML sp ciXML 0;
        StorageVolUpload ci iso 0 0 0;
        renderTemplate templateScratchVolume scratchData;
        StorageVolCreateXML sp scratchXML 0;
        renderTemplate templateVM domData;
        DomainDefineXML domXML;
        addDHCPEntry mac (VMID vmConfig);
        DomainCreate d ]
      ++ (if waitSSH then [WaitPort ip "ssh"] else [])
    ∧ answersWith (StoragePoolLookupByName (storagePoolName v)) sp
    ∧ answersWith (StorageVolLookupByName sp (ImageName vmConfig)) backing
    ∧ answersWith (StorageVolGetPath backing) path
    ∧ answersWith (renderTemplate templateVMVolume bootData) bootXML
    ∧ answersWith (StorageVolCreateXML sp bootXML 0) boot
    ∧ answersWith (renderTemplate templateMetaData metaData) meta
    ∧ answersWith (renderTemplate templateUserData userData) user
    ∧ answersWith (Generate files) iso
    ∧ answersWith (renderTemplate templateCIData ciData) ciXML
    ∧ answersWith (StorageVolCreateXML sp ciXML 0) ci
    ∧ answersWith (renderTemplate templateScratchVolume scratchData) scratchXML
    ∧ answersWith (StorageVolCreateXML sp scratchXML 0) scratch
    ∧ answersWith (renderTemplate templateVM domData) domXML
    ∧ answersWith (DomainDefineXML domXML) d
    ∧ answersWith (addDHCPEntry mac (VMID vmConfig)) ip.
Proof.
  intros r vmName mac. subst r. run_start. unfold VMRun.
  do 3 run_step env; [|discriminate].
  run_step env. known_run (createVMVolume_done a vmConfig); [|discriminate..].
  destruct (Hk eq_refl) as (backing & path & bootXML & boot & -> & ? & ? & ? & ?).
  run_step env. known_run (createCIData_done a vmConfig); [|discriminate..].
  destruct (Hk0 eq_refl) as (meta & user & iso & ciXML & ci & -> & ? & ? & ? & ? & ?).
  run_step env. known_run (createScratchVolume_done a vmConfig); [|discriminate..].
  destruct (Hk1 eq_refl) as (scratchXML & scratch & -> & ? & ?).
  run_step env.
  lazymatch goal with
  | |- wp ?m ?w' _ =>
      pose proof (createVM_done a vmConfig w') as Hvm; unfold wp at 1;
      destruct (m w') as [? ? [ip|?|]]; run_simpl; [|discriminate..]
  end.
  destruct (Hvm ip eq_refl) as (domXML & d & -> & ? & ? & ?).
  assert (answersWith (StoragePoolLookupByName (storagePoolName v)) a)
    by (eexists _, _; eassumption).
  destruct waitSSH; run_steps env; intros Hd; try discriminate;
    exists a, backing, path, bootXML, boot, meta, user, iso, ciXML, ci, scratchXML,
           scratch, domXML, d, ip;
    cbn zeta; (split; [reflexivity|]); repeat split; assumption.
Qed.

Lemma portWait_absent ip port t :
  Forall (λ c, portWait c = false) t → WaitPort ip port ∉ t.
Proof.
  intros H Hin. rewrite Forall_forall in H. specialize (H _ Hin). discriminate.
Qed.

Lemma createVMVolume_no_wait sp vmConfig (w : World Σ) :
  Forall (λ c, portWait c = false) (trace (createVMVolume env sp vmConfig w)).
Proof.
  run_start. unfold createVMVolume, vmVolumeXML. run_steps env; none_of_kind.
Qed.

Lemma createCIData_no_wait sp vmConfig (w : World Σ) :
  Forall (λ c, portWait c = false) (trace (createCIData env sp vmConfig w)).
Proof.
  run_start. unfold createCIData, metaData, userData, ciDataVolumeXML.
  run_steps env; none_of_kind.
Qed.

Lemma createScratchVolume_no_wait sp vmConfig (w : World Σ) :
  Forall (λ c, portWait c = false) (trace (createScratchVolume env sp vmConfig w)).
Proof.
  run_start. unfold createScratchVolume, scratchVolumeXML.
  run_steps env; none_of_kind.
Qed.

Lemma createVM_no_wait sp vmConfig (w : World Σ) :
  Forall (λ c, portWait c = false) (trace (createVM env qemuMAC sp vmConfig w)).
Proof.
  run_start. unfold createVM, vmXML. run_steps env; none_of_kind.
Qed.

(** X3: the wait for the SSH port.  A run of [VMRun] that waits for a port
    was asked to wait, waits for the port "ssh" at the address that the DHCP
    entry gave, does so once, right after the start of the domain and as its
    last request; and it returns nil, or the error of the wait wrapped in
    "unable to connect to SSH port". *)
Theorem VMRun_waits_for_SSH_last (vmConfig : VMConfig) (waitSSH : bool) (w : World Σ)
    (ip port : string) :
  let r := VMRun env qemuMAC v vmConfig waitSSH w in
  WaitPort ip port ∈ trace r →
  waitSSH = true ∧ port = "ssh"
  ∧ answersWith (addDHCPEntry (qemuMAC (VMID vmConfig)) (VMID vmConfig)) ip
  ∧ (∃ pre d, trace r = pre ++ [DomainCreate d; WaitPort ip "ssh"]
              ∧ Forall (λ c, portWait c = false) pre)
  ∧ (outcome r = Done ()
     ∨ ∃ e, outcome r = Failed (Wrapf "unable to connect to SSH port" e)).
Proof.
  intros r. subst r. run_start. unfold VMRun.
  do 3 run_step env;
    [|intros Hin; exfalso; revert Hin; apply portWait_absent; none_of_kind].
  run_step env. known_run (createVMVolume_no_wait a vmConfig);
    [|intros Hin; exfalso; revert Hin; apply portWait_absent; none_of_kind..].
  run_step env. known_run (createCIData_no_wait a vmConfig);
    [|intros Hin; exfalso; revert Hin; apply portWait_absent; none_of_kind..].
  run_step env. known_run (createScratchVolume_no_wait a vmConfig);
    [|intros Hin; exfalso; revert Hin; apply portWait_absent; none_of_kind..].
  run_step env.
  lazymatch goal with
  | |- wp ?m ?w' _ =>
      pose proof (createVM_done a vmConfig w') as Hvm;
      pose proof (createVM_no_wait a vmConfig w') as Hnw; unfold wp at 1;
      destruct (m w') as [? ? [ip'|?|]]; run_simpl;
      [|intros Hin; exfalso; revert Hin; apply portWait_absent; none_of_kind..]
  end.
  destruct (Hvm ip' eq_refl) as (domXML & d & Ht & _ & _ & Hip).
  destruct waitSSH; run_steps env; intros Hin;
    try (exfalso; revert Hin; apply portWait_absent; none_of_kind; fail).
  all: rewrite !app_comm_cons, !app_assoc in Hin;
    apply elem_of_app in Hin as [Hin|Hin];
    [exfalso; revert Hin; apply portWait_absent; none_of_kind|];
    apply list_elem_of_singleton in Hin; simplify_eq.
  all: split; [reflexivity|]; split; [reflexivity|]; split; [exact Hip|]; split.
  1,3: lazymatch goal with
       | |- ∃ pre d0, ?x :: ?t ++ ?t0 ++ ?t1 ++ [?r; ?df; ?ad; DomainCreate ?d] ++ _ = _ ∧ _ =>
           exists (x :: t ++ t0 ++ t1 ++ [r; df; ad]), d
       end;
    (split; [cbn [app]; rewrite <- !app_assoc; reflexivity|]);
    none_of_kind.
  - left. destruct a0. reflexivity.
  - right. eauto.
Qed.

(** ** Teardown *)

(** ** Snapshots *)

Lemma rmSnapshotsEach_runs snapshots (w : World Σ) :
  let r := rmSnapshotsEach env snapshots w in
  (outcome r = Done ()
   ∧ trace r = map (λ s, DomainSnapshotDelete s 0) snapshots)
  ∨ (∃ removed snapshot rest e σ1 σ2,
       snapshots = removed ++ snapshot :: rest
       ∧ trace r = map (λ s, DomainSnapshotDelete s 0) (removed ++ [snapshot])
       ∧ outcome r = Failed (Wrapf "could not delete snapshot" e)
       ∧ env (DomainSnapshotDelete snapshot 0) σ1 = (σ2, Fault e)).
Proof.
  revert w. induction snapshots as [|snapshot rest IH]; intros w r; subst r.
  - left. split; reflexivity.
  - run_start. cbn [rmSnapshotsEach]. run_steps env.
    + unfold wp. specialize (IH (answered w σ)). cbn zeta in IH.
      destruct (rmSnapshotsEach env rest (answered w σ)) as [wf tf o]. run_simpl.
      destruct IH as [[-> ->]|(removed & s & rest' & e & σ1 & σ2 & -> & -> & -> & He)].
      * left. split; reflexivity.
      * right. exists (snapshot :: removed), s, rest', e, σ1, σ2. auto.
    + right. exists [], snapshot, rest, e, (backend w), σ. auto.
Qed.

Lemma rmSnapshots_runs (domain : Domain) (w : World Σ)
    (σ : Σ) (snapshots : list DomainSnapshot) (n : Z) :
  env (DomainListAllSnapshots domain (-1) 0) (backend w) = (σ, Ok (snapshots, n)) →
  let r := rmSnapshots env domain w in
  (outcome r = Done ()
   ∧ trace r = DomainListAllSnapshots domain (-1) 0
               :: map (λ s, DomainSnapshotDelete s 0) snapshots)
  ∨ (∃ removed snapshot rest e σ1 σ2,
       snapshots = removed ++ snapshot :: rest
       ∧ trace r = DomainListAllSnapshots domain (-1) 0
                   :: map (λ s, DomainSnapshotDelete s 0) (removed ++ [snapshot])
       ∧ outcome r = Failed (Wrapf "could not delete snapshot" e)
       ∧ env (DomainSnapshotDelete snapshot 0) σ1 = (σ2, Fault e)).
Proof.
  intros Hl r. subst r. run_start. unfold rmSnapshots. run_steps env.
  cbn [fst].
  lazymatch goal with
  | |- wp ?m ?w' _ =>
      pose proof (rmSnapshotsEach_runs snapshots w') as Hr; cbn zeta in Hr;
      unfold wp; destruct (m w') as [wf tf o]; run_simpl
  end.
  destruct Hr as [[-> ->]|(removed & s & rest' & e & σ1 & σ2 & -> & -> & -> & He)].
  - left. split; reflexivity.
  - right. exists removed, s, rest', e, σ1, σ2. auto.
Qed.

(** X4: [rmSnapshots] deletes the snapshots in the order in which they were
    listed and stops at the first deletion that fails: the snapshots before
    it are gone, those after it were not asked for. *)
Theorem rmSnapshots_stops_at_first_failure (domain : Domain) (w : World Σ)
    (σ : Σ) (snapshots : list DomainSnapshot) (n : Z) :
  env (DomainListAllSnapshots domain (-1) 0) (backend w) = (σ, Ok (snapshots, n)) →
  let r := rmSnapshots env domain w in
  (outcome r = Done ()
   ∧ trace r = DomainListAllSnapshots domain (-1) 0
               :: map (λ s, DomainSnapshotDelete s 0) snapshots)
  ∨ (∃ removed snapshot rest e σ1 σ2,
       snapshots = removed ++ snapshot :: rest
       ∧ trace r = DomainListAllSnapshots domain (-1) 0
                   :: map (λ s, DomainSnapshotDelete s 0) (removed ++ [snapshot])
       ∧ outcome r = Failed (Wrapf "could not delete snapshot" e)
       ∧ env (DomainSnapshotDelete snapshot 0) σ1 = (σ2, Fault e)).
Proof. apply rmSnapshots_runs. Qed.

(** ** The order of a teardown *)

Lemma domainGone_absent c t :
  Forall (λ c, domainGone c = false) t → c ∈ t → domainGone c = true → False.
Proof.
  intros H Hin Hc. rewrite Forall_forall in H. rewrite (H _ Hin) in Hc. discriminate.
Qed.

Lemma rmSnapshotsEach_keeps_domain snapshots (w : World Σ) :
  Forall (λ c, domainGone c = false) (trace (rmSnapshotsEach env snapshots w)).
Proof.
  revert w. induction snapshots as [|snapshot rest IH]; intros w.
  - constructor.
  - run_start. cbn [rmSnapshotsEach]. run_steps env; [|none_of_kind].
    known_run IH; none_of_kind.
Qed.

Lemma rmSnapshots_keeps_domain domain (w : World Σ) :
  Forall (λ c, domainGone c = false) (trace (rmSnapshots env domain w)).
Proof.
  run_start. unfold rmSnapshots. run_steps env; [|none_of_kind].
  known_run (rmSnapshotsEach_keeps_domain a.1); none_of_kind.
Qed.

Lemma rmVolume_keeps_domain sp name debugName (w : World Σ) :
  Forall (λ c, domainGone c = false)
         (trace (rmVolume env errNoStorageVol sp name debugName w)).
Proof.
  run_start. unfold rmVolume. run_steps env; none_of_kind.
Qed.

(** X5: in [vmRmExceptBoot] the DHCP entry of the domain is removed before
    the domain is: a run that asks to destroy or to undefine a domain has
    asked, before that and after nothing of the kind, to remove the DHCP entry
    of the domain that the lookup returned; what follows the removal of the
    entry is the destruction of that domain, or its undefinition, or the first
    and then the second, and no further request of the kind. *)
Theorem vmRmExceptBoot_unbinds_first (sp : StoragePool) (vmName : string)
    (w : World Σ) (c : Call) :
  let r := vmRmExceptBoot env errNoDomain errNoStorageVol sp vmName w in
  c ∈ trace r → domainGone c = true →
  ∃ d pre gone rest,
    trace r = pre ++ rmDHCPEntry d :: gone ++ rest
    ∧ answersWith (DomainLookupByName vmName) d
    ∧ Forall (λ c, domainGone c = false) pre
    ∧ gone ∈ [ [DomainDestroy d]; [DomainUndefine d];
               [DomainDestroy d; DomainUndefine d] ]
    ∧ c ∈ gone
    ∧ Forall (λ c, domainGone c = false) rest.
Proof.
  intros r. subst r. run_start. unfold vmRmExceptBoot.
  teardown_with env rmSnapshots_keeps_domain rmVolume_keeps_domain;
    intros Hin Hc;
    try (exfalso; refine (domainGone_absent c _ _ Hin Hc); none_of_kind; fail).
  all: rewrite <- ?app_assoc in *; cbn [app] in *.
  all: lazymatch goal with
       | |- ∃ d0 pre0 gone0 rest0,
              ?l :: ?tS ++ ?a :: ?p :: rmDHCPEntry ?d
                :: DomainDestroy ?d :: DomainUndefine ?d :: ?rest = _ ∧ _ =>
           exists d, (l :: tS ++ [a; p]), [DomainDestroy d; DomainUndefine d], rest
       | |- ∃ d0 pre0 gone0 rest0,
              ?l :: ?tS ++ ?a :: ?p :: rmDHCPEntry ?d :: DomainDestroy ?d :: ?rest = _ ∧ _ =>
           exists d, (l :: tS ++ [a; p]), [DomainDestroy d], rest
       | |- ∃ d0 pre0 gone0 rest0,
              ?l :: ?tS ++ ?a :: ?p :: rmDHCPEntry ?d :: DomainUndefine ?d :: ?rest = _ ∧ _ =>
           exists d, (l :: tS ++ [a; p]), [DomainUndefine d], rest
       end.
  all: split; [cbn [app]; rewrite <- ?app_assoc; reflexivity|].
  all: split; [eexists _, _; eassumption|].
  all: split; [none_of_kind|].
  all: split; [rewrite !elem_of_cons; auto|].
  all: split; [|none_of_kind].
  all: where_in Hin; try discriminate Hc;
    try (exfalso; eapply domainGone_absent; [|eassumption|exact Hc]; assumption);
    rewrite !elem_of_cons; auto.
Qed.

Lemma volumeCall_absent c t :
  Forall (λ c, volumeCall c = false) t → c ∈ t → volumeCall c = true → False.
Proof.
  intros H Hin Hc. rewrite Forall_forall in H. rewrite (H _ Hin) in Hc. discriminate.
Qed.

Lemma rmSnapshots_lists domain (w : World Σ) :
  Forall (λ c, volumeCall c = false) (trace (rmSnapshots env domain w))
  ∧ (outcome (rmSnapshots env domain w) = Done () →
     ∃ snapshots n,
       answersWith (DomainListAllSnapshots domain (-1) 0) (snapshots, n)
       ∧ trace (rmSnapshots env domain w)
         = DomainListAllSnapshots domain (-1) 0
           :: map (λ s, DomainSnapshotDelete s 0) snapshots).
Proof.
  destruct (env (DomainListAllSnapshots domain (-1) 0) (backend w)) as [σ [[snaps n]|e]] eqn:Hl.
  - destruct (rmSnapshots_runs domain w σ snaps n Hl)
      as [[Ho Ht]|(removed & s & rest & e & σ1 & σ2 & -> & Ht & Ho & He)];
      cbn zeta in *; rewrite Ht.
    + split.
      * apply Forall_cons_2; [reflexivity|]. apply Forall_fmap, Forall_true. reflexivity.
      * intros _. exists snaps, n. split; [eexists _, _; eassumption|reflexivity].
    + split.
      * apply Forall_cons_2; [reflexivity|]. apply Forall_fmap, Forall_true. reflexivity.
      * rewrite Ho. discriminate.
  - run_start. unfold rmSnapshots. run_steps env. split; [none_of_kind|discriminate].
Qed.

Lemma rmVolume_starts sp name debugName (w : World Σ) :
  ∃ rest, trace (rmVolume env errNoStorageVol sp name debugName w)
          = StorageVolLookupByName sp name :: rest
          ∧ (rest = []
             ∨ ∃ vol, rest = [StorageVolDelete vol 0]
                      ∧ answersWith (StorageVolLookupByName sp name) vol).
Proof.
  run_start. unfold rmVolume.
  run_steps env; eexists; (split; [reflexivity|]);
    first [ left; reflexivity
          | right; eexists; split; [reflexivity|eexists _, _; eassumption] ].
Qed.

(** X6: [vmRmExceptBoot] asks for a volume only once the domain step is
    done: in a run with a request on a volume, what comes before the lookup
    of the scratch volume is a domain step that succeeded, either the lookup
    that found no domain or the removal of the domain found, with no request
    on a volume in it. *)
Theorem vmRmExceptBoot_volumes_after_domain (sp : StoragePool) (vmName : string)
    (w : World Σ) (c : Call) :
  let r := vmRmExceptBoot env errNoDomain errNoStorageVol sp vmName w in
  c ∈ trace r → volumeCall c = true →
  ∃ dom rest,
    trace r = dom ++ StorageVolLookupByName sp (scratchVolumeName vmName) :: rest
    ∧ domainStep env errNoDomain vmName dom
    ∧ Forall (λ c, volumeCall c = false) dom.
Proof.
  intros r. subst r. run_start. unfold vmRmExceptBoot.
  teardown_with env rmSnapshots_lists rmVolume_starts;
    intros Hin Hc;
    repeat match goal with
           | H : _ ∧ _ |- _ => destruct H
           | H : ∃ _, _ |- _ => destruct H
           | Hs : Done () = Done () → _ |- _ => specialize (Hs eq_refl)
           end;
    try (exfalso; refine (volumeCall_absent c _ _ Hin Hc); none_of_kind; fail);
    subst; cbn [app] in *.
  all: lazymatch goal with
       | |- ∃ dom0 rest0, ?l :: StorageVolLookupByName ?p ?n :: ?rest = _ ∧ _ =>
           exists [l], rest
       | |- ∃ dom0 rest0,
              ?l :: ?l' :: ?D ++ StorageVolLookupByName ?p ?n :: ?rest = _ ∧ _ =>
           exists (l :: l' :: D), rest
       end.
  all: split; [reflexivity|].
  all: split; [|none_of_kind; apply Forall_fmap, Forall_true; reflexivity].
  all: try (eapply ds_absent; [eassumption|apply negb_false_iff; assumption]).
  all: lazymatch goal with
       | Ha : env (DomainIsActive ?d) _ = (_, Ok ?act),
         Hp : env (DomainIsPersistent ?d) _ = (_, Ok ?pers),
         Hl : answersWith (DomainListAllSnapshots ?d _ _) (?snaps, ?n) |- _ =>
           destruct Hl as (? & ? & Hl);
           lazymatch goal with
           | |- domainStep _ _ _ (_ :: ?t) =>
               replace t with (domainRemoval d snaps act pers)
           end;
           [eapply ds_removed; eassumption|];
           unfold domainRemoval;
           repeat match goal with Hb : negb _ = _ |- _ => rewrite Hb end;
           cbn [app]; rewrite <- ?app_assoc; reflexivity
       end.
Qed.

Lemma VMRm_teardown_failed vmName (w : World Σ) σ sp :
  env (StoragePoolLookupByName (storagePoolName v)) (backend w) = (σ, Ok sp) →
  outcome (vmRmExceptBoot env errNoDomain errNoStorageVol sp vmName (answered w σ)) ≠ Done () →
  trace (VMRm env errNoDomain errNoStorageVol v vmName w)
  = StoragePoolLookupByName (storagePoolName v)
    :: trace (vmRmExceptBoot env errNoDomain errNoStorageVol sp vmName (answered w σ)).
Proof.
  intros H Hd. run_start. unfold VMRm.
  do 3 run_step env; same_answer. run_step env.
  unfold wp at 1.
  lazymatch goal with
  | |- context [ vmRmExceptBoot ?e ?n ?s ?p ?m ?w' ] =>
      destruct (vmRmExceptBoot e n s p m w') as [wf tf [[]|e'|]]
  end; run_simpl; [contradiction|reflexivity..].
Qed.

Lemma boot_lookup_absent sp vmName sp' (w : World Σ) :
  StorageVolLookupByName sp' vmName
  ∉ trace (vmRmExceptBoot env errNoDomain errNoStorageVol sp vmName w).
Proof.
  intros Hin.
  pose proof (vmRmExceptBoot_exceptBoot env errNoDomain errNoStorageVol sp vmName w) as Hf.
  rewrite Forall_forall in Hf. specialize (Hf _ Hin).
  inversion Hf as [c Hq|sp'' name Hname|]; subst; [discriminate|].
  exact (derived_name_neq _ _ Hname eq_refl).
Qed.

(** X7: [VMRm] comes to the boot volume last, and only when all the rest is
    gone: a run that looks up the volume called like the VM has found the
    storage pool, looks the volume up in that pool, and has before that run
    the shared teardown to its end with a nil error; the lookup, followed by
    at most the deletion of the volume it returned, ends the run. *)
Theorem VMRm_boot_volume_last (vmName : string) (w : World Σ) (sp' : StoragePool) :
  let r := VMRm env errNoDomain errNoStorageVol v vmName w in
  StorageVolLookupByName sp' vmName ∈ trace r →
  ∃ σ sp,
    env (StoragePoolLookupByName (storagePoolName v)) (backend w) = (σ, Ok sp)
    ∧ sp' = sp
    ∧ let td := vmRmExceptBoot env errNoDomain errNoStorageVol sp vmName (answered w σ) in
      outcome td = Done ()
      ∧ teardownDone env errNoDomain errNoStorageVol sp vmName (trace td)
      ∧ ∃ rest,
          trace r = StoragePoolLookupByName (storagePoolName v)
                    :: trace td ++ StorageVolLookupByName sp vmName :: rest
          ∧ (rest = []
             ∨ ∃ vol, rest = [StorageVolDelete vol 0]
                      ∧ answersWith (StorageVolLookupByName sp vmName) vol).
Proof.
  intros r Hin. subst r.
  destruct (env (StoragePoolLookupByName (storagePoolName v)) (backend w))
    as [σ [sp|e]] eqn:Hpool.
  - exists σ, sp. split; [reflexivity|].
    destruct (outcome (vmRmExceptBoot env errNoDomain errNoStorageVol sp vmName (answered w σ)))
      as [[]|e|] eqn:Hd.
    + rewrite (VMRm_boot_last env errNoDomain errNoStorageVol v vmName w σ sp Hpool Hd)
        in Hin |- *.
      destruct (rmVolume_starts sp vmName "boot"
                  (final (vmRmExceptBoot env errNoDomain errNoStorageVol sp vmName
                            (answered w σ)))) as (rest & Ht & Hrest).
      cbn [trace prefixed app] in Hin |- *. rewrite Ht in Hin |- *.
      assert (sp' = sp) as ->.
      { where_all; try discriminate;
          try (exfalso; eapply boot_lookup_absent; eassumption).
        all: match goal with
             | H : StorageVolLookupByName _ _ = StorageVolLookupByName _ _ |- _ =>
                 injection H as Heq; exact Heq
             end. }
      split; [reflexivity|]. cbn zeta. split; [exact Hd|].
      split; [apply vmRmExceptBoot_done; exact Hd|].
      exists rest. split; [reflexivity|exact Hrest].
    + exfalso. rewrite (VMRm_teardown_failed vmName w σ sp Hpool) in Hin
        by (rewrite Hd; discriminate).
      where_in Hin; [discriminate|]. eapply boot_lookup_absent. eassumption.
    + exfalso. rewrite (VMRm_teardown_failed vmName w σ sp Hpool) in Hin
        by (rewrite Hd; discriminate).
      where_in Hin; [discriminate|]. eapply boot_lookup_absent. eassumption.
  - exfalso. revert Hin. run_start. unfold VMRm. run_steps env.
    intros Hin. where_in Hin. discriminate.
Qed.

(** ** Commit and the shutdown monitor *)

Lemma rmSnapshotsEach_unmonitored snapshots (w : World Σ) :
  unmonitored w (rmSnapshotsEach env snapshots w).
Proof.
  revert w. induction snapshots as [|snapshot rest IH]; intros w.
  - repeat split; [constructor|discriminate].
  - run_start. cbn [rmSnapshotsEach].
    run_steps env; [|repeat split; [solve [none_of_kind]|discriminate]].
    known_run IH; destruct Hk as (Ht & Hi & Ho); cbn in *;
      repeat split; first [solve [none_of_kind]|assumption|discriminate|contradiction].
Qed.

Lemma rmSnapshots_unmonitored domain (w : World Σ) :
  unmonitored w (rmSnapshots env domain w).
Proof.
  run_start. unfold rmSnapshots.
  run_steps env; [|repeat split; [solve [none_of_kind]|discriminate]].
  known_run (rmSnapshotsEach_unmonitored a.1); destruct Hk as (Ht & Hi & Ho); cbn in *;
    repeat split; first [solve [none_of_kind]|assumption|discriminate|contradiction].
Qed.

Lemma rmVolume_unmonitored sp name debugName (w : World Σ) :
  unmonitored w (rmVolume env errNoStorageVol sp name debugName w).
Proof.
  run_start. unfold rmVolume.
  run_steps env; repeat split; first [solve [none_of_kind]|discriminate].
Qed.

Ltac unmonitored_end :=
  repeat match goal with
         | H : unmonitored _ _ |- _ => destruct H as (? & ? & ?)
         end;
  unfold unmonitored;
  cbn [final trace outcome inbox answered prefixed stopped backend] in *;
  repeat split;
  first [ solve [none_of_kind] | discriminate | contradiction | congruence ].

Lemma vmRmExceptBoot_unmonitored sp vmName (w : World Σ) :
  unmonitored w (vmRmExceptBoot env errNoDomain errNoStorageVol sp vmName w).
Proof.
  run_start. unfold vmRmExceptBoot.
  teardown_with env rmSnapshots_unmonitored rmVolume_unmonitored; unmonitored_end.
Qed.

(** X8: [VMRm], and [VMCommit] when no shutdown is asked for, leave the
    shutdown monitor out: no subscription to the lifecycle events, no
    shutdown request, no timer; nothing is received from the two channels;
    and the run returns, with nil or with an error, whatever the backend
    answers. *)
Theorem removal_without_monitor (vmName : string) (shutdownTimeout : Z) (w : World Σ) :
  let rm := VMRm env errNoDomain errNoStorageVol v vmName w in
  let commit := VMCommit env errNoDomain errNoStorageVol v vmName false shutdownTimeout w in
  (Forall (λ c, monitoring c = false) (trace rm)
   ∧ inbox (final rm) = inbox w
   ∧ outcome rm ≠ Blocked)
  ∧ (Forall (λ c, monitoring c = false) (trace commit)
     ∧ inbox (final commit) = inbox w
     ∧ outcome commit ≠ Blocked).
Proof.
  intros rm commit. subst rm commit. split.
  - change (unmonitored w (VMRm env errNoDomain errNoStorageVol v vmName w)).
    run_start. unfold VMRm.
    do 3 run_step env; [|unmonitored_end]. run_step env.
    known_run (vmRmExceptBoot_unmonitored a vmName); [|unmonitored_end..].
    known_run (rmVolume_unmonitored a vmName "boot"); unmonitored_end.
  - change (unmonitored w (VMCommit env errNoDomain errNoStorageVol v vmName false
                             shutdownTimeout w)).
    run_start. unfold VMCommit.
    run_steps env; try solve [unmonitored_end].
    known_run (vmRmExceptBoot_unmonitored a1 vmName); unmonitored_end.
Qed.

(** The run of [vmShutdown] on a domain that is active and accepts the
    request to shut down. *)
Lemma vmShutdown_waits shutdownTimeout domain (w : World Σ) σ1 σ2 σ3 active :
  env LifecycleEvents (backend w) = (σ1, Ok ()) →
  env (DomainIsActive domain) σ1 = (σ2, Ok active) →
  active ≠ 0 →
  env (DomainShutdown domain) σ2 = (σ3, Ok ()) →
  vmShutdown env shutdownTimeout domain w
  = {| final := {| backend := (env (After shutdownTimeout) σ3).1;
                   inbox := (awaitStopped domain (inbox w)).1;
                   scheduler := scheduler w |};
       trace := [LifecycleEvents; DomainIsActive domain; DomainShutdown domain;
                 After shutdownTimeout];
       outcome := (awaitStopped domain (inbox w)).2 |}.
Proof.
  intros H1 H2 Hact H3. run_start. unfold vmShutdown. run_steps env.
  unfold wp, selectUntilStopped. run_simpl.
  destruct (awaitStopped _ _). reflexivity.
Qed.

(** X9: a graceful [VMCommit] whose wait times out takes nothing down.  The
    domain is found, reported active and asked to shut down; the timer's tick
    is received before this domain's "stopped" event: the result is the
    timeout error, and the five requests up to the arming of the timer are
    all that was issued, with no lookup of the storage pool and no step of
    the teardown. *)
Theorem VMCommit_timeout_takes_nothing_down (vmName : string) (shutdownTimeout : Z)
    (w : World Σ) (σ1 σ2 σ3 σ4 : Σ) (d : Domain) (active : Z)
    (skipped rest : list Select) :
  env (DomainLookupByName vmName) (backend w) = (σ1, Ok d) →
  env LifecycleEvents σ1 = (σ2, Ok ()) →
  env (DomainIsActive d) σ2 = (σ3, Ok active) →
  active ≠ 0 →
  env (DomainShutdown d) σ3 = (σ4, Ok ()) →
  inbox w = skipped ++ RecvTimeout :: rest →
  Forall (passedOver d) skipped →
  let r := VMCommit env errNoDomain errNoStorageVol v vmName true shutdownTimeout w in
  outcome r = Failed (Errorf "timed out waiting for domain to stop")
  ∧ trace r = [DomainLookupByName vmName; LifecycleEvents; DomainIsActive d;
               DomainShutdown d; After shutdownTimeout]
  ∧ inbox (final r) = rest.
Proof.
  intros H0 H1 H2 Hact H3 Hin Hsk r. subst r. run_start. unfold VMCommit.
  do 3 run_step env; same_answer. run_step env.
  unfold wp at 1.
  erewrite vmShutdown_waits; [|eassumption..].
  cbn [inbox answered]. rewrite Hin, awaitStopped_passes by assumption.
  cbn [awaitStopped]. run_simpl. auto.
Qed.

(** X10: a graceful [VMCommit] goes on to the teardown once the domain has
    stopped.  The domain is found, reported active and asked to shut down;
    its "stopped" event is received before the timer's tick, after events
    that are passed over: the run is the five requests of the monitor, the
    lookup of the storage pool, and the shared teardown, started with what
    was not yet received still to come, and the result is the result of the
    teardown. *)
Theorem VMCommit_teardown_after_stop (vmName : string) (shutdownTimeout : Z)
    (w : World Σ) (σ1 σ2 σ3 σ4 σ5 : Σ) (d : Domain) (active : Z) (sp : StoragePool)
    (skipped rest : list Select) (event : DomainEventLifecycleMsg) :
  env (DomainLookupByName vmName) (backend w) = (σ1, Ok d) →
  env LifecycleEvents σ1 = (σ2, Ok ()) →
  env (DomainIsActive d) σ2 = (σ3, Ok active) →
  active ≠ 0 →
  env (DomainShutdown d) σ3 = (σ4, Ok ()) →
  inbox w = skipped ++ RecvEvent event :: rest →
  Forall (passedOver d) skipped →
  stopsDomain d event →
  env (StoragePoolLookupByName (storagePoolName v)) (env (After shutdownTimeout) σ4).1
  = (σ5, Ok sp) →
  let r := VMCommit env errNoDomain errNoStorageVol v vmName true shutdownTimeout w in
  let td := vmRmExceptBoot env errNoDomain errNoStorageVol sp vmName
              {| backend := σ5; inbox := rest; scheduler := scheduler w |} in
  trace r = [DomainLookupByName vmName; LifecycleEvents; DomainIsActive d;
             DomainShutdown d; After shutdownTimeout;
             StoragePoolLookupByName (storagePoolName v)] ++ trace td
  ∧ outcome r = outcome td
  ∧ final r = final td.
Proof.
  intros H0 H1 H2 Hact H3 Hin Hsk Hev Hpool r td. subst r td.
  run_start. unfold VMCommit.
  do 3 run_step env; same_answer. run_step env.
  unfold wp at 1.
  erewrite vmShutdown_waits; [|eassumption..].
  cbn [inbox answered]. rewrite Hin, awaitStopped_passes, awaitStopped_stop by assumption.
  run_simpl. do 3 run_step env; same_answer.
  unfold wp, answered. cbn [backend inbox scheduler].
  destruct (vmRmExceptBoot _ _ _ _ _ _) as [wf tf o]. run_simpl. auto.
Qed.

(** ** Provisioning: addresses and preparation *)

Lemma resolvedAll_length network vmNames (w w' : World Σ) ips :
  resolvedAll env network vmNames w ips w' → length ips = length vmNames.
Proof. induction 1; cbn; congruence. Qed.

Lemma getSSHClientConfig_runs vmNames key (w : World Σ) ips :
  outcome (getIPs env v vmNames w) = Done (ips, None) →
  getSSHClientConfig env v vmNames key w
  = prefixed (trace (getIPs env v vmNames w))
      (let w1 := final (getIPs env v vmNames w) in
       let a := env (ParsePrivateKey key) (backend w1) in
       {| final := answered w1 a.1;
          trace := [ParsePrivateKey key];
          outcome := match a.2 with
                     | Ok signer => Done ({| User := "root"; Auth := [signer] |}, ips)
                     | Fault e => Failed e
                     end |}).
Proof.
  intros H. run_start. unfold getSSHClientConfig.
  do 2 run_step env. unfold wp at 1. rewrite H. run_simpl.
  run_steps env; rewrite H0; unfold prefixed; cbn [final trace outcome fst snd app];
    rewrite app_nil_r; reflexivity.
Qed.

Lemma getSSHClientConfig_unresolved vmNames key (w : World Σ) ips e :
  outcome (getIPs env v vmNames w) = Done (ips, Some e) →
  getSSHClientConfig env v vmNames key w = stopped (getIPs env v vmNames w) (Failed e).
Proof.
  intros H. run_start. unfold getSSHClientConfig.
  do 2 run_step env. unfold wp at 1. rewrite H. run_simpl.
  run_steps env. unfold stopped, prefixed. cbn [final trace outcome].
  rewrite app_nil_r. reflexivity.
Qed.

(** X11: what [getSSHClientConfig] returns with a nil error: one address for
    each target, in the order of the targets, each the address found for a
    domain that was looked up and reported active (so for one target exactly
    one address); and a configuration for the user root whose only way to
    authenticate is the signer parsed from the private key. *)
Theorem getSSHClientConfig_one_address_per_target (vmNames : list string)
    (key : string) (w : World Σ) (config : ClientConfig) (ips : list string) :
  outcome (getSSHClientConfig env v vmNames key w) = Done (config, ips) →
  length ips = length vmNames
  ∧ (∀ vmName, vmNames = [vmName] → ∃ ip, ips = [ip])
  ∧ (∃ σ network w',
       env (NetworkLookupByName (networkName v)) (backend w) = (σ, Ok network)
       ∧ resolvedAll env network vmNames (answered w σ) ips w')
  ∧ User config = "root"
  ∧ ∃ signer, Auth config = [signer] ∧ answersWith (ParsePrivateKey key) signer.
Proof.
  intros Hd.
  destruct (getIPs_quiet env v vmNames w) as [_ (ips' & [e|] & Ho)].
  { rewrite (getSSHClientConfig_unresolved _ _ _ _ _ Ho) in Hd. discriminate. }
  rewrite (getSSHClientConfig_runs _ key _ _ Ho) in Hd. cbn in Hd.
  destruct (env (ParsePrivateKey key) _) as [σ' [signer|e]] eqn:Hk; [|discriminate].
  cbn in Hd. injection Hd as <- <-.
  destruct (getIPs_nil_error env v _ _ _ Ho) as (σ & network & w' & Hn & Hall).
  pose proof (resolvedAll_length _ _ _ _ _ Hall) as Hlen.
  split; [exact Hlen|]. split.
  { intros vmName ->. destruct ips' as [|ip [|]]; try discriminate. eauto. }
  split; [eauto|]. split; [reflexivity|].
  exists signer. split; [reflexivity|]. eexists _, _. exact Hk.
Qed.

Lemma remoteWork_absent c t :
  Forall (λ c, remoteWork c = false) t → c ∈ t → remoteWork c = true → False.
Proof.
  intros H Hin Hc. rewrite Forall_forall in H. rewrite (H _ Hin) in Hc. discriminate.
Qed.

Lemma VMExecDocker_runs vmNames cfg key (w : World Σ) ips :
  outcome (getIPs env v vmNames w) = Done (ips, None) →
  VMExecDocker env v vmNames cfg key w
  = prefixed (trace (getIPs env v vmNames w))
      (call env (dockerRun cfg ips key) (final (getIPs env v vmNames w))).
Proof.
  intros H. run_start. unfold VMExecDocker.
  do 2 run_step env. unfold wp at 1. rewrite H. run_simpl.
  run_step env. unfold wp, prefixed. cbn [final trace outcome app].
  rewrite app_nil_r. reflexivity.
Qed.

(** X12: [VMExecDocker] starts one container for all the targets together.  A
    run that asks for a container asks once, as its last request, with the
    configuration and the key it was given and with the addresses of all the
    targets in the order of the targets, each resolved before; and the answer
    to that request, nil or the error as it is, is the result. *)
Theorem VMExecDocker_one_container_for_all (vmNames : list string)
    (dockerContainerConfig : DockerContainerConfig) (sshPrivateKey : string)
    (w : World Σ) (cfg : DockerContainerConfig) (ips : list string) (key : string) :
  let r := VMExecDocker env v vmNames dockerContainerConfig sshPrivateKey w in
  dockerRun cfg ips key ∈ trace r →
  cfg = dockerContainerConfig ∧ key = sshPrivateKey
  ∧ length ips = length vmNames
  ∧ (∃ σ network w',
       env (NetworkLookupByName (networkName v)) (backend w) = (σ, Ok network)
       ∧ resolvedAll env network vmNames (answered w σ) ips w')
  ∧ (∃ resolving,
       trace r = resolving ++ [dockerRun dockerContainerConfig ips sshPrivateKey]
       ∧ Forall (λ c, remoteWork c = false) resolving)
  ∧ ∃ σ σ' a,
      env (dockerRun dockerContainerConfig ips sshPrivateKey) σ = (σ', a)
      ∧ outcome r = match a with Ok _ => Done () | Fault e => Failed e end.
Proof.
  intros r Hin. subst r.
  destruct (getIPs_quiet env v vmNames w) as [Hq (ips' & [e|] & Ho)].
  { exfalso. rewrite (VMExecDocker_fail_fast env v _ _ _ _ _ _ Ho) in Hin.
    exact (remoteWork_absent _ _ Hq Hin eq_refl). }
  rewrite (VMExecDocker_runs _ _ _ _ _ Ho) in Hin |- *.
  unfold call in Hin |- *.
  destruct (env (dockerRun dockerContainerConfig ips' sshPrivateKey) _) as [σ' a] eqn:Hrun.
  cbn [trace outcome prefixed] in Hin |- *.
  apply elem_of_app in Hin as [Hin|Hin];
    [exfalso; exact (remoteWork_absent _ _ Hq Hin eq_refl)|].
  apply list_elem_of_singleton in Hin. injection Hin as -> -> ->.
  destruct (getIPs_nil_error env v _ _ _ Ho) as (σ & network & w' & Hn & Hall).
  split; [reflexivity|]. split; [reflexivity|].
  split; [exact (resolvedAll_length _ _ _ _ _ Hall)|]. split; [eauto|].
  split; [eauto|]. eexists _, _, a. split; [exact Hrun|].
  destruct a as [[]|]; reflexivity.
Qed.

Lemma getIPs_without_targets (w : World Σ) σ network :
  env (NetworkLookupByName (networkName v)) (backend w) = (σ, Ok network) →
  getIPs env v [] w
  = {| final := answered w σ;
       trace := [NetworkLookupByName (networkName v)];
       outcome := Done ([], None) |}.
Proof.
  intros H. run_start. unfold getIPs. run_steps env. reflexivity.
Qed.

(** X13: provisioning with an empty list of targets.  Once the network is
    found, [VMExecDocker] still starts the container, with no address;
    [VMExecShell] parses the key and returns nil without a command run;
    [VMExecRsync], the pattern expanded, returns nil without a copy. *)
Theorem provisioning_without_targets (w : World Σ) :
  (∀ σ network cfg key,
     env (NetworkLookupByName (networkName v)) (backend w) = (σ, Ok network) →
     VMExecDocker env v [] cfg key w
     = prefixed [NetworkLookupByName (networkName v)]
         (call env (dockerRun cfg [] key) (answered w σ)))
  ∧ (∀ σ network key step σ' signer,
       env (NetworkLookupByName (networkName v)) (backend w) = (σ, Ok network) →
       env (ParsePrivateKey key) σ = (σ', Ok signer) →
       VMExecShell env EnvmapToSlice v [] key step w
       = {| final := answered w σ';
            trace := [NetworkLookupByName (networkName v); ParsePrivateKey key];
            outcome := Done () |})
  ∧ (∀ step σg files σ network,
       env (Glob (Source step)) (backend w) = (σg, Ok files) →
       env (NetworkLookupByName (networkName v)) σg = (σ, Ok network) →
       VMExecRsync env v [] step w
       = {| final := answered w σ;
            trace := [Glob (Source step); NetworkLookupByName (networkName v)];
            outcome := Done () |}).
Proof.
  split; [|split].
  - intros σ network cfg key Hn.
    rewrite (VMExecDocker_runs [] cfg key w []);
      rewrite (getIPs_without_targets w σ network Hn); reflexivity.
  - intros σ network key step σ' signer Hn Hk.
    run_start. unfold VMExecShell. run_step env.
    unfold wp at 1.
    rewrite (getSSHClientConfig_runs [] key w []);
      rewrite (getIPs_without_targets w σ network Hn); [|reflexivity].
    cbn [final trace outcome prefixed backend answered app]. rewrite Hk.
    cbn [fst snd]. unfold wp, errgroupGoWait. destruct w. reflexivity.
  - intros step σg files σ network Hg Hn.
    run_start. unfold VMExecRsync. do 3 run_step env; same_answer.
    do 2 run_step env. unfold wp at 1.
    erewrite getIPs_without_targets by (cbn [backend answered]; eassumption). run_simpl.
    run_step env. unfold wp, errgroupGoWait. destruct w. reflexivity.
Qed.

(** X14: what is prepared on this side fails before anything is done on a
    target.  [VMExecRsync] expands the pattern first, before anything is asked
    of libvirt, and a pattern that cannot be expanded ends the run with that
    one request.  [VMExecShell] parses the private key only after every target
    is resolved, and a key that cannot be parsed ends the run with the
    parser's error as it is, no command run. *)
Theorem provisioning_preparation_failures (vmNames : list string) (w : World Σ) :
  (∀ step σ e,
     env (Glob (Source step)) (backend w) = (σ, Fault e) →
     VMExecRsync env v vmNames step w
     = {| final := answered w σ;
          trace := [Glob (Source step)];
          outcome := Failed (Wrapf "failed to parse glob pattern" e) |})
  ∧ (∀ key step ips σ e,
       outcome (getIPs env v vmNames w) = Done (ips, None) →
       env (ParsePrivateKey key) (backend (final (getIPs env v vmNames w))) = (σ, Fault e) →
       let r := VMExecShell env EnvmapToSlice v vmNames key step w in
       outcome r = Failed e
       ∧ trace r = trace (getIPs env v vmNames w) ++ [ParsePrivateKey key]
       ∧ Forall (λ c, remoteWork c = false) (trace r)).
Proof.
  split.
  - intros step σ e Hg. run_start. unfold VMExecRsync. run_steps env. reflexivity.
  - intros key step ips σ e Ho Hk r. subst r.
    assert (VMExecShell env EnvmapToSlice v vmNames key step w
            = {| final := answered (final (getIPs env v vmNames w)) σ;
                 trace := trace (getIPs env v vmNames w) ++ [ParsePrivateKey key];
                 outcome := Failed e |}) as ->.
    { run_start. unfold VMExecShell. run_step env. unfold wp at 1.
      rewrite (getSSHClientConfig_runs vmNames key w ips Ho).
      cbn [final trace outcome prefixed]. rewrite Hk. reflexivity. }
    cbn [trace outcome]. split; [reflexivity|]. split; [reflexivity|].
    apply Forall_app_2; [apply getIPs_quiet|]. none_of_kind.
Qed.

Lemma getIPsEach_all_resolved network vmNames ips (w w' : World Σ) found :
  resolvedAll env network vmNames w found w' →
  outcome (getIPsEach env network vmNames ips w) = Done (ips ++ found, None).
Proof.
  intros H. revert ips. induction H as [w|n rest w ip w1 found w' Hn _ IH]; intros ips.
  - rewrite app_nil_r. reflexivity.
  - rewrite (getIPsEach_resolved env _ _ _ _ _ _ _ Hn), IH, <- app_assoc. reflexivity.
Qed.

Lemma resolvedAll_snoc network pre vmName (w w1 w2 : World Σ) found ip :
  resolvedAll env network pre w found w1 →
  resolved env network vmName w1 ip w2 →
  resolvedAll env network (pre ++ [vmName]) w (found ++ [ip]) w2.
Proof.
  induction 1; intros Hr; cbn [app].
  - econstructor; [exact Hr|constructor].
  - econstructor; [eassumption|auto].
Qed.

(** X15: the address of a target is the first of those found for its MAC, and
    a target with none is refused.  After targets that are resolved, a target
    whose domain is found and reported active, and for whose MAC the
    addresses [addresses] are found: if there is none, [getIPs] returns the
    addresses of the targets before it next to an error that reads "could not
    find IP for VM '<name>': no IP found for domain"; if there are some and
    the target is the last, [getIPs] returns, with a nil error, those
    addresses and then the first of [addresses]. *)
Theorem getIPs_first_address_or_refusal (pre post : list string) (vmName : string)
    (w w1 : World Σ) (σ σ1 σ2 σ3 σ4 : Σ) (network : Network) (found : list string)
    (d : Domain) (active : Z) (mac : string) (addresses : list string) :
  env (NetworkLookupByName (networkName v)) (backend w) = (σ, Ok network) →
  resolvedAll env network pre (answered w σ) found w1 →
  env (DomainLookupByName vmName) (backend w1) = (σ1, Ok d) →
  env (DomainIsActive d) σ1 = (σ2, Ok active) →
  active ≠ 0 →
  env (getMAC d) σ2 = (σ3, Ok mac) →
  env (findIPs network mac) σ3 = (σ4, Ok addresses) →
  match addresses with
  | [] =>
      ∃ e, outcome (getIPs env v (pre ++ vmName :: post) w) = Done (found, Some e)
           ∧ Error e = "could not find IP for VM '" +:+ vmName
                       +:+ "': no IP found for domain"
  | ip :: _ =>
      outcome (getIPs env v (pre ++ [vmName]) w) = Done (found ++ [ip], None)
  end.
Proof.
  intros Hn Hpre H1 H2 Hact H3 H4.
  assert (outcome (findVMIP env network d (answered w1 σ2))
          = match addresses with
            | [] => Failed (Errorf "no IP found for domain")
            | ip :: _ => Done ip
            end) as Hf.
  { run_start. unfold findVMIP. run_steps env.
    lazymatch goal with
    | |- wp (match ?l with [] => _ | _ :: _ => _ end) _ _ => destruct l
    end; run_steps env; reflexivity. }
  destruct addresses as [|ip more].
  - eexists. split.
    + eapply getIPs_first_refusal; [reflexivity|exact Hn|exact Hpre|].
      eapply rf_address; eassumption.
    + cbn [Error]. rewrite !append_assoc. reflexivity.
  - assert (resolved env network vmName w1 ip
              (final (findVMIP env network d (answered w1 σ2)))) as Hr
      by (eapply rs_address; eassumption).
    pose proof (resolvedAll_snoc _ _ _ _ _ _ _ _ Hpre Hr) as Hall.
    run_start. unfold getIPs. run_steps env. unfold wp. run_simpl.
    apply (getIPsEach_all_resolved _ _ [] _ _ _ Hall).
Qed.

End More.

(** ** The names of the volumes of a VM *)

Lemma list_ascii_of_append (a b : string) :
  String.list_ascii_of_string (a +:+ b)
  = String.list_ascii_of_string a ++ String.list_ascii_of_string b.
Proof.
  induction a as [|x a IH]; [reflexivity|].
  change (x :: String.list_ascii_of_string (a +:+ b)
          = x :: String.list_ascii_of_string a ++ String.list_ascii_of_string b).
  rewrite IH. reflexivity.
Qed.

Lemma list_ascii_of_string_inj (a b : string) :
  String.list_ascii_of_string a = String.list_ascii_of_string b → a = b.
Proof.
  intros H. rewrite <- (String.string_of_list_ascii_of_string a),
              <- (String.string_of_list_ascii_of_string b), H. reflexivity.
Qed.

Lemma append_cancel_r (a b s : string) : a +:+ s = b +:+ s → a = b.
Proof.
  intros H. apply list_ascii_of_string_inj.
  apply (f_equal String.list_ascii_of_string) in H.
  rewrite !list_ascii_of_append in H. exact (app_inv_tail _ _ _ H).
Qed.

Lemma append_ends_differ (a b : string) (x y : ascii) (s t : string) :
  x ≠ y → a +:+ s +:+ String x "" ≠ b +:+ t +:+ String y "".
Proof.
  intros Hxy H. apply (f_equal String.list_ascii_of_string) in H.
  rewrite !list_ascii_of_append in H. apply (f_equal (@rev ascii)) in H.
  rewrite !rev_app_distr in H. cbn in H. congruence.
Qed.

(** X16: the names of the volumes.  The scratch volume and the cloud-init
    volume of a VM are named differently from its boot volume and from each
    other; no scratch volume of any VM bears the name of a cloud-init volume
    of any VM; and two VMs whose scratch volumes, or whose cloud-init volumes,
    bear the same name have the same name. *)
Theorem volume_names_apart (vmName other : string) :
  scratchVolumeName vmName ≠ vmName
  ∧ ciDataVolumeName vmName ≠ vmName
  ∧ scratchVolumeName vmName ≠ ciDataVolumeName other
  ∧ (scratchVolumeName vmName = scratchVolumeName other → vmName = other)
  ∧ (ciDataVolumeName vmName = ciDataVolumeName other → vmName = other).
Proof.
  split; [apply scratchVolumeName_neq|]. split; [apply ciDataVolumeName_neq|].
  split; [|split].
  - unfold scratchVolumeName, ciDataVolumeName.
    exact (append_ends_differ vmName other "h" "a" "-scratc" "-cidat" ltac:(discriminate)).
  - apply append_cancel_r.
  - apply append_cancel_r.
Qed.


(** * Properties of the command *)

Module SSHCommandFacts.
Import SSHCommand.

Lemma SplitN2_first s : SplitN2 s "="%char !! 0%nat = Some (exported s).
Proof.
  induction s as [|a s IH]; [reflexivity|]. cbn [SplitN2 exported].
  destruct (Ascii.eqb a "="); [reflexivity|].
  destruct (SplitN2 s "=") as [|before after]; [discriminate|].
  cbn in IH |- *. congruence.
Qed.

Lemma envBlobFrom_lines blob env :
  envBlobFrom blob env = Some (blob +:+ lines (exportLine <$> env)).
Proof.
  revert blob. induction env as [|kv env IH]; intros blob.
  - cbn. f_equal. induction blob as [|x b IHb]; [reflexivity|].
    change (String x b = String x (b +:+ "")). rewrite <- IHb. reflexivity.
  - cbn [envBlobFrom]. rewrite SplitN2_first, IH. f_equal.
    cbn [fmap list_fmap lines]. rewrite append_assoc. reflexivity.
Qed.

Section Commands.
Context {Σ : Type}.
Variable remote : Op → Σ → Σ * error.

(** One request of the run after the other, by its answer. *)
Ltac next_answer :=
  match goal with
  | |- context [ remote ?op ?σ ] =>
      let e := fresh "e" in
      destruct (remote op σ) as [? [e|]] eqn:?; cbn [fst snd app]
  end.

Ltac run_command :=
  unfold runSSHCommand, requests, returned, mbind, Steps_bind, andThen, deferring,
    ask, tell, errorOf, failing, done;
  cbn [fst snd app].

(** X17: [runSSHCommand] closes the client it dialled, however it returns.
    When the dial fails, the dial is the only request and its error is the
    result; when it succeeds, the run ends with the closing of the client,
    which is asked for once. *)
Theorem runSSHCommand_closes_client (config : ClientConfig) (ipPort script : string)
    (env : list string) (σ : Σ) :
  let r := runSSHCommand remote config ipPort script env σ in
  (∀ σ' e, remote (Dial "tcp" ipPort config) σ = (σ', Some e) →
     r = (σ', [Dial "tcp" ipPort config], Fault e))
  ∧ (∀ σ', remote (Dial "tcp" ipPort config) σ = (σ', None) →
       ∃ body, requests r = Dial "tcp" ipPort config :: body ++ [ClientClose]
               ∧ ClientClose ∉ body).
Proof.
  intros r. subst r. split.
  - intros σ' e H. run_command. rewrite H. reflexivity.
  - intros σ' H. run_command. rewrite H. cbn [fst snd app].
    rewrite envBlobFrom_lines.
    repeat next_answer.
    all: lazymatch goal with
         | |- ∃ body, _ :: ?rest = _ ∧ _ => exists (removelast rest)
         end; cbn [removelast]; (split; [reflexivity|]).
    all: rewrite ?elem_of_cons, elem_of_nil; intuition discriminate.
Qed.

Ltac not_there Hin :=
  exfalso; rewrite ?elem_of_cons, elem_of_nil in Hin; intuition discriminate.

(** X18: a run of [runSSHCommand] that comes to wait for the shell has, in
    this order, dialled, opened the session and its three pipes, started the
    two logging goroutines, started the shell, written to its standard input
    one line per entry of the environment followed by the script, and closed
    the standard input; after the wait it waits for the two goroutines and
    closes the client; and what it returns is what the wait returned, nil or
    the error as it is. *)
Theorem runSSHCommand_complete_run (config : ClientConfig) (ipPort script : string)
    (env : list string) (σ : Σ) :
  let r := runSSHCommand remote config ipPort script env σ in
  SessionWait ∈ requests r →
  requests r
  = [ Dial "tcp" ipPort config; NewSession; StdinPipe; StdoutPipe; StderrPipe;
      GoLogLines "SSH stdout: " Stdout; GoLogLines "SSH stderr: " Stderr;
      Shell;
      Fprintln (lines (exportLine <$> env) +:+ " " +:+ script +:+ newline);
      StdinClose; SessionWait; WaitGroupWait; ClientClose ]
  ∧ ∃ σ1 σ2 err,
      remote SessionWait σ1 = (σ2, err)
      ∧ returned r = match err with Some e => Fault e | None => Ok () end.
Proof.
  intros r. subst r. run_command. rewrite envBlobFrom_lines.
  repeat next_answer; intros Hin; try (not_there Hin).
  all: (split; [reflexivity|]); eexists _, _, _; (split; [eassumption|]); reflexivity.
Qed.

(** X19: the two logging goroutines are waited for only at the end of a
    complete run: when they were started and the run did not wait for them,
    the shell could not be started or the input could not be written, and the
    run returned that error. *)
Theorem runSSHCommand_logging_left_behind (config : ClientConfig) (ipPort script : string)
    (env : list string) (σ : Σ) (prefix : string) (stream : Stream) :
  let r := runSSHCommand remote config ipPort script env σ in
  GoLogLines prefix stream ∈ requests r →
  WaitGroupWait ∉ requests r →
  ∃ op σ1 σ2 e,
    (op = Shell ∨ ∃ text, op = Fprintln text)
    ∧ remote op σ1 = (σ2, Some e)
    ∧ returned r = Fault e
    ∧ SessionWait ∉ requests r.
Proof.
  intros r. subst r. run_command. rewrite envBlobFrom_lines.
  repeat next_answer; intros Hin Hout; try (not_there Hin).
  all: try (exfalso; apply Hout; rewrite !elem_of_cons; auto 20; fail).
  all: eexists _, _, _, _; split; [|split; [eassumption|split; [reflexivity|]]];
    [eauto|]; intros Hw; not_there Hw.
Qed.

End Commands.

Lemma exported_key key value :
  hasEquals key = false → exported (key +:+ "=" +:+ value) = key.
Proof.
  induction key as [|a key IH]; intros Hk; [reflexivity|].
  cbn [hasEquals] in Hk.
  change (exported (String a (key +:+ "=" +:+ value)) = String a key).
  cbn [exported]. destruct (Ascii.eqb a "="); [discriminate|]. rewrite IH by assumption.
  reflexivity.
Qed.

Lemma exported_whole kv : hasEquals kv = false → exported kv = kv.
Proof.
  induction kv as [|a kv IH]; intros Hk; [reflexivity|].
  cbn [hasEquals exported] in *. destruct (Ascii.eqb a "="); [discriminate|].
  rewrite IH by assumption. reflexivity.
Qed.

Lemma exported_no_equals kv : hasEquals (exported kv) = false.
Proof.
  induction kv as [|a kv IH]; [reflexivity|].
  cbn [exported]. destruct (Ascii.eqb a "=") eqn:E; [reflexivity|].
  cbn [hasEquals]. rewrite E. exact IH.
Qed.

(** X20: what [runSSHCommand] builds from the environment.  The index into
    the pieces of an entry is always in range; each entry gives one line, the
    entry, then [; export], then the text of the entry before its first "=";
    so an entry [KEY=value] whose key holds no "=" exports [KEY], whatever the
    value is, an entry without "=" is exported under its own text, and the
    exported name never holds an "=". *)
Theorem envBlob_exports_the_keys (env : list string) :
  envBlobFrom "" env = Some (lines (exportLine <$> env))
  ∧ (∀ key value,
       hasEquals key = false →
       exportLine (key +:+ "=" +:+ value)
       = key +:+ "=" +:+ value +:+ " ; export  " +:+ key +:+ newline)
  ∧ (∀ kv, hasEquals kv = false →
       exportLine kv = kv +:+ " ; export  " +:+ kv +:+ newline)
  ∧ (∀ kv, hasEquals (exported kv) = false).
Proof.
  split; [apply envBlobFrom_lines|]. split; [|split].
  - intros key value Hk. unfold exportLine. rewrite exported_key by assumption.
    rewrite !append_assoc. reflexivity.
  - intros kv Hk. unfold exportLine. rewrite exported_whole by assumption. reflexivity.
  - apply exported_no_equals.
Qed.

End SSHCommandFacts.

(** * The further properties at work on the double *)

Lemma VMRun_success_requests_witness :
  let w := Double.world Double.initial [] [] in
  let r := VMRun Double.handle Double.qemuMAC Double.virter (Double.config "vm1" 7) true w in
  outcome r = Done ()
  ∧ ∃ ip, last (trace r) = Some (WaitPort ip "ssh")
          ∧ length (trace r) = 18%nat
          ∧ answersWith Double.handle (addDHCPEntry (Double.qemuMAC 7) 7) ip.
Proof.
  intros w r.
  assert (outcome r = Done ()) as Hd by by_computation.
  destruct (VMRun_success_requests Double.handle Double.qemuMAC Double.virter
              (Double.config "vm1" 7) true w Hd)
    as (sp & backing & path & bootXML & boot & meta & user & iso & ciXML & ci
        & scratchXML & scratch & domXML & d & ip & Ht & Hrest).
  split; [exact Hd|]. exists ip.
  split; [exact (eq_trans (f_equal last Ht) eq_refl)|].
  split; [exact (eq_trans (f_equal length Ht) eq_refl)|].
  exact (proj2 (proj2 (proj2 (proj2 (proj2 (proj2 (proj2 (proj2 (proj2 (proj2 (proj2
          (proj2 (proj2 (proj2 Hrest)))))))))))))).
Defined.

Lemma VMRun_waits_for_SSH_last_witness :
  let w := Double.world Double.initial [] [] in
  let r := VMRun Double.handle Double.qemuMAC Double.virter (Double.config "vm1" 7) true w in
  WaitPort "192.168.122.7" "ssh" ∈ trace r
  ∧ (∃ pre d, trace r = pre ++ [DomainCreate d; WaitPort "192.168.122.7" "ssh"]
              ∧ Forall (λ c, portWait c = false) pre)
  ∧ (outcome r = Done ()
     ∨ ∃ e, outcome r = Failed (Wrapf "unable to connect to SSH port" e)).
Proof.
  intros w r.
  assert (WaitPort "192.168.122.7" "ssh" ∈ trace r) as Hin by found_in_list.
  exact (conj Hin
           (proj2 (proj2 (proj2
              (VMRun_waits_for_SSH_last Double.handle Double.qemuMAC Double.virter
                 (Double.config "vm1" 7) true w "192.168.122.7" "ssh" Hin))))).
Defined.

Lemma rmSnapshots_stops_at_first_failure_witness :
  let s := Double.withGuests Double.booted
             (<["vm1" := {| Double.g_id := 1; Double.g_active := true;
                            Double.g_persistent := true;
                            Double.g_snapshots := ["before"; "after"];
                            Double.g_mac := "52:54:00:7" |}]> (Double.guests Double.booted)) in
  let w := Double.world s [] [] in
  let snapshots := [ {| snap_Name := "before"; snap_Dom := Double.vm1 |};
                     {| snap_Name := "after"; snap_Dom := Double.vm1 |} ] in
  let r := rmSnapshots Double.handle Double.vm1 w in
  Double.handle (DomainListAllSnapshots Double.vm1 (-1) 0) (backend w) = (s, Ok (snapshots, 2))
  ∧ outcome r = Done ()
  ∧ trace r = DomainListAllSnapshots Double.vm1 (-1) 0
              :: map (λ s, DomainSnapshotDelete s 0) snapshots.
Proof.
  intros s w snapshots r.
  assert (Double.handle (DomainListAllSnapshots Double.vm1 (-1) 0) (backend w)
          = (s, Ok (snapshots, 2))) as Hl by by_computation.
  assert (outcome r = Done ()) as Hd by by_computation.
  destruct (rmSnapshots_stops_at_first_failure Double.handle Double.vm1 w s snapshots 2 Hl)
    as [[_ Ht]|(removed & snapshot & rest & e & σ1 & σ2 & _ & _ & Hf & _)].
  - exact (conj Hl (conj Hd Ht)).
  - exfalso. pose proof (eq_trans (eq_sym Hd) Hf) as Hno. discriminate Hno.
Defined.

Lemma vmRmExceptBoot_unbinds_first_witness :
  let w := Double.world Double.booted [] [] in
  let sp := {| sp_Name := "images"; sp_UUID := 0%N |} in
  let r := vmRmExceptBoot Double.handle Double.errNoDomain Double.errNoStorageVol sp "vm1" w in
  DomainDestroy Double.vm1 ∈ trace r
  ∧ ∃ d pre gone rest,
      trace r = pre ++ rmDHCPEntry d :: gone ++ rest
      ∧ answersWith Double.handle (DomainLookupByName "vm1") d
      ∧ Forall (λ c, domainGone c = false) pre
      ∧ gone ∈ [ [DomainDestroy d]; [DomainUndefine d];
                 [DomainDestroy d; DomainUndefine d] ]
      ∧ DomainDestroy Double.vm1 ∈ gone
      ∧ Forall (λ c, domainGone c = false) rest.
Proof.
  intros w sp r.
  assert (DomainDestroy Double.vm1 ∈ trace r) as Hin by found_in_list.
  exact (conj Hin
           (vmRmExceptBoot_unbinds_first Double.handle Double.errNoDomain
              Double.errNoStorageVol sp "vm1" w (DomainDestroy Double.vm1) Hin eq_refl)).
Defined.

Lemma vmRmExceptBoot_volumes_after_domain_witness :
  let w := Double.world Double.booted [] [] in
  let sp := {| sp_Name := "images"; sp_UUID := 0%N |} in
  let r := vmRmExceptBoot Double.handle Double.errNoDomain Double.errNoStorageVol sp "vm1" w in
  StorageVolDelete (Double.volumeOf "images" "vm1-cidata") 0 ∈ trace r
  ∧ ∃ dom rest,
      trace r = dom ++ StorageVolLookupByName sp "vm1-scratch" :: rest
      ∧ domainStep Double.handle Double.errNoDomain "vm1" dom
      ∧ Forall (λ c, volumeCall c = false) dom.
Proof.
  intros w sp r.
  assert (StorageVolDelete (Double.volumeOf "images" "vm1-cidata") 0 ∈ trace r) as Hin
    by found_in_list.
  exact (conj Hin
           (vmRmExceptBoot_volumes_after_domain Double.handle Double.errNoDomain
              Double.errNoStorageVol sp "vm1" w _ Hin eq_refl)).
Defined.

Lemma VMRm_boot_volume_last_witness :
  let w := Double.world Double.booted [] [] in
  let sp := {| sp_Name := "images"; sp_UUID := 0%N |} in
  let r := VMRm Double.handle Double.errNoDomain Double.errNoStorageVol Double.virter "vm1" w in
  StorageVolLookupByName sp "vm1" ∈ trace r
  ∧ ∃ σ sp0,
      Double.handle (StoragePoolLookupByName "images") (backend w) = (σ, Ok sp0)
      ∧ sp = sp0
      ∧ let td := vmRmExceptBoot Double.handle Double.errNoDomain Double.errNoStorageVol
                    sp0 "vm1" (answered w σ) in
        outcome td = Done ()
        ∧ teardownDone Double.handle Double.errNoDomain Double.errNoStorageVol sp0 "vm1"
            (trace td)
        ∧ ∃ rest,
            trace r = StoragePoolLookupByName "images"
                      :: trace td ++ StorageVolLookupByName sp0 "vm1" :: rest
            ∧ (rest = []
               ∨ ∃ vol, rest = [StorageVolDelete vol 0]
                        ∧ answersWith Double.handle (StorageVolLookupByName sp0 "vm1") vol).
Proof.
  intros w sp r.
  assert (StorageVolLookupByName sp "vm1" ∈ trace r) as Hin by found_in_list.
  exact (conj Hin
           (VMRm_boot_volume_last Double.handle Double.errNoDomain Double.errNoStorageVol
              Double.virter "vm1" w sp Hin)).
Defined.

Lemma VMCommit_timeout_takes_nothing_down_witness :
  let w := Double.world Double.booted [RecvEvent Double.strangerStopped; RecvTimeout] [] in
  let r := VMCommit Double.handle Double.errNoDomain Double.errNoStorageVol Double.virter
             "vm1" true 30 w in
  Double.handle (DomainShutdown Double.vm1) Double.booted
  = (Double.halt Double.booted Double.vm1, Ok ())
  ∧ outcome r = Failed (Errorf "timed out waiting for domain to stop")
  ∧ trace r = [DomainLookupByName "vm1"; LifecycleEvents; DomainIsActive Double.vm1;
               DomainShutdown Double.vm1; After 30]
  ∧ inbox (final r) = [].
Proof.
  intros w r.
  assert (Double.handle (DomainShutdown Double.vm1) Double.booted
          = (Double.halt Double.booted Double.vm1, Ok ())) as Hs by by_computation.
  assert (Forall (passedOver Double.vm1) [RecvEvent Double.strangerStopped]) as Hp.
  { constructor; [|constructor]. exists Double.strangerStopped. split; [reflexivity|].
    intros [Hid _]. discriminate Hid. }
  exact (conj Hs
           (VMCommit_timeout_takes_nothing_down Double.handle Double.errNoDomain
              Double.errNoStorageVol Double.virter "vm1" 30 w
              Double.booted Double.booted Double.booted (Double.halt Double.booted Double.vm1)
              Double.vm1 1 [RecvEvent Double.strangerStopped] []
              ltac:(by_computation) ltac:(by_computation) ltac:(by_computation)
              ltac:(discriminate) Hs eq_refl Hp)).
Defined.

Lemma VMCommit_teardown_after_stop_witness :
  let w := Double.world Double.booted
             [RecvEvent Double.strangerStopped; RecvEvent Double.vm1Stopped; RecvTimeout] [] in
  let stopped := Double.halt Double.booted Double.vm1 in
  let sp := {| sp_Name := "images"; sp_UUID := 0%N |} in
  let r := VMCommit Double.handle Double.errNoDomain Double.errNoStorageVol Double.virter
             "vm1" true 30 w in
  let td := vmRmExceptBoot Double.handle Double.errNoDomain Double.errNoStorageVol sp "vm1"
              {| backend := stopped; inbox := [RecvTimeout]; scheduler := [] |} in
  Double.handle (DomainShutdown Double.vm1) Double.booted = (stopped, Ok ())
  ∧ stopsDomain Double.vm1 Double.vm1Stopped
  ∧ trace r = [DomainLookupByName "vm1"; LifecycleEvents; DomainIsActive Double.vm1;
               DomainShutdown Double.vm1; After 30; StoragePoolLookupByName "images"]
              ++ trace td
  ∧ outcome r = outcome td
  ∧ final r = final td.
Proof.
  intros w stopped sp r td.
  assert (Double.handle (DomainShutdown Double.vm1) Double.booted = (stopped, Ok ())) as Hs
    by by_computation.
  assert (stopsDomain Double.vm1 Double.vm1Stopped) as He by (split; reflexivity).
  assert (Forall (passedOver Double.vm1) [RecvEvent Double.strangerStopped]) as Hp.
  { constructor; [|constructor]. exists Double.strangerStopped. split; [reflexivity|].
    intros [Hid _]. discriminate Hid. }
  exact (conj Hs (conj He
           (VMCommit_teardown_after_stop Double.handle Double.errNoDomain
              Double.errNoStorageVol Double.virter "vm1" 30 w
              Double.booted Double.booted Double.booted stopped stopped
              Double.vm1 1 sp [RecvEvent Double.strangerStopped] [RecvTimeout]
              Double.vm1Stopped
              ltac:(by_computation) ltac:(by_computation) ltac:(by_computation)
              ltac:(discriminate) Hs eq_refl Hp He ltac:(by_computation)))).
Defined.

Lemma getSSHClientConfig_one_address_per_target_witness :
  let w := Double.world Double.booted [] [] in
  let config := {| User := "root"; Auth := [{| signer_key := "PEM" |}] |} in
  outcome (getSSHClientConfig Double.handle Double.virter ["vm1"] "PEM" w)
  = Done (config, ["192.168.122.7"])
  ∧ User config = "root"
  ∧ ∃ signer, Auth config = [signer]
              ∧ answersWith Double.handle (ParsePrivateKey "PEM") signer.
Proof.
  intros w config.
  assert (outcome (getSSHClientConfig Double.handle Double.virter ["vm1"] "PEM" w)
          = Done (config, ["192.168.122.7"])) as Hd by by_computation.
  exact (conj Hd
           (proj2 (proj2 (proj2
              (getSSHClientConfig_one_address_per_target Double.handle Double.virter
                 ["vm1"] "PEM" w config ["192.168.122.7"] Hd))))).
Defined.

Lemma VMExecDocker_one_container_for_all_witness :
  let w := Double.world Double.three [] [] in
  let cfg := {| ContainerImage := "provisioner" |} in
  let ips := ["192.168.122.7"; "192.168.122.8"; "192.168.122.9"] in
  let r := VMExecDocker Double.handle Double.virter ["vm1"; "vm2"; "vm3"] cfg "PEM" w in
  dockerRun cfg ips "PEM" ∈ trace r
  ∧ length ips = 3%nat
  ∧ ∃ resolving,
      trace r = resolving ++ [dockerRun cfg ips "PEM"]
      ∧ Forall (λ c, remoteWork c = false) resolving.
Proof.
  intros w cfg ips r.
  assert (dockerRun cfg ips "PEM" ∈ trace r) as Hin by found_in_list.
  destruct (VMExecDocker_one_container_for_all Double.handle Double.virter
              ["vm1"; "vm2"; "vm3"] cfg "PEM" w cfg ips "PEM" Hin)
    as (_ & _ & Hl & _ & Ht & _).
  exact (conj Hin (conj Hl Ht)).
Defined.

Lemma provisioning_without_targets_witness :
  let w := Double.world Double.booted [] [] in
  let network := {| net_Name := "default"; net_UUID := 0%N |} in
  let cfg := {| ContainerImage := "provisioner" |} in
  let step := {| Source := "/etc/*.conf"; Dest := "/etc" |} in
  Double.handle (NetworkLookupByName "default") Double.booted = (Double.booted, Ok network)
  ∧ Double.handle (ParsePrivateKey "PEM") Double.booted
    = (Double.booted, Ok {| signer_key := "PEM" |})
  ∧ Double.handle (Glob "/etc/*.conf") Double.booted = (Double.booted, Ok ["/etc/*.conf"])
  ∧ VMExecDocker Double.handle Double.virter [] cfg "PEM" w
    = prefixed [NetworkLookupByName "default"]
        (call Double.handle (dockerRun cfg [] "PEM") (answered w Double.booted))
  ∧ VMExecShell Double.handle Double.EnvmapToSlice Double.virter [] "PEM" Double.uname w
    = {| final := answered w Double.booted;
         trace := [NetworkLookupByName "default"; ParsePrivateKey "PEM"];
         outcome := Done () |}
  ∧ VMExecRsync Double.handle Double.virter [] step w
    = {| final := answered w Double.booted;
         trace := [Glob "/etc/*.conf"; NetworkLookupByName "default"];
         outcome := Done () |}.
Proof.
  intros w network cfg step.
  assert (Double.handle (NetworkLookupByName "default") Double.booted
          = (Double.booted, Ok network)) as Hn by by_computation.
  assert (Double.handle (ParsePrivateKey "PEM") Double.booted
          = (Double.booted, Ok {| signer_key := "PEM" |})) as Hk by by_computation.
  assert (Double.handle (Glob "/etc/*.conf") Double.booted
          = (Double.booted, Ok ["/etc/*.conf"])) as Hg by by_computation.
  destruct (provisioning_without_targets Double.handle Double.EnvmapToSlice Double.virter w)
    as (Hdocker & Hshell & Hrsync).
  exact (conj Hn (conj Hk (conj Hg
           (conj (Hdocker Double.booted network cfg "PEM" Hn)
              (conj (Hshell Double.booted network "PEM" Double.uname Double.booted _ Hn Hk)
                 (Hrsync step Double.booted _ Double.booted network Hg Hn)))))).
Defined.

Lemma provisioning_preparation_failures_witness :
  let w := Double.world Double.booted [] [] in
  let step := {| Source := "[a-"; Dest := "/etc" |} in
  let r := VMExecShell Double.handle Double.EnvmapToSlice Double.virter ["vm1"] ""
             Double.uname w in
  badPattern (Glob "[a-") (backend w) = (Double.booted, Fault (Errorf "syntax error in pattern"))
  ∧ outcome (getIPs Double.handle Double.virter ["vm1"] w) = Done (["192.168.122.7"], None)
  ∧ Double.handle (ParsePrivateKey "")
      (backend (final (getIPs Double.handle Double.virter ["vm1"] w)))
    = (Double.booted, Fault (Errorf "ssh: no key found"))
  ∧ VMExecRsync badPattern Double.virter ["vm1"] step w
    = {| final := answered w Double.booted;
         trace := [Glob "[a-"];
         outcome := Failed (Wrapf "failed to parse glob pattern"
                              (Errorf "syntax error in pattern")) |}
  ∧ outcome r = Failed (Errorf "ssh: no key found")
  ∧ trace r = trace (getIPs Double.handle Double.virter ["vm1"] w) ++ [ParsePrivateKey ""]
  ∧ Forall (λ c, remoteWork c = false) (trace r).
Proof.
  intros w step r.
  assert (badPattern (Glob "[a-") (backend w)
          = (Double.booted, Fault (Errorf "syntax error in pattern"))) as Hg by by_computation.
  assert (outcome (getIPs Double.handle Double.virter ["vm1"] w)
          = Done (["192.168.122.7"], None)) as Hi by by_computation.
  assert (Double.handle (ParsePrivateKey "")
            (backend (final (getIPs Double.handle Double.virter ["vm1"] w)))
          = (Double.booted, Fault (Errorf "ssh: no key found"))) as Hk by by_computation.
  exact (conj Hg (conj Hi (conj Hk
           (conj (proj1 (provisioning_preparation_failures badPattern Double.EnvmapToSlice
                           Double.virter ["vm1"] w) step Double.booted _ Hg)
              (proj2 (provisioning_preparation_failures Double.handle Double.EnvmapToSlice
                        Double.virter ["vm1"] w) "" Double.uname _ Double.booted _ Hi Hk))))).
Defined.

Lemma getIPs_first_address_or_refusal_witness :
  let w := Double.world Double.booted [] [] in
  let bare := Double.withHosts Double.booted ∅ in
  let network := {| net_Name := "default"; net_UUID := 0%N |} in
  Double.handle (findIPs network "52:54:00:7") Double.booted
  = (Double.booted, Ok ["192.168.122.7"])
  ∧ Double.handle (findIPs network "52:54:00:7") bare = (bare, Ok [])
  ∧ outcome (getIPs Double.handle Double.virter ["vm1"] w) = Done (["192.168.122.7"], None)
  ∧ ∃ e, outcome (getIPs Double.handle Double.virter ["vm1"; "vm2"]
                    (Double.world bare [] [])) = Done ([], Some e)
         ∧ Error e = "could not find IP for VM 'vm1': no IP found for domain".
Proof.
  intros w bare network.
  assert (Double.handle (findIPs network "52:54:00:7") Double.booted
          = (Double.booted, Ok ["192.168.122.7"])) as Hf by by_computation.
  assert (Double.handle (findIPs network "52:54:00:7") bare = (bare, Ok [])) as Hb
    by by_computation.
  exact (conj Hf (conj Hb
           (conj
              (getIPs_first_address_or_refusal Double.handle Double.virter [] [] "vm1"
                 w (answered w Double.booted)
                 Double.booted Double.booted Double.booted Double.booted Double.booted
                 network [] Double.vm1 1 "52:54:00:7" ["192.168.122.7"]
                 ltac:(by_computation) (ra_nil _ _ _)
                 ltac:(by_computation) ltac:(by_computation) ltac:(discriminate)
                 ltac:(by_computation) Hf)
              (getIPs_first_address_or_refusal Double.handle Double.virter [] ["vm2"] "vm1"
                 (Double.world bare [] []) (answered (Double.world bare [] []) bare)
                 bare bare bare bare bare
                 network [] Double.vm1 1 "52:54:00:7" []
                 ltac:(by_computation) (ra_nil _ _ _)
                 ltac:(by_computation) ltac:(by_computation) ltac:(discriminate)
                 ltac:(by_computation) Hb)))).
Defined.

Lemma volume_names_apart_witness :
  scratchVolumeName "vm1" = scratchVolumeName "vm1" ∧ "vm1" = "vm1".
Proof.
  split; [reflexivity|].
  exact (proj1 (proj2 (proj2 (proj2 (volume_names_apart "vm1" "vm1")))) eq_refl).
Defined.

(** The command, with a remote end that records what it is asked. *)

Import SSHCommand.

Lemma runSSHCommand_closes_client_witness :
  let config := {| User := "root"; Auth := [{| signer_key := "PEM" |}] |} in
  let dial := Dial "tcp" "192.168.122.7:22" config in
  let noDial := recording (λ op, match op with Dial _ _ _ => true | _ => false end) in
  let open := recording (λ _, false) in
  noDial dial [] = ([dial], Some (Errorf "refused"))
  ∧ open dial [] = ([dial], None)
  ∧ runSSHCommand noDial config "192.168.122.7:22" "uname -a" ["A=1"] []
    = ([dial], [dial], Fault (Errorf "refused"))
  ∧ ∃ body,
      requests (runSSHCommand open config "192.168.122.7:22" "uname -a" ["A=1"] [])
      = dial :: body ++ [ClientClose]
      ∧ ClientClose ∉ body.
Proof.
  intros config dial noDial open.
  assert (noDial dial [] = ([dial], Some (Errorf "refused"))) as Hn by reflexivity.
  assert (open dial [] = ([dial], None)) as Ho by reflexivity.
  exact (conj Hn (conj Ho
           (conj (proj1 (SSHCommandFacts.runSSHCommand_closes_client noDial config
                           "192.168.122.7:22" "uname -a" ["A=1"] []) _ _ Hn)
              (proj2 (SSHCommandFacts.runSSHCommand_closes_client open config
                        "192.168.122.7:22" "uname -a" ["A=1"] []) _ Ho)))).
Defined.

Lemma runSSHCommand_complete_run_witness :
  let config := {| User := "root"; Auth := [{| signer_key := "PEM" |}] |} in
  let open := recording (λ _, false) in
  let r := runSSHCommand open config "192.168.122.7:22" "uname -a" ["A=1"; "B"] [] in
  SessionWait ∈ requests r
  ∧ requests r
    = [ Dial "tcp" "192.168.122.7:22" config; NewSession; StdinPipe; StdoutPipe; StderrPipe;
        GoLogLines "SSH stdout: " Stdout; GoLogLines "SSH stderr: " Stderr;
        Shell;
        Fprintln (lines (exportLine <$> ["A=1"; "B"]) +:+ " " +:+ "uname -a" +:+ newline);
        StdinClose; SessionWait; WaitGroupWait; ClientClose ].
Proof.
  intros config open r.
  assert (SessionWait ∈ requests r) as Hin by found_in_list.
  exact (conj Hin
           (proj1 (SSHCommandFacts.runSSHCommand_complete_run open config
                     "192.168.122.7:22" "uname -a" ["A=1"; "B"] [] Hin))).
Defined.

Lemma runSSHCommand_logging_left_behind_witness :
  let config := {| User := "root"; Auth := [{| signer_key := "PEM" |}] |} in
  let noShell := recording (λ op, match op with Shell => true | _ => false end) in
  let r := runSSHCommand noShell config "192.168.122.7:22" "uname -a" ["A=1"] [] in
  GoLogLines "SSH stdout: " Stdout ∈ requests r
  ∧ (WaitGroupWait ∉ requests r)
  ∧ ∃ op σ1 σ2 e,
      (op = Shell ∨ ∃ text, op = Fprintln text)
      ∧ noShell op σ1 = (σ2, Some e)
      ∧ returned r = Fault e
      ∧ SessionWait ∉ requests r.
Proof.
  intros config noShell r.
  assert (GoLogLines "SSH stdout: " Stdout ∈ requests r) as Hin by found_in_list.
  assert (WaitGroupWait ∉ requests r) as Hout.
  { intros H. apply list_elem_of_In in H. vm_compute in H.
    repeat (destruct H as [H|H]; [discriminate H|]). exact H. }
  exact (conj Hin (conj Hout
           (SSHCommandFacts.runSSHCommand_logging_left_behind noShell config
              "192.168.122.7:22" "uname -a" ["A=1"] [] "SSH stdout: " Stdout Hin Hout))).
Defined.

Lemma envBlob_exports_the_keys_witness :
  hasEquals "A" = false
  ∧ hasEquals "PATH" = false
  ∧ envBlobFrom "" ["A=1=2"; "PATH"] = Some (lines (exportLine <$> ["A=1=2"; "PATH"]))
  ∧ exportLine ("A" +:+ "=" +:+ "1=2")
    = "A" +:+ "=" +:+ "1=2" +:+ " ; export  " +:+ "A" +:+ newline
  ∧ exportLine "PATH" = "PATH" +:+ " ; export  " +:+ "PATH" +:+ newline.
Proof.
  destruct (SSHCommandFacts.envBlob_exports_the_keys ["A=1=2"; "PATH"])
    as (Hblob & Hkey & Hwhole & _).
  exact (conj eq_refl (conj eq_refl
           (conj Hblob (conj (Hkey "A" "1=2" eq_refl) (Hwhole "PATH" eq_refl))))).
Defined.
